(** * readsb MCP server: the geospatial query engine

    A shallow embedding of [readsb_mcp_server.py] (class [ReadsbMCPServer]):
    the coordinate helpers, the direction table, and the four tool handlers
    [_get_closest_aircraft], [_get_aircraft_by_direction], [_search_aircraft]
    and [_get_aircraft_data].

    Conventions of the embedding.
    - Python [float] and JSON numbers are real numbers ([R]); rounding of
      binary64 arithmetic is not modelled.  Integers met in arguments are [Z].
    - Python [str] is [string] restricted to ASCII.
    - A JSON object with a fixed set of optional keys is a record of
      [option] fields; [d.get(k)] is the field, [k in d] holds when it is [Some _].
    - The handlers are [async] methods that call [self._fetch_json]; they
      live in a small monad that carries the log of fetched end points and
      may raise an exception, which the handler's [try/except] turns into
      an error text. *)

From Stdlib Require Import Reals Lra Psatz Lia ZArith List Bool String Ascii.
From Stdlib Require Import Sorted Permutation DecimalString ROrderedType.
Import ListNotations.

Set Implicit Arguments.

(** ** Python primitives *)

Module Py.

Open Scope R_scope.

(** [a <= b] on floats, as a boolean. *)
Definition leb (a b : R) : bool := if Rle_dec a b then true else false.

(** [a >= b]. *)
Definition geb (a b : R) : bool := leb b a.

(** Truth value of a number: [bool(x)] is [False] exactly for zero. *)
Definition truthy (x : R) : bool := if Req_dec_T x 0 then false else true.

(** Truth value of [d.get(k)] for a numeric key: [None] and [0] are falsy. *)
Definition truthy_opt (x : option R) : bool :=
  match x with
  | None => false
  | Some v => truthy v
  end.

(** [math.radians] and [math.degrees]. *)
Definition radians (x : R) : R := x * (PI / 180).
Definition degrees (x : R) : R := x * (180 / PI).

(** [math.atan2(y, x)] ([atan2(0, 0)] is [0]). *)
Definition atan2 (y x : R) : R :=
  if Rlt_dec 0 x then atan (y / x)
  else if Rlt_dec x 0 then
         if Rle_dec 0 y then atan (y / x) + PI else atan (y / x) - PI
  else if Rlt_dec 0 y then PI / 2
  else if Rlt_dec y 0 then - (PI / 2)
  else 0.

(** [x % m] on floats: the result has the sign of [m]. *)
Definition fmod (x m : R) : R := x - IZR (Int_part (x / m)) * m.

Close Scope R_scope.

(** ASCII [str.upper], [str.lower]. *)
Definition upper_char (c : ascii) : ascii :=
  let n := nat_of_ascii c in
  if (97 <=? n)%nat && (n <=? 122)%nat then ascii_of_nat (n - 32) else c.

Definition lower_char (c : ascii) : ascii :=
  let n := nat_of_ascii c in
  if (65 <=? n)%nat && (n <=? 90)%nat then ascii_of_nat (n + 32) else c.

Fixpoint upper (s : string) : string :=
  match s with
  | EmptyString => EmptyString
  | String c r => String (upper_char c) (upper r)
  end.

Fixpoint lower (s : string) : string :=
  match s with
  | EmptyString => EmptyString
  | String c r => String (lower_char c) (lower r)
  end.

(** [str.isspace] on one ASCII character: TAB, LF, VT, FF, CR, the four
    separators 28..31 and the space. *)
Definition is_space (c : ascii) : bool :=
  let n := nat_of_ascii c in
  ((9 <=? n)%nat && (n <=? 13)%nat) || ((28 <=? n)%nat && (n <=? 32)%nat).

Fixpoint lstrip (s : string) : string :=
  match s with
  | EmptyString => EmptyString
  | String c r => if is_space c then lstrip r else s
  end.

(** [rstrip]: a character is dropped when it is a space and everything after
    it is dropped too. *)
Fixpoint rstrip (s : string) : string :=
  match s with
  | EmptyString => EmptyString
  | String c r =>
      match rstrip r with
      | EmptyString => if is_space c then EmptyString else String c EmptyString
      | r' => String c r'
      end
  end.

Definition strip (s : string) : string := rstrip (lstrip s).

(** [s.startswith(q)]. *)
Fixpoint startswith (q s : string) : bool :=
  match q, s with
  | EmptyString, _ => true
  | String _ _, EmptyString => false
  | String a q', String b s' => Ascii.eqb a b && startswith q' s'
  end.

(** [q in s] for strings: [q] occurs in [s] as a contiguous block. *)
Fixpoint str_in (q s : string) : bool :=
  startswith q s ||
  match s with
  | EmptyString => false
  | String _ s' => str_in q s'
  end.

(** [x in l] for a list of strings. *)
Definition in_list (x : string) (l : list string) : bool :=
  existsb (String.eqb x) l.

(** [d.get(k, default)] for a dict literal, given as its list of items. *)
Fixpoint dict_get {V : Type} (d : list (string * V)) (k : string) (default : V) : V :=
  match d with
  | [] => default
  | (k', v) :: rest => if String.eqb k k' then v else dict_get rest k default
  end.

(** [o.get(k, default)] for an optional key of a JSON object. *)
Definition get {V : Type} (field : option V) (default : V) : V :=
  match field with
  | Some v => v
  | None => default
  end.

(** [l.sort(key=...)] is a stable sort; the key is a float.  The element
    inserted comes before the elements already placed in the input, so it
    goes in front of the first element whose key is not smaller. *)
Fixpoint insert_by {A : Type} (key : A -> R) (x : A) (l : list A) : list A :=
  match l with
  | [] => [x]
  | y :: r => if leb (key x) (key y) then x :: l else y :: insert_by key x r
  end.

Fixpoint sort_by {A : Type} (key : A -> R) (l : list A) : list A :=
  match l with
  | [] => []
  | x :: r => insert_by key x (sort_by key r)
  end.

(** A JSON / Python value as far as [isinstance(v, int)] can tell. *)
Inductive value :=
| VNone
| VBool (b : bool)
| VInt (z : Z)
| VFloat (r : R)
| VStr (s : string).

(** [Some n] when [isinstance(v, int)] holds ([bool] is a subclass of [int]
    with [True == 1] and [False == 0]), [None] otherwise. *)
Definition as_int (v : value) : option Z :=
  match v with
  | VInt z => Some z
  | VBool b => Some (if b then 1%Z else 0%Z)
  | _ => None
  end.

(** [type(v).__name__]. *)
Definition type_name (v : value) : string :=
  match v with
  | VNone => "NoneType"
  | VBool _ => "bool"
  | VInt _ => "int"
  | VFloat _ => "float"
  | VStr _ => "str"
  end.

(** The number a value stands for in a comparison: [int], [float], and
    [bool] as 0 or 1; a string and [None] are not numbers. *)
Definition as_number (v : value) : option R :=
  match v with
  | VBool b => Some (if b then 1%R else 0%R)
  | VInt z => Some (IZR z)
  | VFloat r => Some r
  | VNone | VStr _ => None
  end.

(** [x <= y] on values: two numbers are compared by value, two strings in
    the order of their characters; any other pair raises [TypeError],
    which is [None] here. *)
Definition le (x y : value) : option bool :=
  match as_number x, as_number y with
  | Some a, Some b => Some (leb a b)
  | _, _ =>
      match x, y with
      | VStr s, VStr t => Some (String.leb s t)
      | _, _ => None
      end
  end.

End Py.

(** ** GeoMath *)

Open Scope R_scope.

(** [_calculate_distance]: great-circle distance in nautical miles by the
    haversine formula. *)
Definition _calculate_distance (lat1 lon1 lat2 lon2 : R) : R :=
  let lat1_rad := Py.radians lat1 in
  let lon1_rad := Py.radians lon1 in
  let lat2_rad := Py.radians lat2 in
  let lon2_rad := Py.radians lon2 in
  let dlat := lat2_rad - lat1_rad in
  let dlon := lon2_rad - lon1_rad in
  let a := sin (dlat / 2) ^ 2 + cos lat1_rad * cos lat2_rad * sin (dlon / 2) ^ 2 in
  let c := 2 * asin (sqrt a) in
  let earth_radius_nm := 3440.065 in
  let distance := earth_radius_nm * c in
  distance.

(** [_calculate_bearing]: initial bearing from point 1 to point 2, in degrees. *)
Definition _calculate_bearing (lat1 lon1 lat2 lon2 : R) : R :=
  let lat1_rad := Py.radians lat1 in
  let lon1_rad := Py.radians lon1 in
  let lat2_rad := Py.radians lat2 in
  let lon2_rad := Py.radians lon2 in
  let dlon := lon2_rad - lon1_rad in
  let y := sin dlon * cos lat2_rad in
  let x := cos lat1_rad * sin lat2_rad - sin lat1_rad * cos lat2_rad * cos dlon in
  let bearing := Py.degrees (Py.atan2 y x) in
  let bearing := Py.fmod (bearing + 360) 360 in
  bearing.

(** ** DirectionBucket *)

(** The dict literal of [_get_direction_range]. *)
Definition direction_ranges : list (string * (R * R)) :=
  [ ("north"%string, (337.5, 22.5));
    ("northeast"%string, (22.5, 67.5));
    ("east"%string, (67.5, 112.5));
    ("southeast"%string, (112.5, 157.5));
    ("south"%string, (157.5, 202.5));
    ("southwest"%string, (202.5, 247.5));
    ("west"%string, (247.5, 292.5));
    ("northwest"%string, (292.5, 337.5)) ].

(** [_get_direction_range]: [direction_ranges.get(direction, (0, 360))]. *)
Definition _get_direction_range (direction : string) : R * R :=
  Py.dict_get direction_ranges direction (0, 360).

(** The membership test written inline in [_get_aircraft_by_direction]
    (the value of [in_direction]). *)
Definition in_direction (bearing min_bearing max_bearing : R) : bool :=
  if Py.leb min_bearing max_bearing
  then Py.leb min_bearing bearing && Py.leb bearing max_bearing
  else Py.geb bearing min_bearing || Py.leb bearing max_bearing.

Close Scope R_scope.

(** ** Data model *)

(** One entry of the ["aircraft"] array of [aircraft.json]; every key is
    optional.  The text keys hold strings and the coordinates, the speed and
    the track hold numbers.  ["alt_baro"] and ["r_dst"], which the filters
    of the aircraft list compare, are kept as JSON values: readsb writes
    the text ["ground"] for the altitude of an aircraft on the ground. *)
Record aircraft_t := Aircraft {
  hex : option string;
  flight : option string;
  lat : option R;
  lon : option R;
  alt_baro : option Py.value;
  gs : option R;
  track : option R;
  r_dst : option Py.value
}.

(** A JSON document returned by [_fetch_json], with the keys the handlers
    read: ["lat"] and ["lon"] of [receiver.json], ["aircraft"] and ["now"]
    of [aircraft.json]. *)
Record document := Document {
  doc_lat : option R;
  doc_lon : option R;
  doc_aircraft : option (list aircraft_t);
  doc_now : option R
}.

(** Exceptions that reach the [except Exception] clause of a handler. *)
Inductive exn :=
| KeyError (key : string)
| FetchError (endpoint : string) (message : string)
| TypeError (message : string).

(** [str(e)]. *)
Definition str_exn (e : exn) : string :=
  match e with
  | KeyError key => ("'" ++ key ++ "'")%string
  | FetchError _ message => message
  | TypeError message => message
  end.

(** [x <= y], with the [TypeError] Python raises on operands it cannot
    order. *)
Definition value_le (x y : Py.value) : exn + bool :=
  match Py.le x y with
  | Some b => inr b
  | None =>
      inl (TypeError ("'<=' not supported between instances of '"
                      ++ Py.type_name x ++ "' and '" ++ Py.type_name y ++ "'"))
  end.

(** [[x for x in l if test(x)]] for a test that may raise: the elements are
    tested in order and the first exception ends the loop. *)
Fixpoint filter_raising {A : Type} (test : A -> exn + bool) (l : list A) : exn + list A :=
  match l with
  | [] => inr []
  | x :: r =>
      match test x with
      | inl e => inl e
      | inr keep =>
          match filter_raising test r with
          | inl e => inl e
          | inr kept => inr (if keep then x :: kept else kept)
          end
      end
  end.

(** The readsb HTTP API behind [self.api_base]: what a GET of each end
    point answers, or how it fails. *)
Definition upstream := string -> exn + document.

(** ** The handler monad

    State: the list of end points fetched so far, oldest first.
    Result: an exception or a value. *)

Definition IO (A : Type) : Type := list string -> (exn + A) * list string.

Definition ret {A : Type} (a : A) : IO A := fun log => (inr a, log).

Definition raise {A : Type} (e : exn) : IO A := fun log => (inl e, log).

Definition bind {A B : Type} (m : IO A) (k : A -> IO B) : IO B :=
  fun log =>
    match m log with
    | (inl e, log') => (inl e, log')
    | (inr a, log') => k a log'
    end.

(** [try: body  except Exception as e: handler(e)]. *)
Definition try_except {A : Type} (body : IO A) (handler : exn -> IO A) : IO A :=
  fun log =>
    match body log with
    | (inl e, log') => handler e log'
    | (inr a, log') => (inr a, log')
    end.

Declare Scope io_scope.
Delimit Scope io_scope with io.
Notation "x <- m ;; k" := (bind m (fun x => k))
  (at level 61, m at next level, right associativity) : io_scope.

(** [d[key]] on the arguments of a tool call: [KeyError] when absent. *)
Definition subscript {A : Type} (field : option A) (key : string) : IO A :=
  match field with
  | Some v => ret v
  | None => raise (KeyError key)
  end.

(** A computation that fetches nothing, inside a handler. *)
Definition lift {A : Type} (result : exn + A) : IO A := fun log => (result, log).

(** Running a handler from an empty log: the answer and the fetches made. *)
Definition run {A : Type} (m : IO A) : (exn + A) * list string := m [].

Section Server.

(** The server is connected to one upstream API. *)
Variable api : upstream.

(** [_fetch_json]: one GET; [raise_for_status] and transport failures raise. *)
Definition _fetch_json (endpoint : string) : IO document :=
  fun log =>
    match api endpoint with
    | inl e => (inl e, log ++ [endpoint])
    | inr d => (inr d, log ++ [endpoint])
    end.

Open Scope io_scope.

(** *** get_closest_aircraft *)

Record closest_args := ClosestArgs {
  ca_count : option Py.value;
  ca_max_distance : option R
}.

(** The text answered by [_get_closest_aircraft], by case. *)
Inductive closest_response :=
| ClosestInvalidCount
    (* "Invalid count parameter. Must be an integer between 1 and 50" *)
| ClosestNoLocation
    (* "Error: Receiver location cannot be determined from feeder data" *)
| ClosestNoneWithin (max_distance : R)
    (* "No aircraft found within {max_distance} nautical miles of the feeder" *)
| ClosestNoneNear
    (* "No aircraft found near the feeder at this time" *)
| ClosestFound (feeder_lat feeder_lon : R) (closest_aircraft : list (R * aircraft_t))
    (* "Closest {n} aircraft to feeder (...)" and one block per entry *)
| ClosestError (e : exn)
    (* "Error getting closest aircraft: {e}" *).

(** The count check shared by both handlers:
    [not isinstance(count, int) or count < 1 or count > 50]. *)
Definition count_invalid (count : Py.value) : bool :=
  match Py.as_int count with
  | None => true
  | Some n => (n <? 1)%Z || (n >? 50)%Z
  end.

(** [l[:count]] for a count that passed the check. *)
Definition take {A : Type} (count : Py.value) (l : list A) : list A :=
  match Py.as_int count with
  | Some n => firstn (Z.to_nat n) l
  | None => l
  end.

(** [max_distance is None or distance <= max_distance]. *)
Definition within (max_distance : option R) (distance : R) : bool :=
  match max_distance with
  | None => true
  | Some m => Py.leb distance m
  end.

(** The loop of [_get_closest_aircraft] that fills [aircraft_with_distances]:
    one iteration. *)
Definition closest_step (feeder_lat feeder_lon : R) (max_distance : option R)
    (aircraft_with_distances : list (R * aircraft_t)) (aircraft : aircraft_t)
  : list (R * aircraft_t) :=
  match lat aircraft, lon aircraft with
  | Some alat, Some alon =>
      let distance := _calculate_distance feeder_lat feeder_lon alat alon in
      if within max_distance distance
      then aircraft_with_distances ++ [(distance, aircraft)]
      else aircraft_with_distances
  | _, _ => aircraft_with_distances
  end.

(** The loop, the sort and the slice of [_get_closest_aircraft]. *)
Definition closest_aircraft (feeder_lat feeder_lon : R) (max_distance : option R)
    (count : Py.value) (aircraft_list : list aircraft_t) : list (R * aircraft_t) :=
  let aircraft_with_distances :=
    fold_left (closest_step feeder_lat feeder_lon max_distance) aircraft_list [] in
  let aircraft_with_distances := Py.sort_by fst aircraft_with_distances in
  take count aircraft_with_distances.

Definition _get_closest_aircraft (args : closest_args) : IO closest_response :=
  try_except
    (let count := Py.get (ca_count args) (Py.VInt 5) in
     if count_invalid count then ret ClosestInvalidCount else
     let max_distance := ca_max_distance args in
     receiver_data <- _fetch_json "receiver.json" ;;
     let feeder_lat := doc_lat receiver_data in
     let feeder_lon := doc_lon receiver_data in
     if negb (Py.truthy_opt feeder_lat) || negb (Py.truthy_opt feeder_lon)
     then ret ClosestNoLocation else
     let feeder_lat := Py.get feeder_lat 0%R in
     let feeder_lon := Py.get feeder_lon 0%R in
     aircraft_data <- _fetch_json "aircraft.json" ;;
     let aircraft_list := Py.get (doc_aircraft aircraft_data) [] in
     let closest := closest_aircraft feeder_lat feeder_lon max_distance count aircraft_list in
     match closest with
     | [] =>
         if Py.truthy_opt max_distance
         then ret (ClosestNoneWithin (Py.get max_distance 0%R))
         else ret ClosestNoneNear
     | _ => ret (ClosestFound feeder_lat feeder_lon closest)
     end)
    (fun e => ret (ClosestError e)).

(** *** get_aircraft_by_direction *)

Record direction_args := DirectionArgs {
  da_direction : option string;
  da_max_distance : option R;
  da_count : option Py.value
}.

Definition valid_directions : list string :=
  ["north"; "south"; "east"; "west"; "northeast"; "northwest"; "southeast"; "southwest"]%string.

(** The text answered by [_get_aircraft_by_direction], by case. *)
Inductive direction_response :=
| DirInvalidDirection (direction : string)
    (* "Invalid direction '{direction}'. Valid directions are: ..." *)
| DirInvalidCount
    (* "Invalid count parameter. Must be an integer between 1 and 50" *)
| DirNoLocation
    (* "Error: Receiver location cannot be determined from feeder data" *)
| DirNoneWithin (direction : string) (max_distance : R)
    (* "No aircraft found to the {direction} within {max_distance} nautical miles of the feeder" *)
| DirNone (direction : string)
    (* "No aircraft found to the {direction} of the feeder at this time" *)
| DirFound (direction : string) (feeder_lat feeder_lon : R)
    (directional_aircraft : list (R * R * aircraft_t))
    (* "Aircraft to the {direction} of feeder (...)" and one block per entry *)
| DirError (e : exn)
    (* "Error getting aircraft by direction: {e}" *).

(** One iteration of the loop that fills [directional_aircraft]. *)
Definition direction_step (feeder_lat feeder_lon min_bearing max_bearing : R)
    (max_distance : option R)
    (directional_aircraft : list (R * R * aircraft_t)) (aircraft : aircraft_t)
  : list (R * R * aircraft_t) :=
  match lat aircraft, lon aircraft with
  | Some alat, Some alon =>
      let bearing := _calculate_bearing feeder_lat feeder_lon alat alon in
      if in_direction bearing min_bearing max_bearing then
        let distance := _calculate_distance feeder_lat feeder_lon alat alon in
        if within max_distance distance
        then directional_aircraft ++ [(distance, bearing, aircraft)]
        else directional_aircraft
      else directional_aircraft
  | _, _ => directional_aircraft
  end.

(** The range lookup, the loop, the sort and the slice of
    [_get_aircraft_by_direction]. *)
Definition directional_aircraft (feeder_lat feeder_lon : R) (direction : string)
    (max_distance : option R) (count : Py.value) (aircraft_list : list aircraft_t)
  : list (R * R * aircraft_t) :=
  let '(min_bearing, max_bearing) := _get_direction_range direction in
  let directional :=
    fold_left (direction_step feeder_lat feeder_lon min_bearing max_bearing max_distance)
              aircraft_list [] in
  let directional := Py.sort_by (fun x => fst (fst x)) directional in
  take count directional.

Definition _get_aircraft_by_direction (args : direction_args) : IO direction_response :=
  try_except
    (direction <- subscript (da_direction args) "direction" ;;
     let direction := Py.lower direction in
     if negb (Py.in_list direction valid_directions)
     then ret (DirInvalidDirection direction) else
     let max_distance := da_max_distance args in
     let count := Py.get (da_count args) (Py.VInt 10) in
     if count_invalid count then ret DirInvalidCount else
     receiver_data <- _fetch_json "receiver.json" ;;
     let feeder_lat := doc_lat receiver_data in
     let feeder_lon := doc_lon receiver_data in
     if negb (Py.truthy_opt feeder_lat) || negb (Py.truthy_opt feeder_lon)
     then ret DirNoLocation else
     let feeder_lat := Py.get feeder_lat 0%R in
     let feeder_lon := Py.get feeder_lon 0%R in
     aircraft_data <- _fetch_json "aircraft.json" ;;
     let aircraft_list := Py.get (doc_aircraft aircraft_data) [] in
     let directional :=
       directional_aircraft feeder_lat feeder_lon direction max_distance count aircraft_list in
     match directional with
     | [] =>
         if Py.truthy_opt max_distance
         then ret (DirNoneWithin direction (Py.get max_distance 0%R))
         else ret (DirNone direction)
     | _ => ret (DirFound direction feeder_lat feeder_lon directional)
     end)
    (fun e => ret (DirError e)).

(** *** search_aircraft *)

Record search_args := SearchArgs {
  sa_query : option string;
  sa_search_type : option string
}.

Definition valid_search_types : list string :=
  ["callsign"; "hex"; "flight"; "any"]%string.

(** The answer of [_search_aircraft], by case; [search_text] gives its text. *)
Inductive search_response :=
| SearchEmptyQuery
| SearchInvalidType (search_type : string)
| SearchNoMatch (query search_type : string)
| SearchFound (query : string) (matches : list aircraft_t)
| SearchError (e : exn).

(** [query in aircraft.get("flight", "").strip().upper()]. *)
Definition flight_test (query : string) (aircraft : aircraft_t) : bool :=
  Py.str_in query (Py.upper (Py.strip (Py.get (flight aircraft) ""%string))).

(** [query in aircraft.get("hex", "").upper()]. *)
Definition hex_test (query : string) (aircraft : aircraft_t) : bool :=
  Py.str_in query (Py.upper (Py.get (hex aircraft) ""%string)).

(** One iteration of the matching loop: the two [continue] statements make
    the three tests a chain, and at most one [append] runs. *)
Definition search_step (search_type query : string)
    (matches : list aircraft_t) (aircraft : aircraft_t) : list aircraft_t :=
  if Py.in_list search_type ["callsign"; "any"]%string && flight_test query aircraft
  then matches ++ [aircraft]
  else if Py.in_list search_type ["hex"; "any"]%string && hex_test query aircraft
  then matches ++ [aircraft]
  else if Py.in_list search_type ["flight"; "any"]%string && flight_test query aircraft
  then matches ++ [aircraft]
  else matches.

(** The matching loop of [_search_aircraft]. *)
Definition search_matches (search_type query : string) (aircraft_list : list aircraft_t)
  : list aircraft_t :=
  fold_left (search_step search_type query) aircraft_list [].

Definition _search_aircraft (args : search_args) : IO search_response :=
  try_except
    (query <- subscript (sa_query args) "query" ;;
     let query := Py.strip (Py.upper query) in
     if String.eqb query "" then ret SearchEmptyQuery else
     let search_type := Py.get (sa_search_type args) "any"%string in
     if negb (Py.in_list search_type valid_search_types)
     then ret (SearchInvalidType search_type) else
     data <- _fetch_json "aircraft.json" ;;
     let aircraft_list := Py.get (doc_aircraft data) [] in
     let matches := search_matches search_type query aircraft_list in
     match matches with
     | [] => ret (SearchNoMatch query search_type)
     | _ => ret (SearchFound query matches)
     end)
    (fun e => ret (SearchError e)).

(** *** get_aircraft_data *)

Record altitude_filter := AltitudeFilter {
  af_min : option Py.value;
  af_max : option Py.value
}.

Record data_args := DataArgs {
  format : option string;
  filter_distance : option Py.value;
  filter_altitude : option altitude_filter
}.

(** The answer of [_get_aircraft_data]: the summary of the filtered list, or
    the document with its ["aircraft"] key replaced by the filtered list. *)
Inductive data_response :=
| DataSummary (aircraft_list : list aircraft_t) (full_data : document)
| DataJson (filtered_data : document)
| DataError (e : exn)
    (* "Error fetching aircraft data: {e}" *).

(** [a.get("r_dst", 0) <= max_dist]. *)
Definition distance_ok (max_dist : Py.value) (a : aircraft_t) : exn + bool :=
  value_le (Py.get (r_dst a) (Py.VInt 0)) max_dist.

(** [min_alt <= a.get("alt_baro", 0) <= max_alt]: the second comparison is
    made when the first one holds. *)
Definition altitude_ok (min_alt max_alt : Py.value) (a : aircraft_t) : exn + bool :=
  match value_le min_alt (Py.get (alt_baro a) (Py.VInt 0)) with
  | inl e => inl e
  | inr false => inr false
  | inr true => value_le (Py.get (alt_baro a) (Py.VInt 0)) max_alt
  end.

(** The two filters of [_get_aircraft_data], in the order of the source. *)
Definition apply_filters (args : data_args) (aircraft_list : list aircraft_t)
  : exn + list aircraft_t :=
  match
    match filter_distance args with
    | Some max_dist => filter_raising (distance_ok max_dist) aircraft_list
    | None => inr aircraft_list
    end
  with
  | inl e => inl e
  | inr aircraft_list =>
      match filter_altitude args with
      | Some alt_filter =>
          let min_alt := Py.get (af_min alt_filter) (Py.VInt 0) in
          let max_alt := Py.get (af_max alt_filter) (Py.VInt 50000) in
          filter_raising (altitude_ok min_alt max_alt) aircraft_list
      | None => inr aircraft_list
      end
  end.

Definition _get_aircraft_data (args : data_args) : IO data_response :=
  try_except
    (data <- _fetch_json "aircraft.json" ;;
     let aircraft_list := Py.get (doc_aircraft data) [] in
     aircraft_list <- lift (apply_filters args aircraft_list) ;;
     let format_type := Py.get (format args) "json"%string in
     if String.eqb format_type "summary"
     then ret (DataSummary aircraft_list data)
     else ret (DataJson
                 {| doc_lat := doc_lat data; doc_lon := doc_lon data;
                    doc_aircraft := Some aircraft_list; doc_now := doc_now data |}))
    (fun e => ret (DataError e)).

Close Scope io_scope.

End Server.

(** ** Text of the search answers *)

Section Rendering.

(** [self.web_base], and [str(x)] of a JSON number inside an f-string. *)
Variable web_base : string.
Variable str_num : R -> string.

Open Scope string_scope.

Definition nl : string := String (ascii_of_nat 10) EmptyString.

(** [str(n)] for a length. *)
Definition str_nat (n : nat) : string := NilEmpty.string_of_uint (Nat.to_uint n).

(** [sep.join(l)]. *)
Fixpoint join (sep : string) (l : list string) : string :=
  match l with
  | [] => ""
  | [x] => x
  | x :: r => x ++ sep ++ join sep r
  end.

(** [s * n] for a string. *)
Fixpoint repeat_str (s : string) (n : nat) : string :=
  match n with
  | O => ""
  | S k => s ++ repeat_str s k
  end.

(** [x or "Unknown"] for a string. *)
Definition or_unknown (s : string) : string :=
  if String.eqb s "" then "Unknown" else s.

(** [aircraft.get(key, "Unknown")] of a numeric key inside an f-string. *)
Definition num_or_unknown (x : option R) : string :=
  match x with
  | Some v => str_num v
  | None => "Unknown"
  end.

(** [str(v)] of a JSON value inside an f-string. *)
Definition str_value (v : Py.value) : string :=
  match v with
  | Py.VNone => "None"
  | Py.VBool true => "True"
  | Py.VBool false => "False"
  | Py.VInt z => NilZero.string_of_int (Z.to_int z)
  | Py.VFloat r => str_num r
  | Py.VStr s => s
  end.

(** [aircraft.get(key, "Unknown")] of a key that holds a JSON value. *)
Definition value_or_unknown (x : option Py.value) : string :=
  match x with
  | Some v => str_value v
  | None => "Unknown"
  end.

(** The block [_search_aircraft] writes for one match. *)
Definition search_entry (aircraft : aircraft_t) : string :=
  let callsign := or_unknown (Py.strip (Py.get (flight aircraft) "")) in
  let hex_code := Py.get (hex aircraft) "Unknown" in
  "Callsign: " ++ callsign ++ nl ++
  "Hex: " ++ hex_code ++ nl ++
  (if negb (String.eqb hex_code "Unknown")
   then "Map Link: " ++ web_base ++ "/?icao=" ++ hex_code ++ nl
   else "") ++
  "Altitude: " ++ value_or_unknown (alt_baro aircraft) ++ " ft" ++ nl ++
  "Position: " ++ num_or_unknown (lat aircraft) ++ ", " ++ num_or_unknown (lon aircraft) ++ nl ++
  repeat_str "-" 30 ++ nl.

(** The text of the [TextContent] that [_search_aircraft] returns. *)
Definition search_text (r : search_response) : string :=
  match r with
  | SearchEmptyQuery => "Search query cannot be empty"
  | SearchInvalidType search_type =>
      "Invalid search_type '" ++ search_type ++ "'. Valid types are: "
      ++ join ", " valid_search_types
  | SearchNoMatch query search_type =>
      "No aircraft found matching '" ++ query ++ "' with search type '" ++ search_type ++ "'"
  | SearchFound query matches =>
      "Found " ++ str_nat (List.length matches) ++ " aircraft matching '" ++ query ++ "':"
      ++ nl ++ nl ++ String.concat "" (map search_entry matches)
  | SearchError e => "Error searching aircraft: " ++ str_exn e
  end.

Close Scope string_scope.

End Rendering.

(** ** Specification-side notions used by the statements *)

(** [sub] is [l] with some elements removed, order kept. *)
Inductive Subsequence {A : Type} : list A -> list A -> Prop :=
| Subsequence_nil : Subsequence [] []
| Subsequence_skip x sub l : Subsequence sub l -> Subsequence sub (x :: l)
| Subsequence_keep x sub l : Subsequence sub l -> Subsequence (x :: sub) (x :: l).

(** [q] occurs in [s] as a contiguous block. *)
Definition substring (q s : string) : Prop :=
  exists pre post, s = (pre ++ q ++ post)%string.


(** Which aircraft a search of each type is to return. *)
Definition search_pred (search_type query : string) (a : aircraft_t) : bool :=
  if String.eqb search_type "callsign" then flight_test query a
  else if String.eqb search_type "flight" then flight_test query a
  else if String.eqb search_type "hex" then hex_test query a
  else if String.eqb search_type "any" then flight_test query a || hex_test query a
  else false.

(** An aircraft has a position when both coordinates are present. *)
Definition position (a : aircraft_t) : option (R * R) :=
  match lat a, lon a with
  | Some alat, Some alon => Some (alat, alon)
  | _, _ => None
  end.

(** The records a proximity query ranks, in snapshot order: those with a
    position whose distance to the observer is within [max_distance], each
    with that distance. *)
Definition closest_candidates (feeder_lat feeder_lon : R) (max_distance : option R)
    (snapshot : list aircraft_t) : list (R * aircraft_t) :=
  flat_map
    (fun a =>
       match position a with
       | Some (alat, alon) =>
           let d := _calculate_distance feeder_lat feeder_lon alat alon in
           if within max_distance d then [(d, a)] else []
       | None => []
       end)
    snapshot.

(** The same for a directional query: the bearing test comes first. *)
Definition directional_candidates (feeder_lat feeder_lon min_bearing max_bearing : R)
    (max_distance : option R) (snapshot : list aircraft_t) : list (R * R * aircraft_t) :=
  flat_map
    (fun a =>
       match position a with
       | Some (alat, alon) =>
           let b := _calculate_bearing feeder_lat feeder_lon alat alon in
           let d := _calculate_distance feeder_lat feeder_lon alat alon in
           if in_direction b min_bearing max_bearing && within max_distance d
           then [(d, b, a)] else []
       | None => []
       end)
    snapshot.

(** The order of two entries by their key. *)
Definition le_by {A : Type} (key : A -> R) (x y : A) : Prop := (key x <= key y)%R.

(** [s] is [l] sorted by [key] with ties left in the order of [l]. *)
Definition stable_sorted {A : Type} (key : A -> R) (l s : list A) : Prop :=
  Permutation l s /\
  StronglySorted (le_by key) s /\
  forall d : R,
    filter (fun x => Reqb (key x) d) s = filter (fun x => Reqb (key x) d) l.

(** The list of entries a [closest_response] carries. *)
Definition closest_listing (r : closest_response) : list (R * aircraft_t) :=
  match r with
  | ClosestFound _ _ l => l
  | _ => []
  end.

(** The list of entries a [direction_response] carries. *)
Definition direction_listing (r : direction_response) : list (R * R * aircraft_t) :=
  match r with
  | DirFound _ _ _ l => l
  | _ => []
  end.

(** The aircraft a [data_response] carries. *)
Definition data_listing (r : data_response) : list aircraft_t :=
  match r with
  | DataSummary l _ => l
  | DataJson d => Py.get (doc_aircraft d) []
  | DataError _ => []
  end.

(** A search answer that reports a failure: a rejected parameter or an
    exception. *)
Definition search_failure (r : search_response) : Prop :=
  match r with
  | SearchEmptyQuery | SearchInvalidType _ | SearchError _ => True
  | SearchNoMatch _ _ | SearchFound _ _ => False
  end.

(** The aircraft a [search_response] carries. *)
Definition search_listing (r : search_response) : list aircraft_t :=
  match r with
  | SearchFound _ matches => matches
  | _ => []
  end.

(** A string that is empty or made of white space only. *)
Fixpoint blank (s : string) : bool :=
  match s with
  | EmptyString => true
  | String c r => Py.is_space c && blank r
  end.

(** ** Sample data for the concrete cases *)

(** An upstream that serves one receiver document and one aircraft
    document and answers 404 elsewhere. *)
Definition serve (receiver_doc aircraft_doc : document) : upstream :=
  fun endpoint =>
    if String.eqb endpoint "receiver.json" then inr receiver_doc
    else if String.eqb endpoint "aircraft.json" then inr aircraft_doc
    else inl (FetchError endpoint "404 Not Found").

(** [receiver.json] of a receiver at the given coordinates. *)
Definition receiver_at (rlat rlon : R) : document :=
  {| doc_lat := Some rlat; doc_lon := Some rlon; doc_aircraft := None; doc_now := None |}.

(** [aircraft.json] with the given aircraft. *)
Definition snapshot_of (l : list aircraft_t) : document :=
  {| doc_lat := None; doc_lon := None; doc_aircraft := Some l; doc_now := None |}.

(** An aircraft with an identifier, a callsign, a position and an altitude. *)
Definition plane (h f : string) (alat alon : R) (alt : option Py.value) : aircraft_t :=
  {| hex := Some h; flight := Some f; lat := Some alat; lon := Some alon;
     alt_baro := alt; gs := None; track := None; r_dst := None |}.

(** An aircraft heard without a position. *)
Definition plane_without_position (h : string) (alt : option Py.value) : aircraft_t :=
  {| hex := Some h; flight := None; lat := None; lon := None;
     alt_baro := alt; gs := None; track := None; r_dst := None |}.

(** ** Server configuration: [ReadsbMCPServer.__init__] *)

(** [s.rstrip(chars)]: the longest tail made of characters of [chars] is
    dropped. *)
Fixpoint rstrip_chars (chars : string) (s : string) : string :=
  match s with
  | EmptyString => EmptyString
  | String c r =>
      match rstrip_chars chars r with
      | EmptyString =>
          if Py.str_in (String c EmptyString) chars
          then EmptyString else String c EmptyString
      | r' => String c r'
      end
  end.

(** [s.split(sep)] for a separator that is not empty: the text is scanned
    from the left, an occurrence of [sep] closes the current piece and is
    skipped.  [skip] counts the characters of an occurrence still to pass,
    [cur] is the piece being read. *)
Fixpoint split_go (sep : string) (skip : nat) (cur : string) (s : string) : list string :=
  match s with
  | EmptyString => [cur]
  | String c r =>
      match skip with
      | S k => split_go sep k cur r
      | O =>
          if Py.startswith sep s
          then cur :: split_go sep (String.length sep - 1) EmptyString r
          else split_go sep 0 (cur ++ String c EmptyString)%string r
      end
  end.

Definition split (sep s : string) : list string := split_go sep 0 EmptyString s.

(** The attributes [__init__] sets, the MCP [Server] object apart. *)
Record server := MkServer {
  base_url : string;
  api_port : option Z;
  json_port : option Z;
  web_port : option Z;
  api_base : string;
  json_base : string;
  web_base : string
}.

Definition __init__ (base_url : string) : server :=
  let base_url := rstrip_chars "/" base_url in
  if Py.str_in ":" (last (split "//" base_url) EmptyString)
  then
    {| base_url := base_url;
       api_port := None; json_port := None; web_port := None;
       api_base := (base_url ++ "/data")%string;
       json_base := base_url;
       web_base := base_url |}
  else
    {| base_url := base_url;
       api_port := Some 80%Z; json_port := Some 30047%Z; web_port := Some 8080%Z;
       api_base := (base_url ++ ":80/data")%string;
       json_base := (base_url ++ ":30047")%string;
       web_base := (base_url ++ ":8080")%string |}.

(** The address [_fetch_json] requests: [f"{self.api_base}/{endpoint}"]. *)
Definition fetch_url (self : server) (endpoint : string) : string :=
  (api_base self ++ "/" ++ endpoint)%string.

(** The map link the listings print: [f"{self.web_base}/?icao={hex_code}"]. *)
Definition map_link (self : server) (hex_code : string) : string :=
  (web_base self ++ "/?icao=" ++ hex_code)%string.

(** ** The statistics handlers *)

(** One bucket of [stats.json] (["total"], ["last1min"], ["last15min"]). *)
Record stats_bucket := StatsBucket {
  sb_messages : option R;
  sb_aircraft_with_pos : option R;
  sb_max_distance : option R
}.

(** [stats.json], with the keys the handlers read; ["cpu"] holds an object
    whose ["load"] key is optional. *)
Record stats_document := StatsDocument {
  st_total : option stats_bucket;
  st_last1min : option stats_bucket;
  st_last15min : option stats_bucket;
  st_cpu : option (option R)
}.

Section Statistics.

Variable api : upstream.

(** What a GET of [stats.json] answers, or how it fails. *)
Variable stats_api : exn + stats_document.

(** [_fetch_json("stats.json")]. *)
Definition _fetch_stats : IO stats_document :=
  fun log =>
    match stats_api with
    | inl e => (inl e, log ++ ["stats.json"%string])
    | inr d => (inr d, log ++ ["stats.json"%string])
    end.

Open Scope io_scope.

(** The answer of [_get_receiver_stats]: the summary of the document or its
    JSON dump. *)
Inductive stats_response :=
| StatsSummary (stats : stats_document)
| StatsJson (stats : stats_document)
| StatsError (e : exn)
    (* "Error fetching stats: {e}" *).

Definition _get_receiver_stats (format : option string) : IO stats_response :=
  try_except
    (stats <- _fetch_stats ;;
     let format_type := Py.get format "summary"%string in
     if String.eqb format_type "summary"
     then ret (StatsSummary stats)
     else ret (StatsJson stats))
    (fun e => ret (StatsError e)).

(** The lines of the text of [_get_range_statistics] after its title: the
    receiver location, and for each range the metres and the nautical
    miles. *)
Inductive range_response :=
| RangeStatistics (location : option (R * R))
    (* "Receiver Location: {lat:.4f}, {lon:.4f}" *)
    (max_range : option (R * R))
    (* "Max Range: {m} meters or {nm} nautical miles" *)
    (last15min_range : option (R * R))
    (* "Last 15 Minutes Max Range: {m} meters or {nm} nautical miles" *)
| RangeError (e : exn)
    (* "Error fetching range statistics: {e}" *).

(** The range line of one bucket: present when the bucket and its
    ["max_distance"] are. *)
Definition range_line (bucket : option stats_bucket) : option (R * R) :=
  match bucket with
  | Some b =>
      match sb_max_distance b with
      | Some max_dist => Some (max_dist, (max_dist * 0.000539957)%R)
      | None => None
      end
  | None => None
  end.

Definition _get_range_statistics : IO range_response :=
  try_except
    (receiver_data <- _fetch_json api "receiver.json" ;;
     stats_data <- _fetch_stats ;;
     let location :=
       match doc_lat receiver_data, doc_lon receiver_data with
       | Some rlat, Some rlon => Some (rlat, rlon)
       | _, _ => None
       end in
     ret (RangeStatistics location
            (range_line (st_total stats_data))
            (range_line (st_last15min stats_data))))
    (fun e => ret (RangeError e)).

Close Scope io_scope.

End Statistics.

(** ** The summary of the aircraft list *)

Section Summary.

(** The server, and [str(x)] of a JSON number inside an f-string. *)
Variable self : server.
Variable str_num : R -> string.

Open Scope string_scope.

(** [f"{s:>{width}}"] and [f"{s:<{width}}"]: blanks are added up to the
    width, a longer text is left as it is. *)
Definition pad_left (width : nat) (s : string) : string :=
  repeat_str " " (width - String.length s) ++ s.

Definition pad_right (width : nat) (s : string) : string :=
  s ++ repeat_str " " (width - String.length s).

(** [len([a for a in aircraft_list if "lat" in a and "lon" in a])]. *)
Definition with_pos (aircraft_list : list aircraft_t) : nat :=
  List.length
    (filter (fun a => match lat a, lon a with Some _, Some _ => true | _, _ => false end)
            aircraft_list).

(** The lines written for the aircraft at index [i] of the loop. *)
Definition summary_entry (i : nat) (aircraft : aircraft_t) : string :=
  let callsign := or_unknown (Py.strip (Py.get (flight aircraft) "")) in
  let hex_code := Py.get (hex aircraft) "Unknown" in
  let altitude := value_or_unknown str_num (alt_baro aircraft) in
  let distance := value_or_unknown str_num (r_dst aircraft) in
  pad_left 2 (str_nat (i + 1)) ++ ". " ++ pad_right 8 callsign ++ " (" ++ hex_code ++ ")" ++ nl ++
  (if negb (String.eqb hex_code "Unknown")
   then "     Map Link: " ++ map_link self hex_code ++ nl
   else "") ++
  "     Alt: " ++ altitude ++ " ft, Dist: " ++ distance ++ " nm" ++ nl.

(** [enumerate(l)] from a first index. *)
Fixpoint enumerate_from {A : Type} (i : nat) (l : list A) : list (nat * A) :=
  match l with
  | [] => []
  | x :: r => (i, x) :: enumerate_from (S i) r
  end.

(** The entries of the summary: the loop over [aircraft_list[:10]]. *)
Definition summary_entries (aircraft_list : list aircraft_t) : list string :=
  map (fun ia => summary_entry (fst ia) (snd ia))
      (enumerate_from 0 (firstn 10 aircraft_list)).

(** The closing line, written when more than 10 aircraft are in the list. *)
Definition summary_more (aircraft_list : list aircraft_t) : string :=
  let total_aircraft := List.length aircraft_list in
  if (10 <? total_aircraft)%nat
  then "... and " ++ str_nat (total_aircraft - 10) ++ " more aircraft" ++ nl
  else "".

Definition _format_aircraft_summary (aircraft_list : list aircraft_t)
    (full_data : document) : string :=
  let total_aircraft := List.length aircraft_list in
  "Aircraft Summary (Updated: " ++ num_or_unknown str_num (doc_now full_data) ++ ")" ++ nl ++
  "Total Aircraft: " ++ str_nat total_aircraft ++ nl ++
  "With Position: " ++ str_nat (with_pos aircraft_list) ++ nl ++ nl ++
  match aircraft_list with
  | [] => ""
  | _ =>
      "Recent Aircraft:" ++ nl ++
      String.concat "" (summary_entries aircraft_list) ++
      summary_more aircraft_list
  end.

Close Scope string_scope.

End Summary.

(** ** More notions used by the statements *)

(** The number of a value that is one (0 for the others, which the
    statements exclude where they use it). *)
Definition num (v : Py.value) : R :=
  match Py.as_number v with
  | Some r => r
  | None => 0%R
  end.

(** A key that is absent or holds a number. *)
Definition number_or_absent (x : option Py.value) : bool :=
  match x with
  | Some v => match Py.as_number v with Some _ => true | None => false end
  | None => true
  end.

(** The filters of the aircraft list compare numbers only: the bounds
    given in the arguments are numbers and so are the ["r_dst"] and
    ["alt_baro"] of every aircraft. *)
Definition numeric_filters (args : data_args) (aircraft_list : list aircraft_t) : Prop :=
  number_or_absent (filter_distance args) = true /\
  (forall range, filter_altitude args = Some range ->
                 number_or_absent (af_min range) = true /\
                 number_or_absent (af_max range) = true) /\
  Forall (fun a => number_or_absent (r_dst a) = true /\
                   number_or_absent (alt_baro a) = true)
         aircraft_list.

(** What the filters keep when they compare numbers. *)
Definition keeps (args : data_args) (a : aircraft_t) : bool :=
  match filter_distance args with
  | Some max_dist => Py.leb (num (Py.get (r_dst a) (Py.VInt 0))) (num max_dist)
  | None => true
  end &&
  match filter_altitude args with
  | Some range =>
      Py.leb (num (Py.get (af_min range) (Py.VInt 0))) (num (Py.get (alt_baro a) (Py.VInt 0)))
      && Py.leb (num (Py.get (alt_baro a) (Py.VInt 0)))
                (num (Py.get (af_max range) (Py.VInt 50000)))
  | None => true
  end.

(** [l1] is the beginning of [l2]. *)
Definition prefix_of {A : Type} (l1 l2 : list A) : Prop := exists r, l2 = l1 ++ r.

(** The last character of a string is [c]. *)
Fixpoint ends_with (c : ascii) (s : string) : bool :=
  match s with
  | EmptyString => false
  | String a EmptyString => Ascii.eqb a c
  | String _ r => ends_with c r
  end.

(** No character of the string is [c]. *)
Fixpoint without_char (c : ascii) (s : string) : bool :=
  match s with
  | EmptyString => true
  | String a r => negb (Ascii.eqb a c) && without_char c r
  end.

(** The entry of a proximity ranking behind an entry of a directional one. *)
Definition drop_bearing (e : R * R * aircraft_t) : R * aircraft_t :=
  (fst (fst e), snd e).

(** The directions whose range holds a bearing. *)
Definition directions_of (bearing : R) : list string :=
  filter
    (fun d => in_direction bearing (fst (_get_direction_range d))
                           (snd (_get_direction_range d)))
    valid_directions.

(** ** Facts about the Python primitives *)

Lemma leb_true_iff (a b : R) : Py.leb a b = true <-> (a <= b)%R.
Proof.
  unfold Py.leb. destruct (Rle_dec a b); split; intros; try easy.
Qed.

Lemma leb_false_iff (a b : R) : Py.leb a b = false <-> (b < a)%R.
Proof.
  unfold Py.leb. destruct (Rle_dec a b); split; intros; try easy; lra.
Qed.

Lemma geb_true_iff (a b : R) : Py.geb a b = true <-> (a >= b)%R.
Proof.
  unfold Py.geb. rewrite leb_true_iff. split; lra.
Qed.

Lemma truthy_false_iff (x : R) : Py.truthy x = false <-> x = 0%R.
Proof.
  unfold Py.truthy. destruct (Req_dec_T x 0); split; intros; try easy.
Qed.

Lemma truthy_true_iff (x : R) : Py.truthy x = true <-> x <> 0%R.
Proof.
  unfold Py.truthy. destruct (Req_dec_T x 0); split; intros; try easy.
Qed.

Lemma truthy_opt_true_iff (x : option R) :
  Py.truthy_opt x = true <-> exists v, x = Some v /\ v <> 0%R.
Proof.
  destruct x as [v|]; simpl.
  - rewrite truthy_true_iff. split.
    + intros H. exists v. split; [reflexivity | exact H].
    + intros [w [E H]]. injection E as ->. exact H.
  - split; [discriminate | intros [w [E _]]; discriminate].
Qed.

Lemma Reqb_true_iff (a b : R) : Reqb a b = true <-> a = b.
Proof.
  unfold Reqb. destruct (Req_dec a b); split; intros; try easy.
Qed.

(** Deciding a comparison between two numerals. *)
Ltac decide_leb :=
  repeat match goal with
         | |- context [Py.leb ?a ?b] =>
             let H := fresh in
             first [ assert (H : Py.leb a b = true) by (apply leb_true_iff; lra)
                   | assert (H : Py.leb a b = false) by (apply leb_false_iff; lra) ];
             rewrite H; clear H
         end.

(** ** GeoMath *)

Lemma radians_0 : Py.radians 0 = 0%R.
Proof. unfold Py.radians. lra. Qed.

(** The haversine term does not change when the two points are swapped. *)
Lemma sin_half_diff_sqr (u v : R) :
  (sin ((u - v) / 2) ^ 2 = sin ((v - u) / 2) ^ 2)%R.
Proof.
  replace ((u - v) / 2)%R with (- ((v - u) / 2))%R by lra.
  rewrite sin_neg. ring.
Qed.

Lemma distance_sym (lat1 lon1 lat2 lon2 : R) :
  _calculate_distance lat1 lon1 lat2 lon2 = _calculate_distance lat2 lon2 lat1 lon1.
Proof.
  unfold _calculate_distance. cbv zeta.
  rewrite (sin_half_diff_sqr (Py.radians lat2) (Py.radians lat1)).
  rewrite (sin_half_diff_sqr (Py.radians lon2) (Py.radians lon1)).
  rewrite (Rmult_comm (cos (Py.radians lat1)) (cos (Py.radians lat2))).
  reflexivity.
Qed.

Lemma distance_refl (lat1 lon1 : R) :
  _calculate_distance lat1 lon1 lat1 lon1 = 0%R.
Proof.
  unfold _calculate_distance. cbv zeta.
  replace ((Py.radians lat1 - Py.radians lat1) / 2)%R with 0%R by lra.
  replace ((Py.radians lon1 - Py.radians lon1) / 2)%R with 0%R by lra.
  rewrite sin_0.
  replace (0 ^ 2 + cos (Py.radians lat1) * cos (Py.radians lat1) * 0 ^ 2)%R
    with 0%R by ring.
  rewrite sqrt_0, asin_0. ring.
Qed.

Lemma sin_half_sqr (x : R) : (sin (x / 2) ^ 2 = (1 - cos x) / 2)%R.
Proof.
  replace (cos x) with (cos (2 * (x / 2))) by (f_equal; lra).
  rewrite cos_2a_sin. lra.
Qed.

(** Over the real numbers the value [a] of [_calculate_distance] lies in
    [[0, 1]] whatever the coordinates are.  The bound is one of exact
    arithmetic: the rounding of binary64 is not modelled, and a rounded
    [a] may leave the interval by a unit in the last place. *)
Lemma haversine_in_unit_interval (p1 l1 p2 l2 : R) :
  (0 <= sin ((p2 - p1) / 2) ^ 2 + cos p1 * cos p2 * sin ((l2 - l1) / 2) ^ 2 <= 1)%R.
Proof.
  rewrite (sin_half_sqr (p2 - p1)), cos_minus.
  pose proof (sin2_cos2 p1) as H1. pose proof (sin2_cos2 p2) as H2.
  unfold Rsqr in H1, H2.
  set (s := (sin ((l2 - l1) / 2) ^ 2)%R).
  assert (Hs : (0 <= s <= 1)%R).
  { unfold s. pose proof (sin2_cos2 ((l2 - l1) / 2)) as H. unfold Rsqr in H.
    pose proof (pow2_ge_0 (sin ((l2 - l1) / 2))).
    pose proof (pow2_ge_0 (cos ((l2 - l1) / 2))). nra. }
  set (a1 := sin p1) in *. set (b1 := cos p1) in *.
  set (a2 := sin p2) in *. set (b2 := cos p2) in *.
  assert (Hp : (a1 * a2 + b1 * b2 <= 1)%R).
  { pose proof (Rle_0_sqr (a1 - a2)). pose proof (Rle_0_sqr (b1 - b2)).
    unfold Rsqr in *. lra. }
  assert (Hm : (a1 * a2 - b1 * b2 <= 1)%R).
  { pose proof (Rle_0_sqr (a1 - a2)). pose proof (Rle_0_sqr (b1 + b2)).
    unfold Rsqr in *. lra. }
  assert (Hp' : (-1 <= a1 * a2 + b1 * b2)%R).
  { pose proof (Rle_0_sqr (a1 + a2)). pose proof (Rle_0_sqr (b1 + b2)).
    unfold Rsqr in *. lra. }
  assert (Hm' : (-1 <= a1 * a2 - b1 * b2)%R).
  { pose proof (Rle_0_sqr (a1 + a2)). pose proof (Rle_0_sqr (b1 - b2)).
    unfold Rsqr in *. lra. }
  split; nra.
Qed.

(** C9: the distance is symmetric, within the tolerance of 1e-6 nautical
    miles (here exactly), and the distance from a point to itself is 0. *)
Theorem distance_symmetric_and_zero_on_diagonal :
  (forall lat1 lon1 lat2 lon2 : R,
      _calculate_distance lat1 lon1 lat2 lon2 = _calculate_distance lat2 lon2 lat1 lon1 /\
      (Rabs (_calculate_distance lat1 lon1 lat2 lon2
             - _calculate_distance lat2 lon2 lat1 lon1) <= 1 / 1000000)%R) /\
  (forall lat1 lon1 : R, _calculate_distance lat1 lon1 lat1 lon1 = 0%R).
Proof.
  split.
  - intros lat1 lon1 lat2 lon2. split.
    + apply distance_sym.
    + rewrite (distance_sym lat1 lon1 lat2 lon2).
      unfold Rminus. rewrite Rplus_opp_r, Rabs_R0. lra.
  - apply distance_refl.
Qed.

(** ** DirectionBucket *)

Lemma in_direction_plain (b mn mx : R) :
  (mn <= mx)%R -> (in_direction b mn mx = true <-> (mn <= b <= mx)%R).
Proof.
  intros H. unfold in_direction.
  apply leb_true_iff in H. rewrite H.
  rewrite andb_true_iff, !leb_true_iff. reflexivity.
Qed.

Lemma in_direction_wrap (b mn mx : R) :
  (mn > mx)%R -> (in_direction b mn mx = true <-> (b >= mn \/ b <= mx)%R).
Proof.
  intros H. unfold in_direction.
  assert (E : Py.leb mn mx = false) by (apply leb_false_iff; lra).
  rewrite E, orb_true_iff, geb_true_iff, leb_true_iff. reflexivity.
Qed.

(** C2: membership of a bearing in a direction range is the closed interval
    test when [min <= max] and the disjunction [b >= min \/ b <= max] in the
    wraparound case; 350 lies in north's range and 180 does not. *)
Theorem in_direction_membership (b mn mx : R) :
  ((mn <= mx)%R -> (in_direction b mn mx = true <-> (mn <= b <= mx)%R)) /\
  ((mn > mx)%R -> (in_direction b mn mx = true <-> (b >= mn \/ b <= mx)%R)) /\
  _get_direction_range "north" = (337.5, 22.5)%R /\
  in_direction 350 337.5 22.5 = true /\
  in_direction 180 337.5 22.5 = false.
Proof.
  split; [apply in_direction_plain |].
  split; [apply in_direction_wrap |].
  split; [reflexivity |].
  split; unfold in_direction, Py.geb; decide_leb; reflexivity.
Qed.

Lemma in_direction_membership_witness :
  (in_direction 10 337.5 22.5 = true <-> (10 >= 337.5 \/ 10 <= 22.5)%R) /\
  (in_direction 90 67.5 112.5 = true <-> (67.5 <= 90 <= 112.5)%R).
Proof.
  split.
  - apply (proj1 (proj2 (in_direction_membership 10 337.5 22.5))). lra.
  - apply (proj1 (in_direction_membership 90 67.5 112.5)). lra.
Defined.

Lemma in_list_iff (x : string) (l : list string) :
  Py.in_list x l = true <-> In x l.
Proof.
  unfold Py.in_list. rewrite existsb_exists. split.
  - intros [y [Hy E]]. apply String.eqb_eq in E. subst y. exact Hy.
  - intros H. exists x. split; [exact H | apply String.eqb_refl].
Qed.

Lemma in_list_false_iff (x : string) (l : list string) :
  Py.in_list x l = false <-> ~ In x l.
Proof.
  rewrite <- in_list_iff. destruct (Py.in_list x l); split; intros; easy.
Qed.

Lemma dict_get_default {V : Type} (d : list (string * V)) (k : string) (default : V) :
  ~ In k (map fst d) -> Py.dict_get d k default = default.
Proof.
  induction d as [| [k' v] rest IH]; simpl; intros H.
  - reflexivity.
  - destruct (String.eqb k k') eqn:E.
    + apply String.eqb_eq in E. subst k'. exfalso. apply H. left. reflexivity.
    + apply IH. intros Hin. apply H. right. exact Hin.
Qed.

(** The names accepted by the handler are the keys of the table. *)
Lemma valid_directions_are_keys (d : string) :
  In d valid_directions <-> In d (map fst direction_ranges).
Proof.
  unfold valid_directions, direction_ranges. simpl. tauto.
Qed.

(** The handlers up to the first fetch. *)
Lemma run_try_ret {A : Type} (a : A) (h : exn -> IO A) :
  run (try_except (ret a) h) = (inr a, []).
Proof. reflexivity. Qed.

(** C1, as the code has it: a name that is not a key of the table gets the
    default range (0, 360) from [_get_direction_range]; it is the handler
    that rejects such a name, before the lookup and before any fetch. *)
Theorem unknown_direction_default_and_rejected (d : string) :
  ~ In d (map fst direction_ranges) ->
  _get_direction_range d = (0, 360)%R /\
  forall (api : upstream) (args : direction_args) (raw : string),
    da_direction args = Some raw ->
    Py.lower raw = d ->
    run (_get_aircraft_by_direction api args) = (inr (DirInvalidDirection d), []).
Proof.
  intros H. split.
  - apply dict_get_default. exact H.
  - intros api args raw Hraw Hlow.
    assert (E : Py.in_list d valid_directions = false).
    { apply in_list_false_iff. rewrite valid_directions_are_keys. exact H. }
    unfold _get_aircraft_by_direction, run, try_except, bind, subscript.
    rewrite Hraw. cbn [ret]. rewrite Hlow, E. reflexivity.
Qed.

Lemma unknown_direction_default_and_rejected_witness :
  _get_direction_range "up" = (0, 360)%R /\
  run (_get_aircraft_by_direction
         (fun _ => inl (FetchError "" ""))
         (DirectionArgs (Some "UP"%string) None None))
  = (inr (DirInvalidDirection "up"), []).
Proof.
  assert (H : ~ In "up"%string (map fst direction_ranges)).
  { simpl. intuition discriminate. }
  split.
  - apply (proj1 (unknown_direction_default_and_rejected H)).
  - apply (proj2 (unknown_direction_default_and_rejected H)) with (raw := "UP"%string);
      reflexivity.
Defined.

(** C1, as the claim words it, fails: the lookup of a name outside the table
    returns a range, the default one. *)
Lemma unknown_direction_lookup_returns_range :
  ~ In "up"%string (map fst direction_ranges) /\
  exists range : R * R, _get_direction_range "up" = range /\ range = (0, 360)%R.
Proof.
  split.
  - simpl. intuition discriminate.
  - exists (0, 360)%R. split; reflexivity.
Qed.

(** ** The stable sort *)

Section Sorting.

Context {A : Type}.
Variable key : A -> R.

Lemma insert_by_perm (x : A) (l : list A) :
  Permutation (x :: l) (Py.insert_by key x l).
Proof.
  induction l as [| y r IH]; simpl.
  - apply Permutation_refl.
  - destruct (Py.leb (key x) (key y)).
    + apply Permutation_refl.
    + eapply Permutation_trans; [apply perm_swap |].
      apply perm_skip. exact IH.
Qed.

Lemma sort_by_perm (l : list A) : Permutation l (Py.sort_by key l).
Proof.
  induction l as [| x r IH]; simpl.
  - apply perm_nil.
  - eapply Permutation_trans; [| apply insert_by_perm].
    apply perm_skip. exact IH.
Qed.

Lemma insert_by_forall (P : A -> Prop) (x : A) (l : list A) :
  P x -> Forall P l -> Forall P (Py.insert_by key x l).
Proof.
  intros Hx Hl. induction Hl as [| y r Hy Hr IH]; simpl.
  - constructor; [exact Hx | constructor].
  - destruct (Py.leb (key x) (key y)).
    + constructor; [exact Hx |]. constructor; assumption.
    + constructor; assumption.
Qed.

Lemma insert_by_sorted (x : A) (l : list A) :
  StronglySorted (le_by key) l -> StronglySorted (le_by key) (Py.insert_by key x l).
Proof.
  intros Hs. induction Hs as [| y r Hr IH Hy]; simpl.
  - constructor; constructor.
  - destruct (Py.leb (key x) (key y)) eqn:E.
    + apply leb_true_iff in E.
      constructor.
      * constructor; assumption.
      * constructor; [exact E |].
        eapply Forall_impl; [| exact Hy].
        intros z Hz. unfold le_by in *. lra.
    + apply leb_false_iff in E.
      constructor; [exact IH |].
      apply insert_by_forall; [unfold le_by; lra | exact Hy].
Qed.

Lemma sort_by_sorted (l : list A) : StronglySorted (le_by key) (Py.sort_by key l).
Proof.
  induction l as [| x r IH]; simpl.
  - constructor.
  - apply insert_by_sorted. exact IH.
Qed.

(** Elements with the same key keep their order. *)
Lemma insert_by_stable (d : R) (x : A) (l : list A) :
  filter (fun z => Reqb (key z) d) (Py.insert_by key x l)
  = filter (fun z => Reqb (key z) d) (x :: l).
Proof.
  induction l as [| y r IH].
  - reflexivity.
  - cbn [Py.insert_by]. destruct (Py.leb (key x) (key y)) eqn:E.
    + reflexivity.
    + apply leb_false_iff in E.
      cbn [filter]. rewrite IH. cbn [filter].
      destruct (Reqb (key x) d) eqn:Ex; destruct (Reqb (key y) d) eqn:Ey;
        try reflexivity.
      apply Reqb_true_iff in Ex. apply Reqb_true_iff in Ey. lra.
Qed.

Lemma sort_by_stable (d : R) (l : list A) :
  filter (fun z => Reqb (key z) d) (Py.sort_by key l)
  = filter (fun z => Reqb (key z) d) l.
Proof.
  induction l as [| x r IH].
  - reflexivity.
  - cbn [Py.sort_by]. rewrite insert_by_stable. cbn [filter]. rewrite IH. reflexivity.
Qed.

Lemma sort_by_stable_sorted (l : list A) : stable_sorted key l (Py.sort_by key l).
Proof.
  split; [apply sort_by_perm |].
  split; [apply sort_by_sorted |].
  intros d. apply sort_by_stable.
Qed.

Lemma sort_by_forall (P : A -> Prop) (l : list A) :
  Forall P l -> Forall P (Py.sort_by key l).
Proof.
  intros H. rewrite Forall_forall in *. intros x Hx. apply H.
  eapply Permutation_in; [apply Permutation_sym, sort_by_perm | exact Hx].
Qed.

Lemma firstn_In_list (n : nat) (l : list A) (z : A) :
  In z (firstn n l) -> In z l.
Proof.
  revert n. induction l as [| y r IH]; intros [| n] Hz; simpl in *; try easy.
  destruct Hz as [-> | Hz]; [left; reflexivity | right; eapply IH; eauto].
Qed.

Lemma firstn_forall (P : A -> Prop) (n : nat) (l : list A) :
  Forall P l -> Forall P (firstn n l).
Proof.
  intros H. rewrite Forall_forall in *. intros z Hz. apply H.
  eapply firstn_In_list. exact Hz.
Qed.

Lemma firstn_sorted (n : nat) (l : list A) :
  StronglySorted (le_by key) l -> StronglySorted (le_by key) (firstn n l).
Proof.
  intros Hs. revert n. induction Hs as [| y r Hr IH Hy]; intros [| n]; simpl;
    try constructor.
  - apply IH.
  - apply firstn_forall. exact Hy.
Qed.

End Sorting.

(** Entries at the same distance keep the order they had. *)
Example sort_by_keeps_ties_in_order :
  Py.sort_by fst [(2, "a"); (1, "b"); (2, "c"); (1, "d")]%R%string
  = [(1, "b"); (1, "d"); (2, "a"); (2, "c")]%R%string.
Proof.
  cbn [Py.sort_by Py.insert_by fst]. decide_leb.
  cbn [Py.insert_by fst]. decide_leb.
  cbn [Py.insert_by fst]. decide_leb.
  cbn [Py.insert_by fst]. decide_leb.
  reflexivity.
Qed.


(** ** The handlers, step by step *)

Lemma count_invalid_false_iff (count : Py.value) :
  count_invalid count = false <-> exists n, Py.as_int count = Some n /\ (1 <= n <= 50)%Z.
Proof.
  unfold count_invalid. destruct (Py.as_int count) as [n |].
  - rewrite orb_false_iff, Z.ltb_ge, Z.gtb_ltb, Z.ltb_ge. split.
    + intros [H1 H2]. exists n. split; [reflexivity | lia].
    + intros [m [E H]]. injection E as ->. lia.
  - split; [discriminate | intros [m [E _]]; discriminate].
Qed.


Lemma closest_step_candidates (flat flon : R) (maxd : option R)
    (acc : list (R * aircraft_t)) (a : aircraft_t) :
  closest_step flat flon maxd acc a = acc ++ closest_candidates flat flon maxd [a].
Proof.
  unfold closest_step, closest_candidates, position. simpl.
  destruct (lat a) as [alat |]; destruct (lon a) as [alon |];
    try (rewrite !app_nil_r; reflexivity).
  destruct (within maxd (_calculate_distance flat flon alat alon));
    rewrite ?app_nil_r; reflexivity.
Qed.

Lemma closest_loop (flat flon : R) (maxd : option R) (l : list aircraft_t)
    (acc : list (R * aircraft_t)) :
  fold_left (closest_step flat flon maxd) l acc
  = acc ++ closest_candidates flat flon maxd l.
Proof.
  revert acc. induction l as [| a r IH]; intros acc.
  - simpl. rewrite app_nil_r. reflexivity.
  - cbn [fold_left]. rewrite IH, closest_step_candidates.
    rewrite <- app_assoc. f_equal.
    unfold closest_candidates. cbn [flat_map]. rewrite app_nil_r. reflexivity.
Qed.

Lemma closest_aircraft_eq (flat flon : R) (maxd : option R) (count : Py.value)
    (l : list aircraft_t) :
  closest_aircraft flat flon maxd count l
  = take count (Py.sort_by fst (closest_candidates flat flon maxd l)).
Proof.
  unfold closest_aircraft. rewrite closest_loop. reflexivity.
Qed.


(** The handler on a valid count, a located receiver and a snapshot. *)
Lemma closest_handler_ranked (api : upstream) (args : closest_args)
    (rdoc adoc : document) :
  count_invalid (Py.get (ca_count args) (Py.VInt 5)) = false ->
  api "receiver.json"%string = inr rdoc ->
  Py.truthy_opt (doc_lat rdoc) = true ->
  Py.truthy_opt (doc_lon rdoc) = true ->
  api "aircraft.json"%string = inr adoc ->
  exists resp,
    run (_get_closest_aircraft api args)
    = (inr resp, ["receiver.json"; "aircraft.json"]%string) /\
    closest_listing resp
    = closest_aircraft (Py.get (doc_lat rdoc) 0%R) (Py.get (doc_lon rdoc) 0%R)
        (ca_max_distance args) (Py.get (ca_count args) (Py.VInt 5))
        (Py.get (doc_aircraft adoc) []).
Proof.
  intros Hc Hr Hlat Hlon Ha.
  unfold _get_closest_aircraft, run, try_except, bind, _fetch_json.
  rewrite Hc, Hr, Hlat, Hlon. cbn [negb orb app]. rewrite Ha. cbn [app].
  destruct (closest_aircraft _ _ _ _ _) as [| e r] eqn:E.
  - destruct (Py.truthy_opt (ca_max_distance args));
      eexists; split; reflexivity.
  - eexists. split; reflexivity.
Qed.

Lemma take_firstn {A : Type} (count : Py.value) (n : Z) (l : list A) :
  Py.as_int count = Some n -> take count l = firstn (Z.to_nat n) l.
Proof. intros H. unfold take. rewrite H. reflexivity. Qed.

(** The handler on a valid count and a receiver document in which a
    coordinate is missing or is the number 0. *)
Lemma closest_handler_unlocated (api : upstream) (args : closest_args)
    (rdoc : document) :
  count_invalid (Py.get (ca_count args) (Py.VInt 5)) = false ->
  api "receiver.json"%string = inr rdoc ->
  negb (Py.truthy_opt (doc_lat rdoc)) || negb (Py.truthy_opt (doc_lon rdoc)) = true ->
  run (_get_closest_aircraft api args)
  = (inr ClosestNoLocation, ["receiver.json"%string]).
Proof.
  intros Hc Hr Hfalsy.
  unfold _get_closest_aircraft, run, try_except, bind, _fetch_json.
  rewrite Hc, Hr, Hfalsy. reflexivity.
Qed.



(** The whole answer on that snapshot. *)
Example closest_lists_the_only_aircraft :
  run (_get_closest_aircraft
         (serve (receiver_at 1 1) (snapshot_of [plane "A1B2C3" "KLM12" 2 2 None]))
         (ClosestArgs (Some (Py.VInt 5)) None))
  = (inr (ClosestFound 1 1
            [(_calculate_distance 1 1 2 2, plane "A1B2C3" "KLM12" 2 2 None)]),
     ["receiver.json"; "aircraft.json"]%string).
Proof.
  unfold _get_closest_aircraft, run, try_except, bind, _fetch_json.
  cbn [ca_count ca_max_distance Py.get].
  change (count_invalid (Py.VInt 5)) with false.
  cbn [serve receiver_at doc_lat doc_lon Py.truthy_opt String.eqb Ascii.eqb Bool.eqb app].
  rewrite (proj2 (truthy_true_iff 1%R)) by lra.
  reflexivity.
Qed.

(** ** Validation of [count] *)



(** ** The receiver location check *)

(** The by-direction handler on an accepted direction and count and a
    receiver document in which a coordinate is missing or is the number 0. *)
Lemma direction_handler_unlocated (api : upstream) (args : direction_args)
    (raw : string) (rdoc : document) :
  da_direction args = Some raw ->
  In (Py.lower raw) valid_directions ->
  count_invalid (Py.get (da_count args) (Py.VInt 10)) = false ->
  api "receiver.json"%string = inr rdoc ->
  negb (Py.truthy_opt (doc_lat rdoc)) || negb (Py.truthy_opt (doc_lon rdoc)) = true ->
  run (_get_aircraft_by_direction api args)
  = (inr DirNoLocation, ["receiver.json"%string]).
Proof.
  intros Hraw Hin Hc Hr Hfalsy. apply in_list_iff in Hin.
  unfold _get_aircraft_by_direction, run, try_except, bind, subscript, _fetch_json.
  rewrite Hraw. cbn [ret]. rewrite Hin. cbn [negb]. rewrite Hc, Hr, Hfalsy.
  reflexivity.
Qed.

(** C10: a receiver document whose latitude or longitude is the number 0,
    like one that lacks the key, makes both handlers answer that the
    receiver location cannot be determined; the aircraft are not fetched. *)
Theorem zero_coordinate_is_no_location (api : upstream) (rdoc : document) :
  api "receiver.json"%string = inr rdoc ->
  doc_lat rdoc = Some 0%R \/ doc_lon rdoc = Some 0%R \/
  doc_lat rdoc = None \/ doc_lon rdoc = None ->
  (forall args : closest_args,
      count_invalid (Py.get (ca_count args) (Py.VInt 5)) = false ->
      run (_get_closest_aircraft api args)
      = (inr ClosestNoLocation, ["receiver.json"%string])) /\
  (forall (args : direction_args) (raw : string),
      da_direction args = Some raw ->
      In (Py.lower raw) valid_directions ->
      count_invalid (Py.get (da_count args) (Py.VInt 10)) = false ->
      run (_get_aircraft_by_direction api args)
      = (inr DirNoLocation, ["receiver.json"%string])).
Proof.
  intros Hr Hzero.
  assert (Hfalsy : negb (Py.truthy_opt (doc_lat rdoc))
                   || negb (Py.truthy_opt (doc_lon rdoc)) = true).
  { apply orb_true_iff.
    destruct Hzero as [H | [H | [H | H]]]; rewrite H; simpl.
    - left. rewrite (proj2 (truthy_false_iff 0%R) eq_refl). reflexivity.
    - right. rewrite (proj2 (truthy_false_iff 0%R) eq_refl). reflexivity.
    - left. reflexivity.
    - right. reflexivity. }
  split.
  - intros args Hc. apply (closest_handler_unlocated api args Hc Hr Hfalsy).
  - intros args raw Hraw Hin Hc.
    apply (direction_handler_unlocated api args Hraw Hin Hc Hr Hfalsy).
Qed.

Lemma zero_coordinate_is_no_location_witness :
  run (_get_closest_aircraft
         (serve (receiver_at 0 (-78.5)) (snapshot_of [plane "A1B2C3" "KLM12" 1 (-78) None]))
         (ClosestArgs None None))
  = (inr ClosestNoLocation, ["receiver.json"%string]) /\
  run (_get_aircraft_by_direction
         (serve (receiver_at 51.5 0) (snapshot_of [plane "A1B2C3" "KLM12" 52 1 None]))
         (DirectionArgs (Some "north"%string) None None))
  = (inr DirNoLocation, ["receiver.json"%string]).
Proof.
  split.
  - apply (proj1 (@zero_coordinate_is_no_location
                    (serve (receiver_at 0 (-78.5))
                           (snapshot_of [plane "A1B2C3" "KLM12" 1 (-78) None]))
                    (receiver_at 0 (-78.5)) eq_refl (or_introl eq_refl))).
    reflexivity.
  - apply (proj2 (@zero_coordinate_is_no_location
                    (serve (receiver_at 51.5 0)
                           (snapshot_of [plane "A1B2C3" "KLM12" 52 1 None]))
                    (receiver_at 51.5 0) eq_refl (or_intror (or_introl eq_refl))))
      with (raw := "north"%string).
    + reflexivity.
    + simpl. tauto.
    + reflexivity.
Defined.

(** ** The directional query *)

Lemma direction_step_candidates (flat flon mn mx : R) (maxd : option R)
    (acc : list (R * R * aircraft_t)) (a : aircraft_t) :
  direction_step flat flon mn mx maxd acc a
  = acc ++ directional_candidates flat flon mn mx maxd [a].
Proof.
  unfold direction_step, directional_candidates, position. simpl.
  destruct (lat a) as [alat |]; destruct (lon a) as [alon |];
    try (rewrite !app_nil_r; reflexivity).
  destruct (in_direction (_calculate_bearing flat flon alat alon) mn mx);
    cbn [andb]; [| rewrite app_nil_r; reflexivity].
  destruct (within maxd (_calculate_distance flat flon alat alon));
    rewrite ?app_nil_r; reflexivity.
Qed.

Lemma direction_loop (flat flon mn mx : R) (maxd : option R) (l : list aircraft_t)
    (acc : list (R * R * aircraft_t)) :
  fold_left (direction_step flat flon mn mx maxd) l acc
  = acc ++ directional_candidates flat flon mn mx maxd l.
Proof.
  revert acc. induction l as [| a r IH]; intros acc.
  - simpl. rewrite app_nil_r. reflexivity.
  - cbn [fold_left]. rewrite IH, direction_step_candidates.
    rewrite <- app_assoc. f_equal.
    unfold directional_candidates. cbn [flat_map]. rewrite app_nil_r. reflexivity.
Qed.

(** The stage after the location check keeps the positioned aircraft whose
    bearing is in the range of the direction and whose distance is within
    [max_distance], sorts them by distance and cuts the list at [count]. *)
Lemma directional_aircraft_eq (flat flon : R) (direction : string) (maxd : option R)
    (count : Py.value) (l : list aircraft_t) :
  directional_aircraft flat flon direction maxd count l
  = take count
      (Py.sort_by (fun x => fst (fst x))
         (directional_candidates flat flon
            (fst (_get_direction_range direction)) (snd (_get_direction_range direction))
            maxd l)).
Proof.
  unfold directional_aircraft.
  destruct (_get_direction_range direction) as [mn mx]. cbn [fst snd].
  rewrite direction_loop. reflexivity.
Qed.

(** Which entries are candidates of a directional query. *)
Lemma directional_candidates_In (flat flon mn mx : R) (maxd : option R)
    (l : list aircraft_t) (d b : R) (a : aircraft_t) :
  In (d, b, a) (directional_candidates flat flon mn mx maxd l) <->
  In a l /\
  exists alat alon,
    lat a = Some alat /\ lon a = Some alon /\
    b = _calculate_bearing flat flon alat alon /\
    d = _calculate_distance flat flon alat alon /\
    in_direction b mn mx = true /\ within maxd d = true.
Proof.
  unfold directional_candidates. rewrite in_flat_map. split.
  - intros [a' [Ha' Hin]]. unfold position in Hin.
    destruct (lat a') as [alat |] eqn:Elat; [| destruct Hin].
    destruct (lon a') as [alon |] eqn:Elon; [| destruct Hin].
    cbv zeta in Hin.
    destruct (in_direction _ mn mx) eqn:Eb; [| destruct Hin].
    destruct (within maxd _) eqn:Ew; [| destruct Hin].
    destruct Hin as [Hin | []]. injection Hin as <- <- <-.
    split; [exact Ha' |]. exists alat, alon. repeat split; assumption || reflexivity.
  - intros [Ha [alat [alon [Elat [Elon [-> [-> [Eb Ew]]]]]]]].
    exists a. split; [exact Ha |]. unfold position. rewrite Elat, Elon.
    cbv zeta. rewrite Eb, Ew. left. reflexivity.
Qed.

(** The handler on an accepted direction and count, a receiver whose two
    coordinates are non-zero, and a snapshot. *)
Lemma direction_handler_ranked (api : upstream) (args : direction_args)
    (raw : string) (rdoc adoc : document) :
  da_direction args = Some raw ->
  In (Py.lower raw) valid_directions ->
  count_invalid (Py.get (da_count args) (Py.VInt 10)) = false ->
  api "receiver.json"%string = inr rdoc ->
  Py.truthy_opt (doc_lat rdoc) = true ->
  Py.truthy_opt (doc_lon rdoc) = true ->
  api "aircraft.json"%string = inr adoc ->
  exists resp,
    run (_get_aircraft_by_direction api args)
    = (inr resp, ["receiver.json"; "aircraft.json"]%string) /\
    direction_listing resp
    = directional_aircraft (Py.get (doc_lat rdoc) 0%R) (Py.get (doc_lon rdoc) 0%R)
        (Py.lower raw) (da_max_distance args) (Py.get (da_count args) (Py.VInt 10))
        (Py.get (doc_aircraft adoc) []).
Proof.
  intros Hraw Hin Hc Hr Hlat Hlon Ha. apply in_list_iff in Hin.
  unfold _get_aircraft_by_direction, run, try_except, bind, subscript, _fetch_json.
  rewrite Hraw. cbn [ret]. rewrite Hin. cbn [negb].
  rewrite Hc, Hr, Hlat, Hlon. cbn [negb orb app]. rewrite Ha. cbn [app].
  destruct (directional_aircraft _ _ _ _ _ _) as [| e r] eqn:E.
  - destruct (Py.truthy_opt (da_max_distance args));
      eexists; split; reflexivity.
  - eexists. split; reflexivity.
Qed.

(** The bearing from (0, 0) to (0, 10) is due east. *)
Lemma bearing_due_east : _calculate_bearing 0 0 0 10 = 90%R.
Proof.
  unfold _calculate_bearing. cbv zeta.
  rewrite radians_0.
  replace (Py.radians 10 - 0)%R with (PI / 18)%R by (unfold Py.radians; lra).
  rewrite sin_0, cos_0.
  replace (1 * 0 - 0 * 1 * cos (PI / 18))%R with 0%R by ring.
  assert (Hpi := PI_RGT_0).
  assert (Hsin : (0 < sin (PI / 18) * 1)%R).
  { rewrite Rmult_1_r. apply sin_gt_0; lra. }
  unfold Py.atan2.
  destruct (Rlt_dec 0 0) as [H | _]; [lra |].
  destruct (Rlt_dec 0 (sin (PI / 18) * 1)) as [_ | H]; [| contradiction].
  replace (Py.degrees (PI / 2)) with 90%R by (unfold Py.degrees; field; lra).
  unfold Py.fmod.
  replace (Int_part ((90 + 360) / 360)) with 1%Z.
  - lra.
  - apply Int_part_spec. lra.
Qed.

(** Past the location check, the aircraft at (0, 10) is listed to the east
    of an observer at (0, 0) and is not listed to the west. *)
Lemma due_east_stage :
  directional_aircraft 0 0 "east" None (Py.VInt 10) [plane "A1B2C3" "KLM12" 0 10 None]
  = [(_calculate_distance 0 0 0 10, 90%R, plane "A1B2C3" "KLM12" 0 10 None)] /\
  directional_aircraft 0 0 "west" None (Py.VInt 10) [plane "A1B2C3" "KLM12" 0 10 None]
  = [].
Proof.
  split.
  - unfold directional_aircraft. cbn [_get_direction_range Py.dict_get direction_ranges
      String.eqb Ascii.eqb Bool.eqb fold_left].
    unfold direction_step. cbn [lat lon plane]. rewrite bearing_due_east.
    unfold in_direction. decide_leb. reflexivity.
  - unfold directional_aircraft. cbn [_get_direction_range Py.dict_get direction_ranges
      String.eqb Ascii.eqb Bool.eqb fold_left].
    unfold direction_step. cbn [lat lon plane]. rewrite bearing_due_east.
    unfold in_direction. decide_leb. reflexivity.
Qed.

(** C4 at the case the specification names: with the receiver at (0, 0) the
    by-direction handler stops at the location check, so the aircraft at
    (0, 10) is not listed to the east; the answer is the location error. *)
Theorem by_direction_due_east_from_origin :
  run (_get_aircraft_by_direction
         (serve (receiver_at 0 0) (snapshot_of [plane "A1B2C3" "KLM12" 0 10 None]))
         (DirectionArgs (Some "east"%string) None None))
  = (inr DirNoLocation, ["receiver.json"%string]) /\
  direction_listing DirNoLocation = [].
Proof.
  split; [| reflexivity].
  unfold _get_aircraft_by_direction, run, try_except, bind, subscript, _fetch_json.
  cbn [da_direction da_count da_max_distance ret].
  change (Py.in_list (Py.lower "east") valid_directions) with true.
  cbn [negb].
  change (count_invalid (Py.get None (Py.VInt 10))) with false.
  cbn [serve receiver_at doc_lat doc_lon Py.truthy_opt String.eqb Ascii.eqb Bool.eqb app].
  rewrite (proj2 (truthy_false_iff 0%R) eq_refl). reflexivity.
Qed.

(** ** Strings *)

Lemma is_space_upper_char (c : ascii) : Py.is_space (Py.upper_char c) = Py.is_space c.
Proof. destruct c as [[] [] [] [] [] [] [] []]; reflexivity. Qed.

Lemma upper_char_idem (c : ascii) : Py.upper_char (Py.upper_char c) = Py.upper_char c.
Proof. destruct c as [[] [] [] [] [] [] [] []]; reflexivity. Qed.

Lemma upper_idem (s : string) : Py.upper (Py.upper s) = Py.upper s.
Proof.
  induction s as [| c r IH]; simpl; [reflexivity |].
  rewrite upper_char_idem, IH. reflexivity.
Qed.

Lemma lstrip_upper (s : string) : Py.lstrip (Py.upper s) = Py.upper (Py.lstrip s).
Proof.
  induction s as [| c r IH]; simpl; [reflexivity |].
  rewrite is_space_upper_char. destruct (Py.is_space c); [exact IH | reflexivity].
Qed.

Lemma rstrip_upper (s : string) : Py.rstrip (Py.upper s) = Py.upper (Py.rstrip s).
Proof.
  induction s as [| c r IH]; simpl; [reflexivity |].
  rewrite IH, is_space_upper_char.
  destruct (Py.rstrip r); simpl; [destruct (Py.is_space c) |]; reflexivity.
Qed.

(** On ASCII text [upper] and [strip] commute. *)
Lemma strip_upper (s : string) : Py.strip (Py.upper s) = Py.upper (Py.strip s).
Proof.
  unfold Py.strip. rewrite lstrip_upper, rstrip_upper. reflexivity.
Qed.

Lemma rstrip_empty_iff (s : string) : Py.rstrip s = EmptyString <-> blank s = true.
Proof.
  induction s as [| c r IH]; simpl.
  - split; reflexivity.
  - destruct (Py.rstrip r) eqn:E.
    + destruct (Py.is_space c); simpl.
      * rewrite <- IH. split; reflexivity.
      * split; discriminate.
    + rewrite andb_true_iff, <- IH. split; [discriminate | intros [_ H]; discriminate].
Qed.

Lemma lstrip_blank (s : string) : blank (Py.lstrip s) = blank s.
Proof.
  induction s as [| c r IH]; simpl; [reflexivity |].
  destruct (Py.is_space c) eqn:E; simpl; [exact IH | rewrite E; reflexivity].
Qed.

(** [strip] leaves nothing exactly of the blank strings. *)
Lemma strip_empty_iff (s : string) : Py.strip s = EmptyString <-> blank s = true.
Proof.
  unfold Py.strip. rewrite rstrip_empty_iff, lstrip_blank. reflexivity.
Qed.

Lemma upper_empty_iff (s : string) : Py.upper s = EmptyString <-> s = EmptyString.
Proof. destruct s; simpl; split; intros; easy. Qed.

Lemma startswith_iff (q s : string) :
  Py.startswith q s = true <-> exists post, s = (q ++ post)%string.
Proof.
  revert s. induction q as [| a q IH]; intros s; simpl.
  - split; [intros _; exists s; reflexivity | reflexivity].
  - destruct s as [| b s].
    + split; [discriminate | intros [post H]; discriminate].
    + rewrite andb_true_iff, IH. split.
      * intros [Hab [post ->]]. apply Ascii.eqb_eq in Hab. subst b.
        exists post. reflexivity.
      * intros [post H]. injection H as -> ->. split.
        -- apply Ascii.eqb_refl.
        -- exists post. reflexivity.
Qed.

(** [q in s] is containment as a contiguous block. *)
Lemma str_in_iff (q s : string) : Py.str_in q s = true <-> substring q s.
Proof.
  unfold substring. induction s as [| b s IH].
  - simpl. rewrite orb_false_r, startswith_iff. split.
    + intros [post H]. exists EmptyString, post. exact H.
    + intros [pre [post H]]. destruct pre; simpl in H.
      * exists post. exact H.
      * discriminate.
  - cbn [Py.str_in]. rewrite orb_true_iff, startswith_iff, IH. split.
    + intros [[post H] | [pre [post H]]].
      * exists EmptyString, post. exact H.
      * exists (String b pre), post. simpl. rewrite H. reflexivity.
    + intros [pre [post H]]. destruct pre as [| c pre]; simpl in H.
      * left. exists post. exact H.
      * right. injection H as _ H. exists pre, post. exact H.
Qed.

(** ** The search *)

Lemma search_step_spec (t q : string) (acc : list aircraft_t) (a : aircraft_t) :
  search_step t q acc a = acc ++ (if search_pred t q a then [a] else []).
Proof.
  unfold search_step, search_pred, Py.in_list. cbn [existsb].
  destruct (String.eqb_spec t "callsign") as [-> | N1];
    [| destruct (String.eqb_spec t "flight") as [-> | N2];
       [| destruct (String.eqb_spec t "hex") as [-> | N3];
          [| destruct (String.eqb_spec t "any") as [-> | N4]]]];
    cbn [String.eqb Ascii.eqb Bool.eqb orb andb];
    destruct (flight_test q a); destruct (hex_test q a);
    cbn [orb andb]; rewrite ?app_nil_r; reflexivity.
Qed.

Lemma search_loop (t q : string) (l acc : list aircraft_t) :
  fold_left (search_step t q) l acc = acc ++ filter (search_pred t q) l.
Proof.
  revert acc. induction l as [| a r IH]; intros acc.
  - simpl. rewrite app_nil_r. reflexivity.
  - cbn [fold_left filter]. rewrite IH, search_step_spec, <- app_assoc.
    destruct (search_pred t q a); reflexivity.
Qed.

Lemma search_matches_filter (t q : string) (l : list aircraft_t) :
  search_matches t q l = filter (search_pred t q) l.
Proof. unfold search_matches. rewrite search_loop. reflexivity. Qed.

Lemma filter_subsequence {A : Type} (p : A -> bool) (l : list A) :
  Subsequence (filter p l) l.
Proof.
  induction l as [| x r IH]; simpl.
  - constructor.
  - destruct (p x); constructor; exact IH.
Qed.

(** The handler on a query that is not blank, a known search type and a
    fetched snapshot. *)
Lemma search_handler_matches (api : upstream) (args : search_args)
    (raw : string) (adoc : document) :
  sa_query args = Some raw ->
  blank raw = false ->
  In (Py.get (sa_search_type args) "any"%string) valid_search_types ->
  api "aircraft.json"%string = inr adoc ->
  let query := Py.strip (Py.upper raw) in
  let search_type := Py.get (sa_search_type args) "any"%string in
  let matches := search_matches search_type query (Py.get (doc_aircraft adoc) []) in
  run (_search_aircraft api args)
  = (inr (match matches with
          | [] => SearchNoMatch query search_type
          | _ => SearchFound query matches
          end),
     ["aircraft.json"%string]).
Proof.
  intros Hraw Hblank Htype Ha query search_type matches.
  apply in_list_iff in Htype.
  assert (Hq : String.eqb query "" = false).
  { apply String.eqb_neq. unfold query. rewrite strip_upper, upper_empty_iff,
      strip_empty_iff, Hblank. discriminate. }
  unfold _search_aircraft, run, try_except, bind, subscript, _fetch_json.
  rewrite Hraw. cbn [ret]. fold query. rewrite Hq.
  fold search_type. fold search_type in Htype. rewrite Htype. cbn [negb].
  rewrite Ha. cbn [app]. fold matches.
  destruct matches; reflexivity.
Qed.


(** A query in lower case with blanks around it finds the callsign. *)
Example search_finds_callsign :
  run (_search_aircraft
         (serve (receiver_at 1 1)
                (snapshot_of [plane "4840D6" "BAW1    " 3 3 None;
                              plane "A1B2C3" "Klm12   " 2 2 None]))
         (SearchArgs (Some " klm "%string) None))
  = (inr (SearchFound "KLM" [plane "A1B2C3" "Klm12   " 2 2 None]),
     ["aircraft.json"%string]).
Proof. reflexivity. Qed.

(** C8: a blank query is answered with the validation text, before any
    fetch; a query that is not blank, with a known search type, on a
    fetched snapshot in which nothing matches is answered with the "No
    aircraft found" text, which no failure answer can equal. *)
Theorem search_blank_query_and_no_match (api : upstream) (args : search_args)
    (raw : string) :
  sa_query args = Some raw ->
  (blank raw = true ->
   run (_search_aircraft api args) = (inr SearchEmptyQuery, []) /\
   forall web_base str_num,
     search_text web_base str_num SearchEmptyQuery = "Search query cannot be empty"%string) /\
  (forall adoc,
      blank raw = false ->
      In (Py.get (sa_search_type args) "any"%string) valid_search_types ->
      api "aircraft.json"%string = inr adoc ->
      search_matches (Py.get (sa_search_type args) "any"%string)
        (Py.strip (Py.upper raw)) (Py.get (doc_aircraft adoc) []) = [] ->
      exists resp,
        run (_search_aircraft api args) = (inr resp, ["aircraft.json"%string]) /\
        resp = SearchNoMatch (Py.strip (Py.upper raw))
                 (Py.get (sa_search_type args) "any"%string) /\
        search_listing resp = [] /\
        ~ search_failure resp /\
        forall web_base str_num failure,
          search_failure failure ->
          search_text web_base str_num resp <> search_text web_base str_num failure).
Proof.
  intros Hraw. split.
  - intros Hblank. split; [| reflexivity].
    unfold _search_aircraft, run, try_except, bind, subscript.
    rewrite Hraw. cbn [ret].
    replace (Py.strip (Py.upper raw)) with EmptyString.
    + reflexivity.
    + symmetry. rewrite strip_upper. apply upper_empty_iff, strip_empty_iff, Hblank.
  - intros adoc Hblank Htype Ha Hnone.
    pose proof (search_handler_matches api args Hraw Hblank Htype Ha) as Hrun.
    cbv zeta in Hrun. rewrite Hnone in Hrun.
    eexists. split; [exact Hrun |].
    split; [reflexivity |].
    split; [reflexivity |].
    split; [intros H; exact H |].
    intros web_base str_num failure Hf.
    destruct failure; try contradiction; cbn; discriminate.
Qed.

Lemma search_blank_query_and_no_match_witness :
  run (_search_aircraft
         (serve (receiver_at 1 1) (snapshot_of [plane "A1B2C3" "KLM12" 2 2 None]))
         (SearchArgs (Some "   "%string) None))
  = (inr SearchEmptyQuery, []) /\
  exists resp,
    run (_search_aircraft
           (serve (receiver_at 1 1) (snapshot_of [plane "A1B2C3" "KLM12" 2 2 None]))
           (SearchArgs (Some "xyz"%string) (Some "hex"%string)))
    = (inr resp, ["aircraft.json"%string]) /\
    resp = SearchNoMatch "XYZ" "hex" /\
    search_listing resp = [] /\
    ~ search_failure resp /\
    forall web_base str_num failure,
      search_failure failure ->
      search_text web_base str_num resp <> search_text web_base str_num failure.
Proof.
  split.
  - apply (proj1 (proj1 (@search_blank_query_and_no_match
                           (serve (receiver_at 1 1)
                                  (snapshot_of [plane "A1B2C3" "KLM12" 2 2 None]))
                           (SearchArgs (Some "   "%string) None) "   "%string eq_refl)
                        eq_refl)).
  - apply (proj2 (@search_blank_query_and_no_match
                    (serve (receiver_at 1 1)
                           (snapshot_of [plane "A1B2C3" "KLM12" 2 2 None]))
                    (SearchArgs (Some "xyz"%string) (Some "hex"%string))
                    "xyz"%string eq_refl)
             (snapshot_of [plane "A1B2C3" "KLM12" 2 2 None])).
    + reflexivity.
    + simpl. tauto.
    + reflexivity.
    + reflexivity.
Defined.

(** ** The filtered list *)

Lemma value_le_num (x y : Py.value) :
  number_or_absent (Some x) = true -> number_or_absent (Some y) = true ->
  value_le x y = inr (Py.leb (num x) (num y)).
Proof.
  unfold number_or_absent, value_le, Py.le, num.
  destruct (Py.as_number x); [| discriminate].
  destruct (Py.as_number y); [| discriminate]. reflexivity.
Qed.

Lemma number_or_default (x : option Py.value) (z : Z) :
  number_or_absent x = true -> number_or_absent (Some (Py.get x (Py.VInt z))) = true.
Proof. destruct x; [intros H; exact H | reflexivity]. Qed.

(** A number cannot be ordered with a text. *)
Lemma value_le_number_text (x : Py.value) (text : string) :
  number_or_absent (Some x) = true ->
  value_le x (Py.VStr text)
  = inl (TypeError ("'<=' not supported between instances of '"
                    ++ Py.type_name x ++ "' and 'str'")).
Proof.
  unfold number_or_absent, value_le, Py.le.
  destruct x; cbn; try discriminate; try reflexivity.
Qed.

Lemma filter_raising_total {A : Type} (test : A -> exn + bool) (keep : A -> bool)
    (l : list A) :
  Forall (fun a => test a = inr (keep a)) l ->
  filter_raising test l = inr (filter keep l).
Proof.
  intros H. induction H as [| x r Hx Hr IH]; [reflexivity |].
  cbn [filter_raising filter]. rewrite Hx, IH. reflexivity.
Qed.

Lemma filter_raising_subsequence {A : Type} (test : A -> exn + bool) (l kept : list A) :
  filter_raising test l = inr kept -> Subsequence kept l.
Proof.
  revert kept. induction l as [| x r IH]; intros kept H; cbn [filter_raising] in H.
  - injection H as <-. constructor.
  - destruct (test x) as [e | keep]; [discriminate |].
    destruct (filter_raising test r) as [e | k]; [discriminate |].
    injection H as <-. destruct keep.
    + apply Subsequence_keep. apply IH. reflexivity.
    + apply Subsequence_skip. apply IH. reflexivity.
Qed.

Lemma filter_raising_error {A : Type} (test : A -> exn + bool) (l : list A) (a : A) :
  In a l -> (exists e, test a = inl e) -> exists e, filter_raising test l = inl e.
Proof.
  intros Hin [e He]. induction l as [| x r IH]; [destruct Hin |].
  cbn [filter_raising]. destruct (test x) as [e' | keep] eqn:Ex; [exists e'; reflexivity |].
  destruct Hin as [-> | Hin]; [rewrite He in Ex; discriminate |].
  destruct (IH Hin) as [e' E]. rewrite E. exists e'. reflexivity.
Qed.

Lemma subsequence_trans {A : Type} (l1 l2 l3 : list A) :
  Subsequence l1 l2 -> Subsequence l2 l3 -> Subsequence l1 l3.
Proof.
  intros H12 H23. revert l1 H12.
  induction H23 as [| x l2 l3 H IH | x l2 l3 H IH]; intros l1 H12.
  - exact H12.
  - apply Subsequence_skip. apply IH. exact H12.
  - inversion H12 as [| y l1' l2' H' | y l1' l2' H']; subst.
    + apply Subsequence_skip. apply IH. exact H'.
    + apply Subsequence_keep. apply IH. exact H'.
Qed.

Lemma subsequence_refl {A : Type} (l : list A) : Subsequence l l.
Proof. induction l as [| x r IH]; [constructor | apply Subsequence_keep; exact IH]. Qed.

(** What the filters return is the list with some aircraft left out. *)
Lemma apply_filters_subsequence (args : data_args) (l kept : list aircraft_t) :
  apply_filters args l = inr kept -> Subsequence kept l.
Proof.
  unfold apply_filters. intros H.
  destruct (filter_distance args) as [m |].
  - destruct (filter_raising (distance_ok m) l) as [e | l1] eqn:E1; [discriminate |].
    apply subsequence_trans with l1; [| apply (filter_raising_subsequence _ _ E1)].
    destruct (filter_altitude args) as [f |].
    + apply (filter_raising_subsequence _ _ H).
    + injection H as <-. apply subsequence_refl.
  - destruct (filter_altitude args) as [f |].
    + apply (filter_raising_subsequence _ _ H).
    + injection H as <-. apply subsequence_refl.
Qed.

(** On numbers the two filters are one filter, by the conjunction of the
    two tests. *)
Lemma apply_filters_numeric (args : data_args) (l : list aircraft_t) :
  numeric_filters args l -> apply_filters args l = inr (filter (keeps args) l).
Proof.
  intros [Hm [Hrange Hl]]. unfold apply_filters, keeps.
  destruct (filter_distance args) as [m |].
  - rewrite (filter_raising_total (distance_ok m)
               (fun a => Py.leb (num (Py.get (r_dst a) (Py.VInt 0))) (num m)) (l := l)).
    + destruct (filter_altitude args) as [f |].
      * destruct (Hrange f eq_refl) as [Hmin Hmax].
        rewrite (filter_raising_total
                   (altitude_ok (Py.get (af_min f) (Py.VInt 0))
                                (Py.get (af_max f) (Py.VInt 50000)))
                   (fun a =>
                      Py.leb (num (Py.get (af_min f) (Py.VInt 0)))
                             (num (Py.get (alt_baro a) (Py.VInt 0)))
                      && Py.leb (num (Py.get (alt_baro a) (Py.VInt 0)))
                                (num (Py.get (af_max f) (Py.VInt 50000))))).
        -- f_equal. clear. induction l as [| a r IH]; [reflexivity |].
           cbn [filter]. destruct (Py.leb _ (num m)); cbn [filter andb];
             rewrite IH; reflexivity.
        -- apply Forall_forall. intros a Ha. apply filter_In in Ha. destruct Ha as [Ha _].
           rewrite Forall_forall in Hl. destruct (Hl a Ha) as [_ Halt].
           unfold altitude_ok.
           rewrite (value_le_num _ _ (number_or_default _ 0 Hmin) (number_or_default _ 0 Halt)).
           destruct (Py.leb _ _); [| reflexivity].
           rewrite (value_le_num _ _ (number_or_default _ 0 Halt)
                      (number_or_default _ 50000 Hmax)).
           reflexivity.
      * f_equal. apply filter_ext. intros a. rewrite andb_true_r. reflexivity.
    + apply Forall_forall. intros a Ha.
      rewrite Forall_forall in Hl. destruct (Hl a Ha) as [Hdst _].
      unfold distance_ok. apply value_le_num; [apply number_or_default; exact Hdst | exact Hm].
  - destruct (filter_altitude args) as [f |].
    + destruct (Hrange f eq_refl) as [Hmin Hmax].
      apply filter_raising_total. apply Forall_forall. intros a Ha.
      rewrite Forall_forall in Hl. destruct (Hl a Ha) as [_ Halt].
      unfold altitude_ok. cbn [andb].
      rewrite (value_le_num _ _ (number_or_default _ 0 Hmin) (number_or_default _ 0 Halt)).
      destruct (Py.leb _ _); [| reflexivity].
      rewrite (value_le_num _ _ (number_or_default _ 0 Halt)
                 (number_or_default _ 50000 Hmax)).
      reflexivity.
    + f_equal. clear. induction l as [| a r IH]; [reflexivity |].
      cbn [filter andb]. f_equal. exact IH.
Qed.

(** The answer of the handler after a fetch that succeeds: the filtered
    list, or the error of the filters. *)
Lemma data_handler_filtered (api : upstream) (args : data_args) (adoc : document) :
  api "aircraft.json"%string = inr adoc ->
  exists resp,
    run (_get_aircraft_data api args) = (inr resp, ["aircraft.json"%string]) /\
    (forall kept, apply_filters args (Py.get (doc_aircraft adoc) []) = inr kept ->
                  data_listing resp = kept) /\
    (forall e, apply_filters args (Py.get (doc_aircraft adoc) []) = inl e ->
               resp = DataError e).
Proof.
  intros Ha.
  unfold _get_aircraft_data, run, try_except, bind, lift, _fetch_json.
  rewrite Ha. cbn [app].
  destruct (apply_filters args (Py.get (doc_aircraft adoc) [])) as [e | kept].
  - eexists. split; [reflexivity |]. split; [discriminate |].
    intros e' E. injection E as <-. reflexivity.
  - destruct (String.eqb (Py.get (format args) "json"%string) "summary"%string);
      eexists; (split; [reflexivity |]); (split; [| discriminate]);
      intros k E; injection E as <-; reflexivity.
Qed.

(** The range 0..10000 drops a record at 20000 and keeps one without
    altitude, which counts as 0. *)
Lemma altitude_range_example :
  apply_filters
    (DataArgs None None (Some (AltitudeFilter (Some (Py.VInt 0)) (Some (Py.VInt 10000)))))
    [plane "A1B2C3" "KLM12" 2 2 (Some (Py.VInt 20000));
     plane_without_position "4840D6" None]
  = inr [plane_without_position "4840D6" None].
Proof.
  rewrite apply_filters_numeric.
  - unfold keeps. cbn [filter_distance filter_altitude af_min af_max Py.get filter
                       alt_baro plane plane_without_position andb].
    unfold num. cbn [Py.as_number]. decide_leb. reflexivity.
  - split; [reflexivity |]. split.
    + intros range E. injection E as <-. split; reflexivity.
    + repeat constructor.
Qed.

(** C7 at a snapshot readsb writes: one aircraft is on the ground, so its
    ["alt_baro"] is the text ["ground"], another flies at 5000 ft.  With
    the altitude range 0..10000 the comparison of line 272 raises
    [TypeError] on the first one and the handler answers with the error
    text: no aircraft is listed, the one at 5000 ft neither. *)
Theorem altitude_filter_fails_on_ground :
  run (_get_aircraft_data
         (serve (receiver_at 1 1)
                (snapshot_of [plane "A1B2C3" "KLM12" 2 2 (Some (Py.VStr "ground"));
                              plane "4840D6" "BAW1" 3 3 (Some (Py.VInt 5000))]))
         (DataArgs None None
            (Some (AltitudeFilter (Some (Py.VInt 0)) (Some (Py.VInt 10000))))))
  = (inr (DataError
            (TypeError "'<=' not supported between instances of 'int' and 'str'")),
     ["aircraft.json"%string]) /\
  data_listing
    (DataError (TypeError "'<=' not supported between instances of 'int' and 'str'"))
  = [].
Proof. split; reflexivity. Qed.

(** ** More on GeoMath *)

Lemma fmod_range (x m : R) : (0 < m)%R -> (0 <= Py.fmod x m < m)%R.
Proof.
  intros Hm. unfold Py.fmod.
  destruct (base_Int_part (x / m)) as [Hlo Hhi].
  set (k := IZR (Int_part (x / m))) in *.
  assert (Hx : x = (x / m * m)%R) by (field; lra).
  split; nra.
Qed.

Lemma fmod_small (x m : R) : (0 <= x < m)%R -> Py.fmod x m = x.
Proof.
  intros H. unfold Py.fmod.
  replace (Int_part (x / m)) with 0%Z; [lra |].
  apply Int_part_spec.
  assert (Hm : (0 < m)%R) by lra.
  assert (H0 : (0 <= x / m)%R).
  { unfold Rdiv. apply Rmult_le_pos; [lra |]. left. apply Rinv_0_lt_compat. lra. }
  assert (H1 : (x / m < 1)%R).
  { apply Rmult_lt_reg_r with m; [exact Hm |].
    replace (x / m * m)%R with x by (field; lra). lra. }
  lra.
Qed.

(** X1: whatever the two points are, the bearing lies in [[0, 360)]. *)
Theorem bearing_in_range (lat1 lon1 lat2 lon2 : R) :
  (0 <= _calculate_bearing lat1 lon1 lat2 lon2 < 360)%R.
Proof.
  unfold _calculate_bearing. cbv zeta. apply fmod_range. lra.
Qed.

Lemma degrees_0 : Py.degrees 0 = 0%R.
Proof. unfold Py.degrees. lra. Qed.

Lemma degrees_PI : Py.degrees PI = 180%R.
Proof. unfold Py.degrees. field. pose proof PI_RGT_0. lra. Qed.

Lemma degrees_half_PI : Py.degrees (PI / 2) = 90%R.
Proof. unfold Py.degrees. field. pose proof PI_RGT_0. lra. Qed.

Lemma fmod_360_turn (x : R) : (0 <= x < 360)%R -> Py.fmod (x + 360) 360 = x.
Proof.
  intros H. unfold Py.fmod.
  replace (Int_part ((x + 360) / 360)) with 1%Z; [lra |].
  apply Int_part_spec. lra.
Qed.

Lemma fmod_360_negative (x : R) : (-360 <= x < 0)%R -> Py.fmod (x + 360) 360 = (x + 360)%R.
Proof.
  intros H. apply fmod_small. lra.
Qed.

(** The bearing between two points of one meridian. *)
Lemma bearing_on_meridian (lat1 lat2 lon1 : R) :
  _calculate_bearing lat1 lon1 lat2 lon1
  = Py.fmod (Py.degrees (Py.atan2 0 (sin (Py.radians lat2 - Py.radians lat1))) + 360) 360.
Proof.
  unfold _calculate_bearing. cbv zeta.
  replace (Py.radians lon1 - Py.radians lon1)%R with 0%R by lra.
  rewrite sin_0, cos_0, (sin_minus (Py.radians lat2) (Py.radians lat1)).
  f_equal. f_equal. f_equal. f_equal; ring.
Qed.

(** The bearing between two points of the equator. *)
Lemma bearing_on_equator (lon1 lon2 : R) :
  _calculate_bearing 0 lon1 0 lon2
  = Py.fmod (Py.degrees (Py.atan2 (sin (Py.radians lon2 - Py.radians lon1)) 0) + 360) 360.
Proof.
  unfold _calculate_bearing. cbv zeta.
  rewrite radians_0, sin_0, cos_0.
  f_equal. f_equal. f_equal. f_equal; ring.
Qed.

(** X2: the four cardinal cases.  Along a meridian the bearing is 0 to a
    point further north and 180 to a point further south; along the
    equator it is 90 to the east and 270 to the west; from a point to
    itself it is 0. *)
Theorem bearing_cardinal :
  (forall lat1 lat2 lon1 : R,
      (0 < lat2 - lat1 < 180)%R -> _calculate_bearing lat1 lon1 lat2 lon1 = 0%R) /\
  (forall lat1 lat2 lon1 : R,
      (-180 < lat2 - lat1 < 0)%R -> _calculate_bearing lat1 lon1 lat2 lon1 = 180%R) /\
  (forall lon1 lon2 : R,
      (0 < lon2 - lon1 < 180)%R -> _calculate_bearing 0 lon1 0 lon2 = 90%R) /\
  (forall lon1 lon2 : R,
      (-180 < lon2 - lon1 < 0)%R -> _calculate_bearing 0 lon1 0 lon2 = 270%R) /\
  (forall lat1 lon1 : R, _calculate_bearing lat1 lon1 lat1 lon1 = 0%R).
Proof.
  pose proof PI_RGT_0 as Hpi.
  assert (Hrad : forall u v : R,
             (Py.radians u - Py.radians v = (u - v) * (PI / 180))%R)
    by (intros; unfold Py.radians; ring).
  repeat split.
  - intros lat1 lat2 lon1 H. rewrite bearing_on_meridian, Hrad.
    assert (Hs : (0 < sin ((lat2 - lat1) * (PI / 180)))%R) by (apply sin_gt_0; nra).
    unfold Py.atan2.
    destruct (Rlt_dec 0 (sin ((lat2 - lat1) * (PI / 180)))) as [_ | N]; [| contradiction].
    replace (0 / sin ((lat2 - lat1) * (PI / 180)))%R with 0%R by (field; lra).
    rewrite atan_0, degrees_0.
    apply fmod_360_turn. lra.
  - intros lat1 lat2 lon1 H. rewrite bearing_on_meridian, Hrad.
    assert (Hs : (sin ((lat2 - lat1) * (PI / 180)) < 0)%R) by (apply sin_lt_0_var; nra).
    unfold Py.atan2.
    destruct (Rlt_dec 0 (sin ((lat2 - lat1) * (PI / 180)))) as [P | _]; [lra |].
    destruct (Rlt_dec (sin ((lat2 - lat1) * (PI / 180))) 0) as [_ | N]; [| contradiction].
    destruct (Rle_dec 0 0) as [_ | N]; [| lra].
    replace (0 / sin ((lat2 - lat1) * (PI / 180)))%R with 0%R by (field; lra).
    rewrite atan_0, Rplus_0_l, degrees_PI.
    apply fmod_360_turn. lra.
  - intros lon1 lon2 H. rewrite bearing_on_equator, Hrad.
    assert (Hs : (0 < sin ((lon2 - lon1) * (PI / 180)))%R) by (apply sin_gt_0; nra).
    unfold Py.atan2.
    destruct (Rlt_dec 0 0) as [P | _]; [lra |].
    destruct (Rlt_dec 0 (sin ((lon2 - lon1) * (PI / 180)))) as [_ | N]; [| contradiction].
    rewrite degrees_half_PI. apply fmod_360_turn. lra.
  - intros lon1 lon2 H. rewrite bearing_on_equator, Hrad.
    assert (Hs : (sin ((lon2 - lon1) * (PI / 180)) < 0)%R) by (apply sin_lt_0_var; nra).
    unfold Py.atan2.
    destruct (Rlt_dec 0 0) as [P | _]; [lra |].
    destruct (Rlt_dec 0 (sin ((lon2 - lon1) * (PI / 180)))) as [P | _]; [lra |].
    destruct (Rlt_dec (sin ((lon2 - lon1) * (PI / 180))) 0) as [_ | N]; [| contradiction].
    replace (Py.degrees (- (PI / 2))) with (-90)%R
      by (unfold Py.degrees; field; lra).
    replace (-90 + 360)%R with 270%R by lra.
    apply fmod_small. lra.
  - intros lat1 lon1. rewrite bearing_on_meridian.
    replace (Py.radians lat1 - Py.radians lat1)%R with 0%R by lra.
    rewrite sin_0. unfold Py.atan2.
    destruct (Rlt_dec 0 0) as [P | _]; [lra |].
    rewrite degrees_0. apply fmod_360_turn. lra.
Qed.

Lemma bearing_cardinal_witness :
  _calculate_bearing 48 11 52 11 = 0%R /\
  _calculate_bearing 52 11 48 11 = 180%R /\
  _calculate_bearing 0 (-3) 0 4 = 90%R /\
  _calculate_bearing 0 4 0 (-3) = 270%R.
Proof.
  split; [apply (proj1 bearing_cardinal); lra |].
  split; [apply (proj1 (proj2 bearing_cardinal)); lra |].
  split; [apply (proj1 (proj2 (proj2 bearing_cardinal))); lra |].
  apply (proj1 (proj2 (proj2 (proj2 bearing_cardinal)))); lra.
Defined.

Lemma asin_nonneg (x : R) : (0 <= x <= 1)%R -> (0 <= asin x)%R.
Proof.
  intros H. destruct (Rle_dec 0 (asin x)) as [P | N]; [exact P |].
  exfalso. pose proof (asin_bound x) as Hb. pose proof PI_RGT_0 as Hpi.
  assert (Hs : (sin (asin x) < 0)%R) by (apply sin_lt_0_var; lra).
  rewrite sin_asin in Hs; lra.
Qed.

(** X3: computed over the real numbers, the haversine term [a] of
    [_calculate_distance] lies in [[0, 1]] and so does its square root; the
    distance is never negative and never more than half the circumference
    of the sphere, 3440.065 * pi.  This bounds the formula in exact
    arithmetic; it says nothing of what [math.sqrt] and [math.asin] do on a
    rounded [a], which binary64 can put just above 1 at antipodal points. *)
Theorem distance_bounds (lat1 lon1 lat2 lon2 : R) :
  let a := (sin ((Py.radians lat2 - Py.radians lat1) / 2) ^ 2
            + cos (Py.radians lat1) * cos (Py.radians lat2)
              * sin ((Py.radians lon2 - Py.radians lon1) / 2) ^ 2)%R in
  (0 <= a <= 1)%R /\
  (0 <= sqrt a <= 1)%R /\
  (0 <= _calculate_distance lat1 lon1 lat2 lon2 <= 3440.065 * PI)%R.
Proof.
  intros a.
  assert (Ha : (0 <= a <= 1)%R) by apply haversine_in_unit_interval.
  assert (Hs : (0 <= sqrt a <= 1)%R).
  { split; [apply sqrt_pos |]. rewrite <- sqrt_1. apply sqrt_le_1_alt. lra. }
  split; [exact Ha |]. split; [exact Hs |].
  unfold _calculate_distance. cbv zeta. fold a.
  pose proof (asin_nonneg Hs) as H0. pose proof (asin_bound (sqrt a)) as H1.
  split; nra.
Qed.

(** X4: along a meridian the distance is the length of the arc: the
    difference of latitude in radians times the radius, so one degree of
    latitude is 3440.065 * pi / 180 nautical miles. *)
Theorem distance_along_meridian (lat1 lat2 lon1 : R) :
  (Rabs (lat2 - lat1) <= 180)%R ->
  _calculate_distance lat1 lon1 lat2 lon1
  = (3440.065 * (Rabs (lat2 - lat1) * (PI / 180)))%R.
Proof.
  intros H. pose proof PI_RGT_0 as Hpi.
  unfold _calculate_distance. cbv zeta.
  replace ((Py.radians lon1 - Py.radians lon1) / 2)%R with 0%R by lra.
  rewrite sin_0.
  replace (sin ((Py.radians lat2 - Py.radians lat1) / 2) ^ 2
           + cos (Py.radians lat1) * cos (Py.radians lat2) * 0 ^ 2)%R
    with (Rsqr (sin ((Py.radians lat2 - Py.radians lat1) / 2)))
    by (unfold Rsqr; ring).
  rewrite sqrt_Rsqr_abs.
  replace ((Py.radians lat2 - Py.radians lat1) / 2)%R
    with ((lat2 - lat1) * (PI / 360))%R by (unfold Py.radians; field).
  set (u := (Rabs (lat2 - lat1) * (PI / 360))%R).
  assert (Hu : (0 <= u <= PI / 2)%R).
  { unfold u. pose proof (Rabs_pos (lat2 - lat1)). split; nra. }
  assert (E : Rabs (sin ((lat2 - lat1) * (PI / 360))) = sin u).
  { unfold u. destruct (Rcase_abs (lat2 - lat1)) as [Neg | Pos].
    - rewrite (Rabs_left _ Neg).
      replace (- (lat2 - lat1) * (PI / 360))%R
        with (- ((lat2 - lat1) * (PI / 360)))%R by ring.
      rewrite sin_neg. apply Rabs_left.
      apply sin_lt_0_var; [| nra].
      rewrite (Rabs_left _ Neg) in H. nra.
    - rewrite (Rabs_right _ Pos). apply Rabs_right. apply Rle_ge.
      rewrite (Rabs_right _ Pos) in H.
      apply sin_ge_0; nra. }
  rewrite E, asin_sin by lra.
  unfold u. field.
Qed.

Lemma distance_along_meridian_witness :
  _calculate_distance 48 11 49 11 = (3440.065 * (Rabs (49 - 48) * (PI / 180)))%R.
Proof.
  apply distance_along_meridian.
  replace (49 - 48)%R with 1%R by lra. rewrite Rabs_R1. lra.
Defined.

(** X5: the distance depends on the two longitudes only through their
    difference, does not change when a longitude is written a full turn
    further (the antimeridian is no seam), and is the same for the two
    points mirrored across the equator. *)
Theorem distance_invariances (lat1 lon1 lat2 lon2 : R) :
  (forall t : R,
      _calculate_distance lat1 (lon1 + t) lat2 (lon2 + t)
      = _calculate_distance lat1 lon1 lat2 lon2) /\
  _calculate_distance lat1 lon1 lat2 (lon2 + 360)
  = _calculate_distance lat1 lon1 lat2 lon2 /\
  _calculate_distance lat1 (lon1 + 360) lat2 lon2
  = _calculate_distance lat1 lon1 lat2 lon2 /\
  _calculate_distance (- lat1) lon1 (- lat2) lon2
  = _calculate_distance lat1 lon1 lat2 lon2.
Proof.
  pose proof PI_RGT_0 as Hpi.
  assert (Hturn : forall x : R, (sin (x + PI) ^ 2 = sin x ^ 2)%R).
  { intros x. rewrite neg_sin. ring. }
  assert (Hback : forall x : R, (sin (x - PI) ^ 2 = sin x ^ 2)%R).
  { intros x. rewrite <- (Hturn (x - PI)%R). f_equal. f_equal. ring. }
  split; [| split; [| split]].
  - intros t. unfold _calculate_distance. cbv zeta.
    replace (Py.radians (lon2 + t) - Py.radians (lon1 + t))%R
      with (Py.radians lon2 - Py.radians lon1)%R by (unfold Py.radians; ring).
    reflexivity.
  - unfold _calculate_distance. cbv zeta.
    replace ((Py.radians (lon2 + 360) - Py.radians lon1) / 2)%R
      with ((Py.radians lon2 - Py.radians lon1) / 2 + PI)%R
      by (unfold Py.radians; field; lra).
    rewrite Hturn. reflexivity.
  - unfold _calculate_distance. cbv zeta.
    replace ((Py.radians lon2 - Py.radians (lon1 + 360)) / 2)%R
      with ((Py.radians lon2 - Py.radians lon1) / 2 - PI)%R
      by (unfold Py.radians; field; lra).
    rewrite Hback. reflexivity.
  - unfold _calculate_distance. cbv zeta.
    replace (Py.radians (- lat1)) with (- Py.radians lat1)%R
      by (unfold Py.radians; ring).
    replace (Py.radians (- lat2)) with (- Py.radians lat2)%R
      by (unfold Py.radians; ring).
    rewrite !cos_neg.
    replace ((- Py.radians lat2 - - Py.radians lat1) / 2)%R
      with (- ((Py.radians lat2 - Py.radians lat1) / 2))%R by lra.
    rewrite sin_neg.
    replace ((- sin ((Py.radians lat2 - Py.radians lat1) / 2)) ^ 2)%R
      with (sin ((Py.radians lat2 - Py.radians lat1) / 2) ^ 2)%R by ring.
    reflexivity.
Qed.

(** ** More on DirectionBucket *)

(** After the comparisons between the bounds of the table are decided, the
    ones with the bearing are, from the place of the bearing among the
    bounds. *)
Ltac count_directions :=
  cbv [directions_of valid_directions filter _get_direction_range direction_ranges
       Py.dict_get String.eqb Ascii.eqb Bool.eqb fst snd in_direction Py.geb];
  decide_leb; cbn [andb orb List.length]; lia.

(** A bearing is held by one direction, or by two when it is a bound shared
    by two neighbours. *)
Lemma directions_of_cases (b : R) :
  (List.length (directions_of b) = 1%nat /\
   ~ In b [22.5; 67.5; 112.5; 157.5; 202.5; 247.5; 292.5; 337.5]%R) \/
  (List.length (directions_of b) = 2%nat /\
   In b [22.5; 67.5; 112.5; 157.5; 202.5; 247.5; 292.5; 337.5]%R).
Proof.
  assert (Hin : In b [22.5; 67.5; 112.5; 157.5; 202.5; 247.5; 292.5; 337.5]%R <->
                (b = 22.5 \/ b = 67.5 \/ b = 112.5 \/ b = 157.5 \/ b = 202.5 \/
                 b = 247.5 \/ b = 292.5 \/ b = 337.5)%R).
  { simpl. intuition. }
  rewrite Hin.
  destruct (Rtotal_order b 22.5) as [H1 | [H1 | H1]];
    [left; split; [count_directions | lra] | right; split; [count_directions | lra] |].
  destruct (Rtotal_order b 67.5) as [H2 | [H2 | H2]];
    [left; split; [count_directions | lra] | right; split; [count_directions | lra] |].
  destruct (Rtotal_order b 112.5) as [H3 | [H3 | H3]];
    [left; split; [count_directions | lra] | right; split; [count_directions | lra] |].
  destruct (Rtotal_order b 157.5) as [H4 | [H4 | H4]];
    [left; split; [count_directions | lra] | right; split; [count_directions | lra] |].
  destruct (Rtotal_order b 202.5) as [H5 | [H5 | H5]];
    [left; split; [count_directions | lra] | right; split; [count_directions | lra] |].
  destruct (Rtotal_order b 247.5) as [H6 | [H6 | H6]];
    [left; split; [count_directions | lra] | right; split; [count_directions | lra] |].
  destruct (Rtotal_order b 292.5) as [H7 | [H7 | H7]];
    [left; split; [count_directions | lra] | right; split; [count_directions | lra] |].
  destruct (Rtotal_order b 337.5) as [H8 | [H8 | H8]];
    [left; split; [count_directions | lra] | right; split; [count_directions | lra] |
     left; split; [count_directions | lra]].
Qed.

(** Every bearing is in the range of some accepted direction. *)
Lemma some_direction_holds (b : R) :
  exists d, In d valid_directions /\
            in_direction b (fst (_get_direction_range d)) (snd (_get_direction_range d)) = true.
Proof.
  assert (H : (1 <= List.length (directions_of b))%nat)
    by (destruct (directions_of_cases b) as [[E _] | [E _]]; rewrite E; lia).
  destruct (directions_of b) as [| d r] eqn:E; [simpl in H; lia |].
  assert (Hin : In d (directions_of b)) by (rewrite E; left; reflexivity).
  unfold directions_of in Hin. apply filter_In in Hin. exists d. exact Hin.
Qed.

(** X6: the eight ranges cover every bearing, so no positioned aircraft is
    out of all directions; a bearing belongs to one direction, or to two
    when it is the bound shared by two neighbours (both ends of a range are
    included), as 22.5 belongs to north and to northeast. *)
Theorem direction_ranges_cover (b : R) :
  (1 <= List.length (directions_of b) <= 2)%nat /\
  (exists d, In d valid_directions /\
             in_direction b (fst (_get_direction_range d))
                            (snd (_get_direction_range d)) = true) /\
  (List.length (directions_of b) = 2%nat <->
   In b [22.5; 67.5; 112.5; 157.5; 202.5; 247.5; 292.5; 337.5]%R).
Proof.
  split; [| split].
  - destruct (directions_of_cases b) as [[E _] | [E _]]; rewrite E; lia.
  - apply some_direction_holds.
  - destruct (directions_of_cases b) as [[E N] | [E Y]]; rewrite E; split;
      try tauto; try discriminate.
Qed.

(** ** More on the directional query *)

Lemma lower_upper_char (c : ascii) : Py.lower_char (Py.upper_char c) = Py.lower_char c.
Proof. destruct c as [[] [] [] [] [] [] [] []]; reflexivity. Qed.

Lemma lower_char_idem (c : ascii) : Py.lower_char (Py.lower_char c) = Py.lower_char c.
Proof. destruct c as [[] [] [] [] [] [] [] []]; reflexivity. Qed.

Lemma lower_upper (s : string) : Py.lower (Py.upper s) = Py.lower s.
Proof.
  induction s as [| c r IH]; simpl; [reflexivity |].
  rewrite lower_upper_char, IH. reflexivity.
Qed.

Lemma lower_idem (s : string) : Py.lower (Py.lower s) = Py.lower s.
Proof.
  induction s as [| c r IH]; simpl; [reflexivity |].
  rewrite lower_char_idem, IH. reflexivity.
Qed.

(** The answer depends on the direction only through its lower-case form. *)
Lemma direction_handler_lower (api : upstream) (raw1 raw2 : string)
    (max_distance : option R) (count : option Py.value) :
  Py.lower raw1 = Py.lower raw2 ->
  run (_get_aircraft_by_direction api (DirectionArgs (Some raw1) max_distance count))
  = run (_get_aircraft_by_direction api (DirectionArgs (Some raw2) max_distance count)).
Proof.
  intros H.
  unfold _get_aircraft_by_direction, run, try_except, bind, subscript.
  cbn [da_direction da_max_distance da_count ret]. rewrite H. reflexivity.
Qed.

(** X8: the direction is matched without regard to letter case: the name
    in upper case, in lower case or as given gets the same answer, and any
    capitalisation of one of the eight names passes the direction check. *)
Theorem direction_name_ignores_case (api : upstream) (raw : string)
    (max_distance : option R) (count : option Py.value) :
  run (_get_aircraft_by_direction api
         (DirectionArgs (Some (Py.upper raw)) max_distance count))
  = run (_get_aircraft_by_direction api (DirectionArgs (Some raw) max_distance count)) /\
  run (_get_aircraft_by_direction api
         (DirectionArgs (Some (Py.lower raw)) max_distance count))
  = run (_get_aircraft_by_direction api (DirectionArgs (Some raw) max_distance count)) /\
  (In (Py.lower raw) valid_directions ->
   forall other,
     Py.lower other = Py.lower raw ->
     forall d,
       fst (run (_get_aircraft_by_direction api
                   (DirectionArgs (Some other) max_distance count)))
       <> inr (DirInvalidDirection d)).
Proof.
  split; [apply direction_handler_lower, lower_upper |].
  split; [apply direction_handler_lower, lower_idem |].
  intros Hin other Hother d. apply in_list_iff in Hin.
  unfold _get_aircraft_by_direction, run, try_except, bind, subscript.
  cbn [da_direction da_max_distance da_count ret]. rewrite Hother, Hin. cbn [negb].
  destruct (count_invalid (Py.get count (Py.VInt 10))); [cbn; discriminate |].
  unfold _fetch_json.
  destruct (api "receiver.json"%string) as [e | rdoc]; [cbn; discriminate |].
  destruct (negb (Py.truthy_opt (doc_lat rdoc)) || negb (Py.truthy_opt (doc_lon rdoc)));
    [cbn; discriminate |].
  destruct (api "aircraft.json"%string) as [e | adoc]; [cbn; discriminate |].
  cbn [app].
  destruct (directional_aircraft _ _ _ _ _ _); [| cbn; discriminate].
  destruct (Py.truthy_opt max_distance); cbn; discriminate.
Qed.

Lemma direction_name_ignores_case_witness :
  fst (run (_get_aircraft_by_direction
              (serve (receiver_at 1 1) (snapshot_of []))
              (DirectionArgs (Some "EaSt"%string) None None)))
  <> inr (DirInvalidDirection "east").
Proof.
  apply (proj2 (proj2 (direction_name_ignores_case
                         (serve (receiver_at 1 1) (snapshot_of []))
                         "east"%string None None))).
  - simpl. tauto.
  - reflexivity.
Defined.

(** X7: on an accepted direction, a valid count, a receiver whose two
    coordinates are not 0 and a fetched snapshot, the by-direction handler
    lists the first [count] entries of the stable sort by distance of the
    candidates: every listed aircraft is in the snapshot with both
    coordinates, comes with its bearing and its distance, the bearing is in
    the range of the direction, the distance is within [max_distance] when
    given; the listing is sorted by distance. *)
Theorem by_direction_ranking (api : upstream) (args : direction_args) (raw : string)
    (rdoc adoc : document) (flat flon : R) (n : Z) :
  da_direction args = Some raw ->
  In (Py.lower raw) valid_directions ->
  Py.as_int (Py.get (da_count args) (Py.VInt 10)) = Some n ->
  (1 <= n <= 50)%Z ->
  api "receiver.json"%string = inr rdoc ->
  doc_lat rdoc = Some flat -> doc_lon rdoc = Some flon ->
  flat <> 0%R -> flon <> 0%R ->
  api "aircraft.json"%string = inr adoc ->
  let snapshot := Py.get (doc_aircraft adoc) [] in
  let max_distance := da_max_distance args in
  let min_bearing := fst (_get_direction_range (Py.lower raw)) in
  let max_bearing := snd (_get_direction_range (Py.lower raw)) in
  exists resp ranked,
    run (_get_aircraft_by_direction api args)
    = (inr resp, ["receiver.json"; "aircraft.json"]%string) /\
    stable_sorted (fun x => fst (fst x))
      (directional_candidates flat flon min_bearing max_bearing max_distance snapshot)
      ranked /\
    direction_listing resp = firstn (Z.to_nat n) ranked /\
    Forall
      (fun e =>
         In (snd e) snapshot /\
         exists alat alon,
           lat (snd e) = Some alat /\ lon (snd e) = Some alon /\
           snd (fst e) = _calculate_bearing flat flon alat alon /\
           fst (fst e) = _calculate_distance flat flon alat alon /\
           in_direction (snd (fst e)) min_bearing max_bearing = true /\
           (forall m, max_distance = Some m -> (fst (fst e) <= m)%R))
      (direction_listing resp) /\
    StronglySorted (le_by (fun x => fst (fst x))) (direction_listing resp) /\
    (Z.of_nat (List.length (direction_listing resp)) <= n)%Z.
Proof.
  intros Hraw Hin Hn Hrange Hr Hlat Hlon Hflat Hflon Ha
         snapshot max_distance min_bearing max_bearing.
  assert (Hc : count_invalid (Py.get (da_count args) (Py.VInt 10)) = false).
  { apply count_invalid_false_iff. exists n. split; assumption. }
  assert (Tlat : Py.truthy_opt (doc_lat rdoc) = true)
    by (rewrite Hlat; apply truthy_true_iff; exact Hflat).
  assert (Tlon : Py.truthy_opt (doc_lon rdoc) = true)
    by (rewrite Hlon; apply truthy_true_iff; exact Hflon).
  destruct (direction_handler_ranked api args Hraw Hin Hc Hr Tlat Tlon Ha)
    as [resp [Hrun Hlist]].
  rewrite Hlat, Hlon in Hlist. cbn [Py.get] in Hlist.
  rewrite directional_aircraft_eq, (take_firstn _ _ Hn) in Hlist.
  fold snapshot max_distance min_bearing max_bearing in Hlist.
  set (cands := directional_candidates flat flon min_bearing max_bearing
                  max_distance snapshot) in *.
  exists resp, (Py.sort_by (fun x => fst (fst x)) cands).
  split; [exact Hrun |].
  split; [apply sort_by_stable_sorted |].
  split; [exact Hlist |].
  rewrite Hlist. split; [| split].
  - apply firstn_forall, sort_by_forall. apply Forall_forall.
    intros [[d b] a] He. apply directional_candidates_In in He.
    destruct He as [Hs [alat [alon [E1 [E2 [E3 [E4 [E5 E6]]]]]]]].
    cbn [fst snd]. split; [exact Hs |].
    exists alat, alon. repeat split; try assumption.
    intros m Hm. fold max_distance in E6. rewrite Hm in E6.
    apply leb_true_iff in E6. exact E6.
  - apply firstn_sorted, sort_by_sorted.
  - rewrite length_firstn. lia.
Qed.

Lemma by_direction_ranking_witness :
  exists resp ranked,
    run (_get_aircraft_by_direction
           (serve (receiver_at 1 1) (snapshot_of [plane "A1B2C3" "KLM12" 2 2 None]))
           (DirectionArgs (Some "northeast"%string) None None))
    = (inr resp, ["receiver.json"; "aircraft.json"]%string) /\
    stable_sorted (fun x => fst (fst x))
      (directional_candidates 1 1
         (fst (_get_direction_range (Py.lower "northeast")))
         (snd (_get_direction_range (Py.lower "northeast")))
         None [plane "A1B2C3" "KLM12" 2 2 None])
      ranked /\
    direction_listing resp = firstn 10 ranked.
Proof.
  destruct (@by_direction_ranking
              (serve (receiver_at 1 1) (snapshot_of [plane "A1B2C3" "KLM12" 2 2 None]))
              (DirectionArgs (Some "northeast"%string) None None) "northeast"%string
              (receiver_at 1 1) (snapshot_of [plane "A1B2C3" "KLM12" 2 2 None])
              1%R 1%R 10%Z eq_refl)
    as [resp [ranked [H1 [H2 [H3 _]]]]];
    try reflexivity; try lra; try lia.
  - simpl. tauto.
  - exists resp, ranked. split; [exact H1 |]. split; [exact H2 | exact H3].
Defined.

(** The candidates of a proximity query, one by one. *)
Lemma closest_candidates_In (flat flon : R) (maxd : option R) (l : list aircraft_t)
    (d : R) (a : aircraft_t) :
  In (d, a) (closest_candidates flat flon maxd l) <->
  In a l /\
  exists alat alon,
    lat a = Some alat /\ lon a = Some alon /\
    d = _calculate_distance flat flon alat alon /\ within maxd d = true.
Proof.
  unfold closest_candidates. rewrite in_flat_map. split.
  - intros [a' [Ha' Hin]]. unfold position in Hin.
    destruct (lat a') as [alat |] eqn:Elat; [| destruct Hin].
    destruct (lon a') as [alon |] eqn:Elon; [| destruct Hin].
    cbv zeta in Hin.
    destruct (within maxd _) eqn:Ew; [| destruct Hin].
    destruct Hin as [Hin | []]. injection Hin as <- <-.
    split; [exact Ha' |]. exists alat, alon. repeat split; assumption || reflexivity.
  - intros [Ha [alat [alon [Elat [Elon [-> Ew]]]]]].
    exists a. split; [exact Ha |]. unfold position. rewrite Elat, Elon.
    cbv zeta. rewrite Ew. left. reflexivity.
Qed.

Lemma directional_within_closest (flat flon mn mx : R) (maxd : option R)
    (l : list aircraft_t) :
  Subsequence (map drop_bearing (directional_candidates flat flon mn mx maxd l))
              (closest_candidates flat flon maxd l).
Proof.
  induction l as [| a r IH]; [constructor |].
  unfold directional_candidates, closest_candidates in *. cbn [flat_map].
  rewrite map_app.
  destruct (position a) as [[alat alon] |]; [| exact IH].
  cbv zeta.
  destruct (within maxd (_calculate_distance flat flon alat alon)).
  - destruct (in_direction (_calculate_bearing flat flon alat alon) mn mx);
      cbn [andb map app]; constructor; exact IH.
  - rewrite andb_false_r. exact IH.
Qed.

(** X9: the by-direction candidates of a direction are candidates of the
    closest query, with the same distance and in the same order; and every
    candidate of the closest query is a by-direction candidate of at least
    one of the eight directions: asking the eight directions misses no
    aircraft that the closest query can list. *)
Theorem directions_partition_closest (flat flon : R) (maxd : option R)
    (l : list aircraft_t) :
  (forall direction,
      Subsequence
        (map drop_bearing
           (directional_candidates flat flon
              (fst (_get_direction_range direction)) (snd (_get_direction_range direction))
              maxd l))
        (closest_candidates flat flon maxd l)) /\
  (forall d a,
      In (d, a) (closest_candidates flat flon maxd l) ->
      exists direction b,
        In direction valid_directions /\
        In (d, b, a)
           (directional_candidates flat flon
              (fst (_get_direction_range direction)) (snd (_get_direction_range direction))
              maxd l)).
Proof.
  split.
  - intros direction. apply directional_within_closest.
  - intros d a Hin. apply closest_candidates_In in Hin.
    destruct Hin as [Ha [alat [alon [Elat [Elon [Ed Ew]]]]]].
    destruct (some_direction_holds (_calculate_bearing flat flon alat alon))
      as [direction [Hdir Hb]].
    exists direction, (_calculate_bearing flat flon alat alon).
    split; [exact Hdir |].
    apply directional_candidates_In. split; [exact Ha |].
    exists alat, alon. repeat split; assumption.
Qed.

Lemma directions_partition_closest_witness :
  exists direction b,
    In direction valid_directions /\
    In (_calculate_distance 1 1 2 2, b, plane "A1B2C3" "KLM12" 2 2 None)
       (directional_candidates 1 1
          (fst (_get_direction_range direction)) (snd (_get_direction_range direction))
          None [plane "A1B2C3" "KLM12" 2 2 None]).
Proof.
  apply (proj2 (directions_partition_closest 1 1 None [plane "A1B2C3" "KLM12" 2 2 None])).
  left. reflexivity.
Defined.

(** ** More on the closest query *)

Lemma distance_nonneg (lat1 lon1 lat2 lon2 : R) :
  (0 <= _calculate_distance lat1 lon1 lat2 lon2)%R.
Proof.
  unfold _calculate_distance. cbv zeta.
  pose proof (haversine_in_unit_interval (Py.radians lat1) (Py.radians lon1)
                (Py.radians lat2) (Py.radians lon2)) as Ha.
  set (a := (sin ((Py.radians lat2 - Py.radians lat1) / 2) ^ 2
             + cos (Py.radians lat1) * cos (Py.radians lat2)
               * sin ((Py.radians lon2 - Py.radians lon1) / 2) ^ 2)%R) in *.
  assert (Hs : (0 <= sqrt a <= 1)%R).
  { split; [apply sqrt_pos |]. rewrite <- sqrt_1. apply sqrt_le_1_alt. lra. }
  pose proof (asin_nonneg Hs). nra.
Qed.

(** X10: asking for more aircraft never changes the ones already listed:
    under the same conditions the listing for a count [n] is the first [n]
    entries of the listing for any larger count [m]. *)
Theorem closest_count_prefix (api : upstream) (max_distance : option R)
    (rdoc adoc : document) (n m : Z) :
  (1 <= n <= m)%Z -> (m <= 50)%Z ->
  api "receiver.json"%string = inr rdoc ->
  Py.truthy_opt (doc_lat rdoc) = true ->
  Py.truthy_opt (doc_lon rdoc) = true ->
  api "aircraft.json"%string = inr adoc ->
  exists small large log,
    run (_get_closest_aircraft api (ClosestArgs (Some (Py.VInt n)) max_distance))
    = (inr small, log) /\
    run (_get_closest_aircraft api (ClosestArgs (Some (Py.VInt m)) max_distance))
    = (inr large, log) /\
    closest_listing small = firstn (Z.to_nat n) (closest_listing large).
Proof.
  intros Hn Hm Hr Tlat Tlon Ha.
  assert (Cn : count_invalid (Py.get (Some (Py.VInt n)) (Py.VInt 5)) = false).
  { apply count_invalid_false_iff. exists n. split; [reflexivity | lia]. }
  assert (Cm : count_invalid (Py.get (Some (Py.VInt m)) (Py.VInt 5)) = false).
  { apply count_invalid_false_iff. exists m. split; [reflexivity | lia]. }
  destruct (closest_handler_ranked api (ClosestArgs (Some (Py.VInt n)) max_distance)
              Cn Hr Tlat Tlon Ha) as [small [Rs Ls]].
  destruct (closest_handler_ranked api (ClosestArgs (Some (Py.VInt m)) max_distance)
              Cm Hr Tlat Tlon Ha) as [large [Rl Ll]].
  exists small, large, ["receiver.json"; "aircraft.json"]%string.
  split; [exact Rs |]. split; [exact Rl |].
  rewrite Ls, Ll. cbn [ca_count ca_max_distance Py.get].
  rewrite !closest_aircraft_eq. unfold take. cbn [Py.as_int].
  rewrite firstn_firstn. f_equal. lia.
Qed.

Lemma closest_count_prefix_witness :
  exists small large log,
    run (_get_closest_aircraft
           (serve (receiver_at 1 1) (snapshot_of [plane "A1B2C3" "KLM12" 2 2 None]))
           (ClosestArgs (Some (Py.VInt 1)) None))
    = (inr small, log) /\
    run (_get_closest_aircraft
           (serve (receiver_at 1 1) (snapshot_of [plane "A1B2C3" "KLM12" 2 2 None]))
           (ClosestArgs (Some (Py.VInt 3)) None))
    = (inr large, log) /\
    closest_listing small = firstn 1 (closest_listing large).
Proof.
  apply (@closest_count_prefix
           (serve (receiver_at 1 1) (snapshot_of [plane "A1B2C3" "KLM12" 2 2 None]))
           None (receiver_at 1 1) (snapshot_of [plane "A1B2C3" "KLM12" 2 2 None])
           1%Z 3%Z); try lia; try reflexivity;
    cbn [receiver_at doc_lat doc_lon Py.truthy_opt]; apply truthy_true_iff; lra.
Defined.

(** Filtering and the stable sort. *)
Lemma filter_insert_by {A : Type} (key : A -> R) (p : A -> bool) (x : A) (l : list A) :
  StronglySorted (le_by key) l ->
  filter p (Py.insert_by key x l)
  = if p x then Py.insert_by key x (filter p l) else filter p l.
Proof.
  intros Hs. induction Hs as [| y r Hr IH Hy].
  - cbn. destruct (p x); reflexivity.
  - cbn [Py.insert_by]. destruct (Py.leb (key x) (key y)) eqn:E.
    + cbn [filter]. destruct (p x) eqn:Px; [| reflexivity].
      f_equal. destruct (p y) eqn:Py.
      * cbn [Py.insert_by]. rewrite E. reflexivity.
      * (* the head of the kept part is not smaller than [y] *)
        apply leb_true_iff in E.
        assert (Hf : Forall (fun z => le_by key y z) (filter p r)).
        { apply Forall_forall. intros z Hz. apply filter_In in Hz.
          rewrite Forall_forall in Hy. apply Hy. tauto. }
        destruct (filter p r) as [| z t]; [reflexivity |].
        cbn [Py.insert_by].
        assert (Ez : Py.leb (key x) (key z) = true).
        { apply leb_true_iff. inversion Hf as [| ? ? Hz _]; subst.
          unfold le_by in Hz. lra. }
        rewrite Ez. reflexivity.
    + cbn [filter]. rewrite IH.
      destruct (p x) eqn:Px; destruct (p y) eqn:Py; try reflexivity.
      cbn [Py.insert_by]. rewrite E. reflexivity.
Qed.

Lemma sort_by_filter {A : Type} (key : A -> R) (p : A -> bool) (l : list A) :
  Py.sort_by key (filter p l) = filter p (Py.sort_by key l).
Proof.
  induction l as [| x r IH]; [reflexivity |].
  cbn [filter Py.sort_by].
  rewrite (filter_insert_by p x (sort_by_sorted key r)).
  destruct (p x); [cbn [Py.sort_by]; rewrite IH; reflexivity | exact IH].
Qed.

Lemma closest_candidates_limit (flat flon m : R) (l : list aircraft_t) :
  closest_candidates flat flon (Some m) l
  = filter (fun e => Py.leb (fst e) m) (closest_candidates flat flon None l).
Proof.
  induction l as [| a r IH]; [reflexivity |].
  unfold closest_candidates in *. cbn [flat_map]. rewrite filter_app, <- IH.
  f_equal. destruct (position a) as [[alat alon] |]; [| reflexivity].
  cbn [within filter fst].
  destruct (Py.leb (_calculate_distance flat flon alat alon) m); reflexivity.
Qed.

Lemma firstn_filter_all {A : Type} (p : A -> bool) (n : nat) (l : list A) :
  Forall (fun x => p x = true) (firstn n l) ->
  firstn n (filter p l) = firstn n l.
Proof.
  revert n. induction l as [| x r IH]; intros [| n] H; try reflexivity.
  cbn [firstn] in H. inversion H as [| ? ? Px Hr]; subst.
  cbn [filter]. rewrite Px. cbn [firstn]. f_equal. apply IH. exact Hr.
Qed.

(** X11: a distance limit removes entries from the ranking and never
    reorders it: the ranking under [max_distance = m] is the ranking without
    a limit with the entries further than [m] taken out; so when the
    [count] closest aircraft are all within [m] the limit changes nothing. *)
Theorem closest_limit_filters_ranking (flat flon m : R) (count : Py.value) (n : Z)
    (l : list aircraft_t) :
  Py.as_int count = Some n ->
  closest_aircraft flat flon (Some m) count l
  = firstn (Z.to_nat n)
      (filter (fun e => Py.leb (fst e) m)
         (Py.sort_by fst (closest_candidates flat flon None l))) /\
  (Forall (fun e => (fst e <= m)%R) (closest_aircraft flat flon None count l) ->
   closest_aircraft flat flon (Some m) count l = closest_aircraft flat flon None count l).
Proof.
  intros Hn.
  assert (E : closest_aircraft flat flon (Some m) count l
              = firstn (Z.to_nat n)
                  (filter (fun e => Py.leb (fst e) m)
                     (Py.sort_by fst (closest_candidates flat flon None l)))).
  { rewrite closest_aircraft_eq, (take_firstn _ _ Hn), closest_candidates_limit,
      sort_by_filter. reflexivity. }
  split; [exact E |].
  intros Hall. rewrite E, (closest_aircraft_eq flat flon None), (take_firstn _ _ Hn).
  rewrite (closest_aircraft_eq flat flon None), (take_firstn _ _ Hn) in Hall.
  apply firstn_filter_all.
  eapply Forall_impl; [| exact Hall].
  intros e He. apply leb_true_iff. exact He.
Qed.

Lemma closest_limit_filters_ranking_witness :
  closest_aircraft 1 1 (Some 5000%R) (Py.VInt 5) [plane "A1B2C3" "KLM12" 2 2 None]
  = firstn 5
      (filter (fun e => Py.leb (fst e) 5000)
         (Py.sort_by fst
            (closest_candidates 1 1 None [plane "A1B2C3" "KLM12" 2 2 None]))).
Proof.
  apply (proj1 (@closest_limit_filters_ranking 1 1 5000 (Py.VInt 5) 5%Z
                  [plane "A1B2C3" "KLM12" 2 2 None] eq_refl)).
Defined.

Lemma sort_by_nil_iff {A : Type} (key : A -> R) (l : list A) :
  Py.sort_by key l = [] <-> l = [].
Proof.
  split; intros H.
  - pose proof (sort_by_perm key l) as P. rewrite H in P.
    apply Permutation_sym, Permutation_nil in P. exact P.
  - subst l. reflexivity.
Qed.

(** X12: on a valid count, a receiver with non-zero coordinates and a
    fetched snapshot, the handler lists aircraft exactly when the snapshot
    has a positioned aircraft within the limit.  When it has none the
    answer is a "No aircraft found" text: the one that names the limit
    when a limit other than 0 was given, the other one when there was no
    limit or the limit was 0.  A negative limit always gives the first. *)
Theorem closest_nothing_to_list (api : upstream) (args : closest_args)
    (rdoc adoc : document) (flat flon : R) :
  count_invalid (Py.get (ca_count args) (Py.VInt 5)) = false ->
  api "receiver.json"%string = inr rdoc ->
  doc_lat rdoc = Some flat -> doc_lon rdoc = Some flon ->
  flat <> 0%R -> flon <> 0%R ->
  api "aircraft.json"%string = inr adoc ->
  let snapshot := Py.get (doc_aircraft adoc) [] in
  let max_distance := ca_max_distance args in
  let log := ["receiver.json"; "aircraft.json"]%string in
  (closest_candidates flat flon max_distance snapshot = [] ->
   run (_get_closest_aircraft api args)
   = (inr (match max_distance with
           | Some m => if Py.truthy m then ClosestNoneWithin m else ClosestNoneNear
           | None => ClosestNoneNear
           end), log)) /\
  (closest_candidates flat flon max_distance snapshot <> [] ->
   exists e r,
     run (_get_closest_aircraft api args) = (inr (ClosestFound flat flon (e :: r)), log)) /\
  (forall m, max_distance = Some m -> (m < 0)%R ->
             run (_get_closest_aircraft api args) = (inr (ClosestNoneWithin m), log)).
Proof.
  intros Hc Hr Hlat Hlon Hflat Hflon Ha snapshot max_distance log.
  assert (Hrun : run (_get_closest_aircraft api args)
                 = (inr (match closest_aircraft flat flon max_distance
                                 (Py.get (ca_count args) (Py.VInt 5)) snapshot with
                         | [] => if Py.truthy_opt max_distance
                                 then ClosestNoneWithin (Py.get max_distance 0%R)
                                 else ClosestNoneNear
                         | _ => ClosestFound flat flon
                                  (closest_aircraft flat flon max_distance
                                     (Py.get (ca_count args) (Py.VInt 5)) snapshot)
                         end), log)).
  { unfold _get_closest_aircraft, run, try_except, bind, _fetch_json.
    rewrite Hc, Hr, Hlat, Hlon. cbn [Py.truthy_opt Py.get].
    rewrite (proj2 (truthy_true_iff flat) Hflat), (proj2 (truthy_true_iff flon) Hflon).
    cbn [negb orb app]. rewrite Ha. cbn [app]. fold snapshot max_distance.
    destruct (closest_aircraft flat flon max_distance _ snapshot);
      [destruct (Py.truthy_opt max_distance) |]; reflexivity. }
  apply count_invalid_false_iff in Hc. destruct Hc as [n [Hn Hrange]].
  assert (Hempty : closest_candidates flat flon max_distance snapshot = [] ->
                   run (_get_closest_aircraft api args)
                   = (inr (match max_distance with
                           | Some m => if Py.truthy m then ClosestNoneWithin m
                                       else ClosestNoneNear
                           | None => ClosestNoneNear
                           end), log)).
  { intros E. rewrite Hrun, closest_aircraft_eq, E. unfold take. rewrite Hn.
    cbn [Py.sort_by]. rewrite firstn_nil.
    destruct max_distance as [m |]; [| reflexivity].
    cbn [Py.truthy_opt Py.get]. destruct (Py.truthy m); reflexivity. }
  split; [exact Hempty |]. split.
  - intros NE. rewrite Hrun, closest_aircraft_eq, (take_firstn _ _ Hn).
    destruct (Py.sort_by fst (closest_candidates flat flon max_distance snapshot))
      as [| e r] eqn:Es.
    + apply sort_by_nil_iff in Es. contradiction.
    + destruct (Z.to_nat n) as [| k] eqn:En; [lia |].
      cbn [firstn]. exists e, (firstn k r). reflexivity.
  - intros m Hm Hneg.
    assert (E : closest_candidates flat flon max_distance snapshot = []).
    { destruct (closest_candidates flat flon max_distance snapshot) as [| [d a] t] eqn:Ec;
        [reflexivity |].
      exfalso.
      assert (Hin : In (d, a) (closest_candidates flat flon max_distance snapshot))
        by (rewrite Ec; left; reflexivity).
      apply closest_candidates_In in Hin.
      destruct Hin as [_ [alat [alon [_ [_ [Ed Ew]]]]]].
      rewrite Hm in Ew. cbn [within] in Ew. apply leb_true_iff in Ew.
      pose proof (distance_nonneg flat flon alat alon). lra. }
    rewrite (Hempty E), Hm.
    rewrite (proj2 (truthy_true_iff m)) by lra. reflexivity.
Qed.

Lemma closest_nothing_to_list_witness :
  run (_get_closest_aircraft
         (serve (receiver_at 1 1) (snapshot_of [plane "A1B2C3" "KLM12" 2 2 None]))
         (ClosestArgs None (Some (-1)%R)))
  = (inr (ClosestNoneWithin (-1)), ["receiver.json"; "aircraft.json"]%string).
Proof.
  apply (proj2 (proj2 (@closest_nothing_to_list
           (serve (receiver_at 1 1) (snapshot_of [plane "A1B2C3" "KLM12" 2 2 None]))
           (ClosestArgs None (Some (-1)%R))
           (receiver_at 1 1) (snapshot_of [plane "A1B2C3" "KLM12" 2 2 None])
           1%R 1%R eq_refl eq_refl eq_refl eq_refl
           ltac:(lra) ltac:(lra) eq_refl))) with (m := (-1)%R).
  - reflexivity.
  - lra.
Defined.

(** ** Failures *)

(** An answer was produced and the fetches made are the beginning of the
    given sequence. *)
Ltac answered :=
  do 2 eexists; split; [reflexivity | unfold prefix_of; eexists; cbn [app]; reflexivity].

(** X13: no handler lets an exception out: every call comes back with an
    answer.  The fetches follow one fixed order and none is repeated: the
    closest and by-direction handlers fetch [receiver.json] and then
    [aircraft.json], the search fetches [aircraft.json] at most once, the
    aircraft list, the receiver statistics and the range statistics always
    start with their fetch. *)
Theorem handlers_answer_and_fetch_in_order (api : upstream)
    (stats_api : exn + stats_document) :
  (forall args, exists resp log,
      run (_get_closest_aircraft api args) = (inr resp, log) /\
      prefix_of log ["receiver.json"; "aircraft.json"]%string) /\
  (forall args, exists resp log,
      run (_get_aircraft_by_direction api args) = (inr resp, log) /\
      prefix_of log ["receiver.json"; "aircraft.json"]%string) /\
  (forall args, exists resp log,
      run (_search_aircraft api args) = (inr resp, log) /\
      prefix_of log ["aircraft.json"%string]) /\
  (forall args, exists resp,
      run (_get_aircraft_data api args) = (inr resp, ["aircraft.json"%string])) /\
  (forall format, exists resp,
      run (_get_receiver_stats stats_api format) = (inr resp, ["stats.json"%string])) /\
  (exists resp log,
      run (_get_range_statistics api stats_api) = (inr resp, "receiver.json"%string :: log) /\
      prefix_of log ["stats.json"%string]).
Proof.
  split; [| split; [| split; [| split; [| split]]]].
  - intros args.
    unfold _get_closest_aircraft, run, try_except, bind, _fetch_json.
    destruct (count_invalid _); [answered |].
    destruct (api "receiver.json"%string) as [e | rdoc]; [answered |].
    destruct (negb (Py.truthy_opt (doc_lat rdoc)) || negb (Py.truthy_opt (doc_lon rdoc)));
      [answered |].
    destruct (api "aircraft.json"%string) as [e | adoc]; [answered |].
    cbn [app]. destruct (closest_aircraft _ _ _ _ _); [| answered].
    destruct (Py.truthy_opt (ca_max_distance args)); answered.
  - intros args.
    unfold _get_aircraft_by_direction, run, try_except, bind, subscript, _fetch_json.
    destruct (da_direction args) as [raw |]; [| answered]. cbn [ret].
    destruct (negb (Py.in_list (Py.lower raw) valid_directions)); [answered |].
    destruct (count_invalid _); [answered |].
    destruct (api "receiver.json"%string) as [e | rdoc]; [answered |].
    destruct (negb (Py.truthy_opt (doc_lat rdoc)) || negb (Py.truthy_opt (doc_lon rdoc)));
      [answered |].
    destruct (api "aircraft.json"%string) as [e | adoc]; [answered |].
    cbn [app]. destruct (directional_aircraft _ _ _ _ _ _); [| answered].
    destruct (Py.truthy_opt (da_max_distance args)); answered.
  - intros args.
    unfold _search_aircraft, run, try_except, bind, subscript, _fetch_json.
    destruct (sa_query args) as [raw |]; [| answered]. cbn [ret].
    destruct (String.eqb (Py.strip (Py.upper raw)) ""); [answered |].
    destruct (negb (Py.in_list _ valid_search_types)); [answered |].
    destruct (api "aircraft.json"%string) as [e | adoc]; [answered |].
    cbn [app]. destruct (search_matches _ _ _); answered.
  - intros args.
    destruct (api "aircraft.json"%string) as [e | adoc] eqn:Ha.
    + exists (DataError e).
      unfold _get_aircraft_data, run, try_except, bind, _fetch_json.
      rewrite Ha. reflexivity.
    + destruct (data_handler_filtered api args Ha) as [resp [Hrun _]].
      exists resp. exact Hrun.
  - intros format.
    unfold _get_receiver_stats, run, try_except, bind, _fetch_stats.
    destruct stats_api as [e | sdoc]; [eexists; reflexivity |].
    cbn [app].
    destruct (String.eqb (Py.get format "summary"%string) "summary"%string);
      eexists; reflexivity.
  - unfold _get_range_statistics, run, try_except, bind, _fetch_json, _fetch_stats.
    destruct (api "receiver.json"%string) as [e | rdoc]; [answered |].
    destruct stats_api as [e | sdoc]; answered.
Qed.

(** X14: when the upstream fails, the closest and the by-direction handler
    answer with their error text carrying the exception, list nothing, and
    stop: after a failed [receiver.json] the aircraft are not fetched. *)
Theorem location_handlers_report_upstream_failure (api : upstream) (e : exn) :
  (api "receiver.json"%string = inl e ->
   (forall args,
       count_invalid (Py.get (ca_count args) (Py.VInt 5)) = false ->
       run (_get_closest_aircraft api args)
       = (inr (ClosestError e), ["receiver.json"%string])) /\
   (forall args raw,
       da_direction args = Some raw -> In (Py.lower raw) valid_directions ->
       count_invalid (Py.get (da_count args) (Py.VInt 10)) = false ->
       run (_get_aircraft_by_direction api args)
       = (inr (DirError e), ["receiver.json"%string]))) /\
  (forall rdoc,
      api "receiver.json"%string = inr rdoc ->
      Py.truthy_opt (doc_lat rdoc) = true -> Py.truthy_opt (doc_lon rdoc) = true ->
      api "aircraft.json"%string = inl e ->
      (forall args,
          count_invalid (Py.get (ca_count args) (Py.VInt 5)) = false ->
          run (_get_closest_aircraft api args)
          = (inr (ClosestError e), ["receiver.json"; "aircraft.json"]%string)) /\
      (forall args raw,
          da_direction args = Some raw -> In (Py.lower raw) valid_directions ->
          count_invalid (Py.get (da_count args) (Py.VInt 10)) = false ->
          run (_get_aircraft_by_direction api args)
          = (inr (DirError e), ["receiver.json"; "aircraft.json"]%string))).
Proof.
  split.
  - intros Hr. split.
    + intros args Hc.
      unfold _get_closest_aircraft, run, try_except, bind, _fetch_json.
      rewrite Hc, Hr. reflexivity.
    + intros args raw Hraw Hin Hc. apply in_list_iff in Hin.
      unfold _get_aircraft_by_direction, run, try_except, bind, subscript, _fetch_json.
      rewrite Hraw. cbn [ret]. rewrite Hin. cbn [negb]. rewrite Hc, Hr. reflexivity.
  - intros rdoc Hr Tlat Tlon Ha. split.
    + intros args Hc.
      unfold _get_closest_aircraft, run, try_except, bind, _fetch_json.
      rewrite Hc, Hr, Tlat, Tlon. cbn [negb orb app]. rewrite Ha. reflexivity.
    + intros args raw Hraw Hin Hc. apply in_list_iff in Hin.
      unfold _get_aircraft_by_direction, run, try_except, bind, subscript, _fetch_json.
      rewrite Hraw. cbn [ret]. rewrite Hin. cbn [negb].
      rewrite Hc, Hr, Tlat, Tlon. cbn [negb orb app]. rewrite Ha. reflexivity.
Qed.

Lemma location_handlers_report_upstream_failure_witness :
  run (_get_closest_aircraft
         (fun _ => inl (FetchError "receiver.json" "timed out"))
         (ClosestArgs None None))
  = (inr (ClosestError (FetchError "receiver.json" "timed out")),
     ["receiver.json"%string]).
Proof.
  apply (proj1 (proj1 (@location_handlers_report_upstream_failure
                         (fun _ => inl (FetchError "receiver.json" "timed out"))
                         (FetchError "receiver.json" "timed out"))
                      eq_refl)).
  reflexivity.
Defined.

(** X15: when [aircraft.json] cannot be fetched, the search (on a query that
    is not blank and a known search type) and the aircraft list (whatever
    its filters and format) answer with their error text carrying the
    exception; the text of the search starts with "Error searching
    aircraft: ". *)
Theorem aircraft_handlers_report_upstream_failure (api : upstream) (e : exn) :
  api "aircraft.json"%string = inl e ->
  (forall args raw,
      sa_query args = Some raw -> blank raw = false ->
      In (Py.get (sa_search_type args) "any"%string) valid_search_types ->
      run (_search_aircraft api args) = (inr (SearchError e), ["aircraft.json"%string]) /\
      forall web_base str_num,
        search_text web_base str_num (SearchError e)
        = ("Error searching aircraft: " ++ str_exn e)%string) /\
  (forall args,
      run (_get_aircraft_data api args) = (inr (DataError e), ["aircraft.json"%string]) /\
      data_listing (DataError e) = []).
Proof.
  intros Ha. split.
  - intros args raw Hraw Hblank Htype. split; [| reflexivity].
    apply in_list_iff in Htype.
    assert (Hq : String.eqb (Py.strip (Py.upper raw)) "" = false).
    { apply String.eqb_neq. rewrite strip_upper, upper_empty_iff, strip_empty_iff, Hblank.
      discriminate. }
    unfold _search_aircraft, run, try_except, bind, subscript, _fetch_json.
    rewrite Hraw. cbn [ret]. rewrite Hq, Htype. cbn [negb]. rewrite Ha. reflexivity.
  - intros args. split; [| reflexivity].
    unfold _get_aircraft_data, run, try_except, bind, _fetch_json.
    rewrite Ha. reflexivity.
Qed.

Lemma aircraft_handlers_report_upstream_failure_witness :
  run (_get_aircraft_data
         (fun _ => inl (FetchError "aircraft.json" "503 Service Unavailable"))
         (DataArgs (Some "summary"%string) (Some (Py.VInt 10)) None))
  = (inr (DataError (FetchError "aircraft.json" "503 Service Unavailable")),
     ["aircraft.json"%string]).
Proof.
  apply (proj1 (proj2 (@aircraft_handlers_report_upstream_failure
                         (fun _ => inl (FetchError "aircraft.json" "503 Service Unavailable"))
                         (FetchError "aircraft.json" "503 Service Unavailable")
                         eq_refl)
                      (DataArgs (Some "summary"%string) (Some (Py.VInt 10)) None))).
Defined.

(** X16: the parameters are checked before anything is fetched and in a
    fixed order.  Without ["direction"] the by-direction handler answers
    with the [KeyError]; without ["query"] so does the search, as "Error
    searching aircraft: 'query'"; a query that is not blank with a search
    type outside the four known ones is answered with the text that names
    the type and lists the four; a blank query is reported first. *)
Theorem parameters_checked_before_fetch (api : upstream) :
  (forall max_distance count,
      run (_get_aircraft_by_direction api (DirectionArgs None max_distance count))
      = (inr (DirError (KeyError "direction")), [])) /\
  (forall search_type,
      run (_search_aircraft api (SearchArgs None search_type))
      = (inr (SearchError (KeyError "query")), []) /\
      forall web_base str_num,
        search_text web_base str_num (SearchError (KeyError "query"))
        = "Error searching aircraft: 'query'"%string) /\
  (forall raw search_type,
      ~ In search_type valid_search_types ->
      (blank raw = false ->
       run (_search_aircraft api (SearchArgs (Some raw) (Some search_type)))
       = (inr (SearchInvalidType search_type), []) /\
       forall web_base str_num,
         search_text web_base str_num (SearchInvalidType search_type)
         = ("Invalid search_type '" ++ search_type
            ++ "'. Valid types are: callsign, hex, flight, any")%string) /\
      (blank raw = true ->
       run (_search_aircraft api (SearchArgs (Some raw) (Some search_type)))
       = (inr SearchEmptyQuery, []))).
Proof.
  split; [reflexivity |].
  split; [intros; split; reflexivity |].
  intros raw search_type Htype. apply in_list_false_iff in Htype. split.
  - intros Hblank. split; [| reflexivity].
    assert (Hq : String.eqb (Py.strip (Py.upper raw)) "" = false).
    { apply String.eqb_neq. rewrite strip_upper, upper_empty_iff, strip_empty_iff, Hblank.
      discriminate. }
    unfold _search_aircraft, run, try_except, bind, subscript.
    cbn [sa_query sa_search_type ret Py.get]. rewrite Hq, Htype. reflexivity.
  - intros Hblank.
    assert (Hq : Py.strip (Py.upper raw) = EmptyString).
    { rewrite strip_upper. apply upper_empty_iff, strip_empty_iff, Hblank. }
    unfold _search_aircraft, run, try_except, bind, subscript.
    cbn [sa_query sa_search_type ret Py.get]. rewrite Hq. reflexivity.
Qed.

Lemma parameters_checked_before_fetch_witness :
  run (_search_aircraft
         (serve (receiver_at 1 1) (snapshot_of []))
         (SearchArgs (Some "klm"%string) (Some "registration"%string)))
  = (inr (SearchInvalidType "registration"), []).
Proof.
  apply (proj1 (proj1 (proj2 (proj2 (parameters_checked_before_fetch
                                       (serve (receiver_at 1 1) (snapshot_of []))))
                             "klm"%string "registration"%string
                             ltac:(simpl; intuition discriminate))
                      eq_refl)).
Defined.

(** ** More on the search *)

Lemma upper_lower_char (c : ascii) : Py.upper_char (Py.lower_char c) = Py.upper_char c.
Proof. destruct c as [[] [] [] [] [] [] [] []]; reflexivity. Qed.

Lemma upper_lower (s : string) : Py.upper (Py.lower s) = Py.upper s.
Proof.
  induction s as [| c r IH]; simpl; [reflexivity |].
  rewrite upper_lower_char, IH. reflexivity.
Qed.

Lemma rstrip_blank (s : string) : blank s = true -> Py.rstrip s = EmptyString.
Proof. apply rstrip_empty_iff. Qed.

Lemma rstrip_app_blank (s pad : string) :
  blank pad = true -> Py.rstrip (s ++ pad) = Py.rstrip s.
Proof.
  intros Hpad. induction s as [| c r IH]; cbn [append Py.rstrip].
  - apply rstrip_blank. exact Hpad.
  - rewrite IH. reflexivity.
Qed.

Lemma lstrip_app_blank (pad s : string) :
  blank pad = true -> Py.lstrip (pad ++ s) = Py.lstrip s.
Proof.
  induction pad as [| c r IH]; cbn [append Py.lstrip blank]; intros H.
  - reflexivity.
  - apply andb_true_iff in H. destruct H as [Hc Hr]. rewrite Hc. apply IH. exact Hr.
Qed.

Lemma lstrip_app_right (s pad : string) :
  blank s = false -> Py.lstrip (s ++ pad) = (Py.lstrip s ++ pad)%string.
Proof.
  induction s as [| c r IH]; cbn [append Py.lstrip blank]; intros H.
  - discriminate.
  - destruct (Py.is_space c); [apply IH; exact H | reflexivity].
Qed.

(** Blanks around a text do not change what [strip] leaves. *)
Lemma strip_padded (left right s : string) :
  blank left = true -> blank right = true ->
  Py.strip (left ++ s ++ right) = Py.strip s.
Proof.
  intros Hl Hr. unfold Py.strip. rewrite (@lstrip_app_blank left (s ++ right) Hl).
  destruct (blank s) eqn:Hs.
  - assert (Hb : blank (s ++ right) = true).
    { clear Hl. induction s as [| c r IH]; cbn [append blank] in *; [exact Hr |].
      apply andb_true_iff in Hs. destruct Hs as [Hc Hs]. rewrite Hc. apply IH. exact Hs. }
    rewrite (@rstrip_blank (Py.lstrip (s ++ right)) (eq_trans (lstrip_blank _) Hb)).
    rewrite (@rstrip_blank (Py.lstrip s) (eq_trans (lstrip_blank _) Hs)). reflexivity.
  - rewrite (@lstrip_app_right s right Hs). apply rstrip_app_blank. exact Hr.
Qed.

(** The answer of the search depends on the query only through its
    upper-case, trimmed form. *)
Lemma search_handler_normal (api : upstream) (raw1 raw2 : string)
    (search_type : option string) :
  Py.strip (Py.upper raw1) = Py.strip (Py.upper raw2) ->
  run (_search_aircraft api (SearchArgs (Some raw1) search_type))
  = run (_search_aircraft api (SearchArgs (Some raw2) search_type)).
Proof.
  intros H. unfold _search_aircraft, run, try_except, bind, subscript.
  cbn [sa_query sa_search_type ret]. rewrite H. reflexivity.
Qed.

Lemma upper_app (s t : string) : Py.upper (s ++ t) = (Py.upper s ++ Py.upper t)%string.
Proof. induction s as [| c r IH]; simpl; [reflexivity | rewrite IH; reflexivity]. Qed.

Lemma blank_upper (s : string) : blank (Py.upper s) = blank s.
Proof.
  induction s as [| c r IH]; simpl; [reflexivity |].
  rewrite is_space_upper_char, IH. reflexivity.
Qed.

(** X17: the search does not look at the letter case of the query nor at
    blanks around it: the query in lower case, in upper case, or with
    blanks before and after gets the same answer as the query itself; nor
    does it look at the letter case of the callsign and of the identifier
    of an aircraft. *)
Theorem search_ignores_case_and_padding (api : upstream) (raw : string)
    (search_type : option string) :
  run (_search_aircraft api (SearchArgs (Some (Py.lower raw)) search_type))
  = run (_search_aircraft api (SearchArgs (Some raw) search_type)) /\
  run (_search_aircraft api (SearchArgs (Some (Py.upper raw)) search_type))
  = run (_search_aircraft api (SearchArgs (Some raw) search_type)) /\
  (forall left right,
      blank left = true -> blank right = true ->
      run (_search_aircraft api (SearchArgs (Some (left ++ raw ++ right)%string) search_type))
      = run (_search_aircraft api (SearchArgs (Some raw) search_type))) /\
  (forall q a a',
      Py.upper (Py.get (flight a') ""%string) = Py.upper (Py.get (flight a) ""%string) ->
      Py.upper (Py.get (hex a') ""%string) = Py.upper (Py.get (hex a) ""%string) ->
      flight_test q a' = flight_test q a /\ hex_test q a' = hex_test q a).
Proof.
  split; [apply search_handler_normal; rewrite upper_lower; reflexivity |].
  split; [apply search_handler_normal; rewrite upper_idem; reflexivity |].
  split.
  - intros left right Hl Hr. apply search_handler_normal.
    rewrite !upper_app. apply strip_padded; rewrite blank_upper; assumption.
  - intros q a a' Hf Hh. unfold flight_test, hex_test.
    rewrite <- !strip_upper, Hf, Hh. split; reflexivity.
Qed.

Lemma search_ignores_case_and_padding_witness :
  run (_search_aircraft
         (serve (receiver_at 1 1) (snapshot_of [plane "A1B2C3" "KLM12" 2 2 None]))
         (SearchArgs (Some ("  " ++ "klm" ++ " ")%string) None))
  = run (_search_aircraft
           (serve (receiver_at 1 1) (snapshot_of [plane "A1B2C3" "KLM12" 2 2 None]))
           (SearchArgs (Some "klm"%string) None)).
Proof.
  apply (proj1 (proj2 (proj2 (search_ignores_case_and_padding
           (serve (receiver_at 1 1) (snapshot_of [plane "A1B2C3" "KLM12" 2 2 None]))
           "klm"%string None)))); reflexivity.
Defined.

Lemma filter_subsequence_implied {A : Type} (p q : A -> bool) (l : list A) :
  (forall x, p x = true -> q x = true) ->
  Subsequence (filter p l) (filter q l).
Proof.
  intros H. induction l as [| x r IH]; [constructor |].
  cbn [filter]. destruct (p x) eqn:Px.
  - rewrite (H x Px). apply Subsequence_keep. exact IH.
  - destruct (q x); [apply Subsequence_skip |]; exact IH.
Qed.

(** X18: the search of type "any" lists the matches of the callsign search
    and the matches of the identifier search, merged in snapshot order: it
    lists an aircraft exactly when one of the two does, and each of the two
    listings is the "any" listing with some entries left out. *)
Theorem search_any_is_union (q : string) (l : list aircraft_t) :
  Subsequence (search_matches "callsign" q l) (search_matches "any" q l) /\
  Subsequence (search_matches "hex" q l) (search_matches "any" q l) /\
  (forall a, In a (search_matches "any" q l) <->
             In a (search_matches "callsign" q l) \/ In a (search_matches "hex" q l)).
Proof.
  rewrite !search_matches_filter.
  split; [| split].
  - apply filter_subsequence_implied. intros a H.
    cbn in *. rewrite H. reflexivity.
  - apply filter_subsequence_implied. intros a H.
    cbn in *. rewrite H. apply orb_true_r.
  - intros a. rewrite !filter_In. cbn. rewrite orb_true_iff. tauto.
Qed.

Lemma lstrip_suffix (s : string) : exists pre, s = (pre ++ Py.lstrip s)%string.
Proof.
  induction s as [| c r [pre IH]]; cbn [Py.lstrip].
  - exists EmptyString. reflexivity.
  - destruct (Py.is_space c).
    + exists (String c pre). cbn [append]. rewrite <- IH. reflexivity.
    + exists EmptyString. reflexivity.
Qed.

Lemma rstrip_prefix (s : string) : exists post, s = (Py.rstrip s ++ post)%string.
Proof.
  induction s as [| c r [post IH]]; cbn [Py.rstrip].
  - exists EmptyString. reflexivity.
  - destruct (Py.rstrip r) as [| c' r'] eqn:E.
    + destruct (Py.is_space c).
      * exists (String c r). reflexivity.
      * exists r. reflexivity.
    + exists post. cbn [append] in *. f_equal. exact IH.
Qed.

(** What [strip] leaves is a block of the text. *)
Lemma strip_substring (s : string) : substring (Py.strip s) s.
Proof.
  destruct (lstrip_suffix s) as [pre Hpre].
  destruct (rstrip_prefix (Py.lstrip s)) as [post Hpost].
  exists pre, post. unfold Py.strip. rewrite <- Hpost. exact Hpre.
Qed.

Lemma substring_refl (s : string) : substring s s.
Proof.
  exists EmptyString, EmptyString. cbn [append].
  induction s as [| c r IH]; cbn [append]; [reflexivity | rewrite <- IH; reflexivity].
Qed.

(** X19: an aircraft of the snapshot is found by its own identifier and by
    its own callsign, typed in any letter case: the search of type "hex"
    or "any" for the identifier and the search of type "callsign",
    "flight" or "any" for the callsign list it. *)
Theorem search_finds_own_identifier (api : upstream) (adoc : document)
    (a : aircraft_t) (text search_type : string) :
  api "aircraft.json"%string = inr adoc ->
  In a (Py.get (doc_aircraft adoc) []) ->
  blank text = false ->
  (hex a = Some text /\ In search_type ["hex"; "any"]%string) \/
  (flight a = Some text /\ In search_type ["callsign"; "flight"; "any"]%string) ->
  exists matches,
    run (_search_aircraft api (SearchArgs (Some text) (Some search_type)))
    = (inr (SearchFound (Py.strip (Py.upper text)) matches), ["aircraft.json"%string]) /\
    In a matches.
Proof.
  intros Ha Hin Hblank Hcase.
  assert (Htype : In search_type valid_search_types).
  { unfold valid_search_types. simpl in *. intuition. }
  assert (Hpred : search_pred search_type (Py.strip (Py.upper text)) a = true).
  { destruct Hcase as [[Hhex Hst] | [Hfl Hst]].
    - assert (Ht : hex_test (Py.strip (Py.upper text)) a = true).
      { unfold hex_test. rewrite Hhex. cbn [Py.get].
        apply str_in_iff, strip_substring. }
      simpl in Hst. destruct Hst as [<- | [<- | []]]; cbn; rewrite Ht;
        [reflexivity | apply orb_true_r].
    - assert (Ht : flight_test (Py.strip (Py.upper text)) a = true).
      { unfold flight_test. rewrite Hfl. cbn [Py.get]. rewrite <- strip_upper.
        apply str_in_iff, substring_refl. }
      simpl in Hst. destruct Hst as [<- | [<- | [<- | []]]]; cbn; rewrite Ht; reflexivity. }
  pose proof (@search_handler_matches api (SearchArgs (Some text) (Some search_type))
                text adoc eq_refl Hblank Htype Ha) as Hrun.
  cbv zeta in Hrun. cbn [sa_search_type] in Hrun.
  change (Py.get (Some search_type) "any"%string) with search_type in Hrun.
  set (l := Py.get (doc_aircraft adoc) []) in *.
  assert (Hm : In a (search_matches search_type (Py.strip (Py.upper text)) l)).
  { rewrite search_matches_filter. apply filter_In. split; [exact Hin | exact Hpred]. }
  destruct (search_matches search_type (Py.strip (Py.upper text)) l)
    as [| x r] eqn:E; [destruct Hm |].
  exists (x :: r). split; [exact Hrun | exact Hm].
Qed.

Lemma search_finds_own_identifier_witness :
  exists matches,
    run (_search_aircraft
           (serve (receiver_at 1 1) (snapshot_of [plane "a1b2c3" "KLM12  " 2 2 None]))
           (SearchArgs (Some "a1b2c3"%string) (Some "hex"%string)))
    = (inr (SearchFound (Py.strip (Py.upper "a1b2c3")) matches), ["aircraft.json"%string]) /\
    In (plane "a1b2c3" "KLM12  " 2 2 None) matches.
Proof.
  apply (@search_finds_own_identifier
           (serve (receiver_at 1 1) (snapshot_of [plane "a1b2c3" "KLM12  " 2 2 None]))
           (snapshot_of [plane "a1b2c3" "KLM12  " 2 2 None])
           (plane "a1b2c3" "KLM12  " 2 2 None) "a1b2c3"%string "hex"%string).
  - reflexivity.
  - left. reflexivity.
  - reflexivity.
  - left. split; [reflexivity | left; reflexivity].
Defined.

(** ** More on the filtered list *)

Lemma filter_idem {A : Type} (p : A -> bool) (l : list A) :
  filter p (filter p l) = filter p l.
Proof.
  induction l as [| x r IH]; [reflexivity |].
  cbn [filter]. destruct (p x) eqn:Px; [| exact IH].
  cbn [filter]. rewrite Px, IH. reflexivity.
Qed.

Lemma numeric_filters_filter (args : data_args) (p : aircraft_t -> bool)
    (l : list aircraft_t) :
  numeric_filters args l -> numeric_filters args (filter p l).
Proof.
  intros [Hm [Hr Hl]]. split; [exact Hm |]. split; [exact Hr |].
  apply Forall_forall. intros a Ha. apply filter_In in Ha.
  rewrite Forall_forall in Hl. apply Hl. tauto.
Qed.

Lemma keeps_iff (args : data_args) (a : aircraft_t) :
  keeps args a = true <->
  (forall max_dist, filter_distance args = Some max_dist ->
                    (num (Py.get (r_dst a) (Py.VInt 0)) <= num max_dist)%R) /\
  (forall range, filter_altitude args = Some range ->
                 (num (Py.get (af_min range) (Py.VInt 0))
                  <= num (Py.get (alt_baro a) (Py.VInt 0))
                  <= num (Py.get (af_max range) (Py.VInt 50000)))%R).
Proof.
  unfold keeps. rewrite andb_true_iff.
  destruct (filter_distance args) as [m |]; destruct (filter_altitude args) as [f |];
    rewrite ?andb_true_iff, ?leb_true_iff; split.
  - intros [Hd Halt]. split; intros ? E; injection E as <-; assumption.
  - intros [Hd Halt]. split; [apply Hd | apply Halt]; reflexivity.
  - intros [Hd _]. split; intros ? E; [injection E as <-; exact Hd | discriminate].
  - intros [Hd _]. split; [apply Hd |]; reflexivity.
  - intros [_ Halt]. split; intros ? E; [discriminate | injection E as <-; exact Halt].
  - intros [_ Halt]. split; [| apply Halt]; reflexivity.
  - intros _. split; intros ? E; discriminate.
  - intros _. split; reflexivity.
Qed.

(** X20: what the aircraft list handler answers when the fetch succeeds.
    Without filter it lists the whole snapshot.  When the filters compare
    numbers only (the bounds given and the ["r_dst"] and ["alt_baro"] of
    the aircraft are numbers or absent) it lists exactly the aircraft that
    pass every filter given, [r_dst], 0 when absent, at most
    [filter_distance], and [alt_baro], 0 when absent, between the bounds of
    [filter_altitude] (0 and 50000 when left out), in snapshot order; the
    format does not change which aircraft are listed and filtering the
    answer again changes nothing.  When a comparison meets a text the
    answer is the error text and nothing is listed: so it is with an
    altitude filter and an aircraft whose ["alt_baro"] is a text, as
    readsb's ["ground"], and with a [filter_distance] given as a text.
    An empty snapshot is compared with nothing and gives no error. *)
Theorem data_filters_compose (api : upstream) (args : data_args) (adoc : document) :
  api "aircraft.json"%string = inr adoc ->
  let snapshot := Py.get (doc_aircraft adoc) [] in
  let log := ["aircraft.json"%string] in
  (filter_distance args = None -> filter_altitude args = None ->
   exists resp,
     run (_get_aircraft_data api args) = (inr resp, log) /\
     data_listing resp = snapshot /\ forall e, resp <> DataError e) /\
  (numeric_filters args snapshot ->
   exists resp,
     run (_get_aircraft_data api args) = (inr resp, log) /\
     (forall e, resp <> DataError e) /\
     (forall a,
         In a (data_listing resp) <->
         In a snapshot /\
         (forall max_dist, filter_distance args = Some max_dist ->
                           (num (Py.get (r_dst a) (Py.VInt 0)) <= num max_dist)%R) /\
         (forall range, filter_altitude args = Some range ->
                        (num (Py.get (af_min range) (Py.VInt 0))
                         <= num (Py.get (alt_baro a) (Py.VInt 0))
                         <= num (Py.get (af_max range) (Py.VInt 50000)))%R)) /\
     Subsequence (data_listing resp) snapshot /\
     apply_filters args (data_listing resp) = inr (data_listing resp) /\
     (forall other_format,
         exists resp',
           run (_get_aircraft_data api
                  (DataArgs other_format (filter_distance args) (filter_altitude args)))
           = (inr resp', log) /\
           data_listing resp' = data_listing resp)) /\
  (forall range a text,
      filter_distance args = None -> filter_altitude args = Some range ->
      number_or_absent (af_min range) = true ->
      In a snapshot -> alt_baro a = Some (Py.VStr text) ->
      exists e,
        run (_get_aircraft_data api args) = (inr (DataError e), log) /\
        data_listing (DataError e) = []) /\
  (forall text a rest,
      filter_distance args = Some (Py.VStr text) ->
      snapshot = a :: rest -> number_or_absent (r_dst a) = true ->
      run (_get_aircraft_data api args)
      = (inr (DataError
                (TypeError ("'<=' not supported between instances of '"
                            ++ Py.type_name (Py.get (r_dst a) (Py.VInt 0))
                            ++ "' and 'str'"))), log)) /\
  (snapshot = [] ->
   exists resp,
     run (_get_aircraft_data api args) = (inr resp, log) /\
     data_listing resp = [] /\ forall e, resp <> DataError e).
Proof.
  intros Ha snapshot log.
  destruct (data_handler_filtered api args Ha) as [resp [Hrun [Hok Herr]]].
  fold snapshot in Hok, Herr.
  assert (Hsuccess : forall kept, apply_filters args snapshot = inr kept ->
                                  forall e, resp <> DataError e).
  { intros kept E e Hresp. subst resp.
    unfold _get_aircraft_data, run, try_except, bind, lift, _fetch_json in Hrun.
    rewrite Ha in Hrun. cbn [app] in Hrun. fold snapshot in Hrun. rewrite E in Hrun.
    destruct (String.eqb (Py.get (format args) "json"%string) "summary"%string);
      cbn in Hrun; discriminate. }
  split; [| split; [| split; [| split]]].
  - intros Hd Halt.
    assert (E : apply_filters args snapshot = inr snapshot)
      by (unfold apply_filters; rewrite Hd, Halt; reflexivity).
    exists resp. split; [exact Hrun |]. split; [apply Hok; exact E |].
    apply (Hsuccess _ E).
  - intros Hnum. pose proof (apply_filters_numeric Hnum) as E.
    exists resp. split; [exact Hrun |]. split; [apply (Hsuccess _ E) |].
    rewrite (Hok _ E). split; [| split; [| split]].
    + intros a. rewrite filter_In, keeps_iff. reflexivity.
    + apply filter_subsequence.
    + rewrite (apply_filters_numeric (numeric_filters_filter (keeps args) Hnum)).
      rewrite filter_idem. reflexivity.
    + intros other_format.
      destruct (data_handler_filtered api
                  (DataArgs other_format (filter_distance args) (filter_altitude args)) Ha)
        as [resp' [Hrun' [Hok' _]]].
      exists resp'. split; [exact Hrun' |]. apply Hok'. exact E.
  - intros range a text Hd Halt Hmin Hin Htext.
    assert (E : exists e, apply_filters args snapshot = inl e).
    { unfold apply_filters. rewrite Hd, Halt.
      apply (filter_raising_error _ _ a Hin).
      unfold altitude_ok. rewrite Htext. cbn [Py.get].
      rewrite (value_le_number_text _ text (number_or_default _ 0 Hmin)).
      eexists. reflexivity. }
    destruct E as [e E]. exists e. split; [| reflexivity].
    rewrite <- (Herr e E). exact Hrun.
  - intros text a rest Hd Hsnap Hdst.
    assert (E : apply_filters args snapshot
                = inl (TypeError ("'<=' not supported between instances of '"
                                  ++ Py.type_name (Py.get (r_dst a) (Py.VInt 0))
                                  ++ "' and 'str'"))).
    { unfold apply_filters. rewrite Hd, Hsnap. cbn [filter_raising].
      unfold distance_ok.
      rewrite (value_le_number_text _ text (number_or_default _ 0 Hdst)). reflexivity. }
    rewrite <- (Herr _ E). exact Hrun.
  - intros Hsnap.
    assert (E : apply_filters args snapshot = inr []).
    { rewrite Hsnap. unfold apply_filters.
      destruct (filter_distance args); destruct (filter_altitude args); reflexivity. }
    exists resp. split; [exact Hrun |]. split; [apply Hok; exact E | apply (Hsuccess _ E)].
Qed.

Lemma data_filters_compose_witness :
  exists resp,
    run (_get_aircraft_data
           (serve (receiver_at 1 1)
                  (snapshot_of [plane "A1B2C3" "KLM12" 2 2 (Some (Py.VInt 20000));
                                plane_without_position "4840D6" None]))
           (DataArgs None (Some (Py.VFloat 30%R)) None))
    = (inr resp, ["aircraft.json"%string]) /\
    (forall e, resp <> DataError e) /\
    Subsequence (data_listing resp)
      [plane "A1B2C3" "KLM12" 2 2 (Some (Py.VInt 20000));
       plane_without_position "4840D6" None].
Proof.
  destruct (proj1 (proj2 (@data_filters_compose
              (serve (receiver_at 1 1)
                     (snapshot_of [plane "A1B2C3" "KLM12" 2 2 (Some (Py.VInt 20000));
                                   plane_without_position "4840D6" None]))
              (DataArgs None (Some (Py.VFloat 30%R)) None)
              (snapshot_of [plane "A1B2C3" "KLM12" 2 2 (Some (Py.VInt 20000));
                            plane_without_position "4840D6" None])
              eq_refl)))
    as [resp [Hrun [Hok [_ [Hsub _]]]]].
  - split; [reflexivity |]. split; [intros range E; discriminate E |].
    repeat constructor.
  - exists resp. split; [exact Hrun |]. split; [exact Hok | exact Hsub].
Defined.

(** ** The server configuration *)

Lemma append_empty_r (s : string) : (s ++ "")%string = s.
Proof. induction s as [| a t IH]; cbn [append]; [reflexivity | rewrite IH; reflexivity]. Qed.

Lemma append_assoc_str (s t u : string) : ((s ++ t) ++ u)%string = (s ++ t ++ u)%string.
Proof. induction s as [| a r IH]; cbn [append]; [reflexivity | rewrite IH; reflexivity]. Qed.

Lemma slash_in_chars (c : ascii) :
  Py.str_in (String c EmptyString) "/" = Ascii.eqb c "/".
Proof. cbn. destruct (Ascii.eqb c "/"); reflexivity. Qed.

Lemma rstrip_chars_slash_app (s : string) :
  rstrip_chars "/" (s ++ "/") = rstrip_chars "/" s.
Proof.
  induction s as [| c r IH]; [reflexivity |].
  cbn [append rstrip_chars]. rewrite IH. reflexivity.
Qed.

Lemma rstrip_chars_no_slash (s : string) :
  ends_with "/" (rstrip_chars "/" s) = false.
Proof.
  induction s as [| c r IH]; [reflexivity |].
  cbn [rstrip_chars]. destruct (rstrip_chars "/" r) as [| c' r'] eqn:E.
  - rewrite slash_in_chars. destruct (Ascii.eqb c "/") eqn:Ec; [reflexivity |].
    cbn [ends_with]. exact Ec.
  - cbn [ends_with] in *. exact IH.
Qed.

Lemma rstrip_chars_id (s : string) :
  ends_with "/" s = false -> rstrip_chars "/" s = s.
Proof.
  induction s as [| c r IH]; [reflexivity |].
  intros H. cbn [rstrip_chars]. destruct r as [| c' r'].
  - cbn [rstrip_chars ends_with] in *. rewrite slash_in_chars, H. reflexivity.
  - cbn [ends_with] in H. rewrite (IH H). reflexivity.
Qed.

Lemma ends_with_app (c : ascii) (s t : string) :
  t <> EmptyString -> ends_with c (s ++ t) = ends_with c t.
Proof.
  intros Ht. induction s as [| a r IH]; [reflexivity |].
  cbn [append ends_with]. rewrite <- IH.
  destruct (r ++ t)%string eqn:E; [| reflexivity].
  destruct r; [cbn [append] in E; contradiction | discriminate].
Qed.

(** X21: slashes at the end of the configured URL are ignored, and no base
    address ends with a slash: the addresses the server builds from
    [api_base] and [web_base] have one slash at the joint, never two. *)
Theorem init_ignores_trailing_slashes (url : string) :
  __init__ (url ++ "/") = __init__ url /\
  __init__ (base_url (__init__ url)) = __init__ url /\
  ends_with "/" (base_url (__init__ url)) = false /\
  ends_with "/" (api_base (__init__ url)) = false /\
  ends_with "/" (json_base (__init__ url)) = false /\
  ends_with "/" (web_base (__init__ url)) = false.
Proof.
  assert (Hbase : base_url (__init__ url) = rstrip_chars "/" url).
  { unfold __init__. destruct (Py.str_in _ _); reflexivity. }
  split; [unfold __init__; rewrite rstrip_chars_slash_app; reflexivity |].
  split.
  { rewrite Hbase. unfold __init__.
    rewrite (rstrip_chars_id _ (rstrip_chars_no_slash url)). reflexivity. }
  split; [rewrite Hbase; apply rstrip_chars_no_slash |].
  unfold __init__. destruct (Py.str_in _ _); cbn [api_base json_base web_base];
    rewrite ?ends_with_app by discriminate;
    repeat split; try reflexivity; apply rstrip_chars_no_slash.
Qed.

Lemma split_go_plain (cur s : string) :
  without_char "/" s = true ->
  forall rest,
    split_go "//" 0 cur (s ++ rest) = split_go "//" 0 (cur ++ s) rest.
Proof.
  revert cur. induction s as [| c r IH]; intros cur H rest.
  - cbn [append]. rewrite append_empty_r. reflexivity.
  - cbn [without_char] in H. apply andb_true_iff in H. destruct H as [Hc Hr].
    apply negb_true_iff in Hc.
    cbn [append split_go Py.startswith]. rewrite (Ascii.eqb_sym "/" c), Hc. cbn [andb].
    rewrite (IH _ Hr), append_assoc_str. reflexivity.
Qed.

Lemma split_go_end (cur s : string) :
  without_char "/" s = true -> split_go "//" 0 cur s = [(cur ++ s)%string].
Proof.
  intros H. pose proof (split_go_plain cur s H EmptyString) as E.
  rewrite append_empty_r in E. rewrite E. reflexivity.
Qed.

(** The piece after the double slash of [scheme//host]. *)
Lemma split_scheme (scheme host : string) :
  without_char "/" scheme = true -> without_char "/" host = true ->
  split "//" (scheme ++ "//" ++ host) = [scheme; host].
Proof.
  intros Hs Hh. unfold split. rewrite (split_go_plain EmptyString scheme Hs).
  cbn [append split_go Py.startswith Ascii.eqb Bool.eqb andb String.length Nat.sub].
  rewrite (split_go_end EmptyString host Hh). reflexivity.
Qed.

Lemma colon_in (s : string) : Py.str_in ":" s = negb (without_char ":" s).
Proof.
  induction s as [| a r IH]; [reflexivity |].
  cbn [Py.str_in Py.startswith without_char]. rewrite IH, (Ascii.eqb_sym ":" a).
  destruct (Ascii.eqb a ":"); destruct (without_char ":" r); reflexivity.
Qed.

Lemma ends_with_without (c : ascii) (s : string) :
  without_char c s = true -> ends_with c s = false.
Proof.
  induction s as [| a r IH]; [reflexivity |].
  cbn [without_char]. intros H. apply andb_true_iff in H. destruct H as [Ha Hr].
  apply negb_true_iff in Ha. cbn [ends_with]. destruct r; [exact Ha | apply IH; exact Hr].
Qed.

(** X22: for a URL [scheme//host] whose host part holds no slash, the colon
    of the scheme is not taken for a port.  A host without colon gets the
    standard ports: 80 for the API, 30047 for the JSON output, 8080 for
    the web interface.  A host with a colon (an explicit port) is used as
    it is for the three bases. *)
Theorem init_ports (scheme host : string) :
  without_char "/" scheme = true ->
  without_char "/" host = true ->
  host <> EmptyString ->
  let url := (scheme ++ "//" ++ host)%string in
  (without_char ":" host = true ->
   __init__ url
   = {| base_url := url;
        api_port := Some 80%Z; json_port := Some 30047%Z; web_port := Some 8080%Z;
        api_base := (url ++ ":80/data")%string;
        json_base := (url ++ ":30047")%string;
        web_base := (url ++ ":8080")%string |}) /\
  (without_char ":" host = false ->
   __init__ url
   = {| base_url := url;
        api_port := None; json_port := None; web_port := None;
        api_base := (url ++ "/data")%string;
        json_base := url;
        web_base := url |}).
Proof.
  intros Hs Hh Hne url.
  assert (Hstrip : rstrip_chars "/" url = url).
  { apply rstrip_chars_id. unfold url.
    rewrite ends_with_app.
    - rewrite ends_with_app by exact Hne. apply ends_with_without. exact Hh.
    - destruct host; [contradiction | discriminate]. }
  assert (Hlast : last (split "//" url) EmptyString = host).
  { unfold url. rewrite (split_scheme scheme host Hs Hh). reflexivity. }
  unfold __init__. rewrite Hstrip, Hlast, colon_in.
  split; intros Hc; rewrite Hc; reflexivity.
Qed.

Lemma init_ports_witness :
  __init__ "http://ultrafeeder"
  = {| base_url := "http://ultrafeeder";
       api_port := Some 80%Z; json_port := Some 30047%Z; web_port := Some 8080%Z;
       api_base := "http://ultrafeeder:80/data";
       json_base := "http://ultrafeeder:30047";
       web_base := "http://ultrafeeder:8080" |} /\
  __init__ "http://192.168.1.5:8080"
  = {| base_url := "http://192.168.1.5:8080";
       api_port := None; json_port := None; web_port := None;
       api_base := "http://192.168.1.5:8080/data";
       json_base := "http://192.168.1.5:8080";
       web_base := "http://192.168.1.5:8080" |}.
Proof.
  split.
  - apply (proj1 (@init_ports "http:" "ultrafeeder" eq_refl eq_refl
                    ltac:(discriminate))).
    reflexivity.
  - apply (proj2 (@init_ports "http:" "192.168.1.5:8080" eq_refl eq_refl
                    ltac:(discriminate))).
    reflexivity.
Defined.

(** The pieces [split] and [rstrip_chars] give on small texts. *)
Example split_and_rstrip_cases :
  split "//" "a///b" = ["a"; "/b"]%string /\
  split "//" "a//" = ["a"; ""]%string /\
  split "//" "localhost" = ["localhost"%string] /\
  rstrip_chars "/" "http://host//" = "http://host"%string.
Proof. repeat split; reflexivity. Qed.

(** ** The range statistics *)

(** X23: when both fetches succeed the range statistics answer reports the
    receiver location whenever both coordinates are present, a coordinate
    equal to 0 included, while the closest-aircraft handler on the same
    receiver document answers that the location cannot be determined; each
    range line is there exactly when its bucket has a ["max_distance"], and
    gives the metres and the metres times 0.000539957. *)
Theorem range_statistics_answer (api : upstream) (rdoc : document)
    (sdoc : stats_document) :
  api "receiver.json"%string = inr rdoc ->
  exists location,
    run (_get_range_statistics api (inr sdoc))
    = (inr (RangeStatistics location
              (range_line (st_total sdoc)) (range_line (st_last15min sdoc))),
       ["receiver.json"; "stats.json"]%string) /\
    (forall rlat rlon,
        doc_lat rdoc = Some rlat -> doc_lon rdoc = Some rlon ->
        location = Some (rlat, rlon) /\
        (rlat = 0%R \/ rlon = 0%R ->
         run (_get_closest_aircraft api (ClosestArgs None None))
         = (inr ClosestNoLocation, ["receiver.json"%string]))) /\
    (doc_lat rdoc = None \/ doc_lon rdoc = None -> location = None) /\
    (forall bucket metres,
        sb_max_distance bucket = Some metres ->
        range_line (Some bucket) = Some (metres, (metres * 0.000539957)%R)) /\
    (forall bucket, sb_max_distance bucket = None -> range_line (Some bucket) = None) /\
    range_line None = None.
Proof.
  intros Hr.
  exists (match doc_lat rdoc, doc_lon rdoc with
          | Some rlat, Some rlon => Some (rlat, rlon)
          | _, _ => None
          end).
  split.
  { unfold _get_range_statistics, run, try_except, bind, _fetch_json, _fetch_stats.
    rewrite Hr. reflexivity. }
  split.
  { intros rlat rlon Hlat Hlon. rewrite Hlat, Hlon. split; [reflexivity |].
    intros Hzero. apply (closest_handler_unlocated api (ClosestArgs None None) eq_refl Hr).
    rewrite Hlat, Hlon. cbn [Py.truthy_opt]. apply orb_true_iff.
    destruct Hzero as [-> | ->];
      [left | right]; rewrite (proj2 (truthy_false_iff 0%R) eq_refl); reflexivity. }
  split.
  { intros [H | H]; rewrite H; [reflexivity |]. destruct (doc_lat rdoc); reflexivity. }
  split.
  { intros bucket metres H. unfold range_line. rewrite H. reflexivity. }
  split.
  { intros bucket H. unfold range_line. rewrite H. reflexivity. }
  reflexivity.
Qed.

Lemma range_statistics_answer_witness :
  exists location,
    run (_get_range_statistics
           (serve (receiver_at 0 (-78.5)) (snapshot_of []))
           (inr (StatsDocument
                   (Some (StatsBucket None None (Some 370400%R))) None None None)))
    = (inr (RangeStatistics location
              (Some (370400, 370400 * 0.000539957)%R) None),
       ["receiver.json"; "stats.json"]%string) /\
    location = Some (0, -78.5)%R /\
    run (_get_closest_aircraft
           (serve (receiver_at 0 (-78.5)) (snapshot_of []))
           (ClosestArgs None None))
    = (inr ClosestNoLocation, ["receiver.json"%string]).
Proof.
  destruct (@range_statistics_answer
              (serve (receiver_at 0 (-78.5)) (snapshot_of []))
              (receiver_at 0 (-78.5))
              (StatsDocument (Some (StatsBucket None None (Some 370400%R))) None None None)
              eq_refl)
    as [location [Hrun [Hloc _]]].
  destruct (Hloc 0%R (-78.5)%R eq_refl eq_refl) as [E Hclosest].
  exists location. split; [exact Hrun |]. split; [exact E |].
  apply Hclosest. left. reflexivity.
Defined.

(** X24: the range statistics need both documents: when [receiver.json]
    cannot be fetched the answer is the error text and [stats.json] is not
    fetched, although the location line is optional; when [stats.json]
    cannot be fetched the answer is the error text too.  The receiver
    statistics answer with the error text when [stats.json] fails and with
    the summary unless another format than "summary" is asked. *)
Theorem statistics_handlers_failures (api : upstream) (e : exn) :
  (api "receiver.json"%string = inl e ->
   forall stats_api,
     run (_get_range_statistics api stats_api)
     = (inr (RangeError e), ["receiver.json"%string])) /\
  (forall rdoc,
      api "receiver.json"%string = inr rdoc ->
      run (_get_range_statistics api (inl e))
      = (inr (RangeError e), ["receiver.json"; "stats.json"]%string)) /\
  (forall format,
      run (_get_receiver_stats (inl e) format)
      = (inr (StatsError e), ["stats.json"%string])) /\
  (forall sdoc,
      run (_get_receiver_stats (inr sdoc) None)
      = (inr (StatsSummary sdoc), ["stats.json"%string]) /\
      forall format,
        format <> "summary"%string ->
        run (_get_receiver_stats (inr sdoc) (Some format))
        = (inr (StatsJson sdoc), ["stats.json"%string])).
Proof.
  split; [| split; [| split]].
  - intros Hr stats_api.
    unfold _get_range_statistics, run, try_except, bind, _fetch_json.
    rewrite Hr. reflexivity.
  - intros rdoc Hr.
    unfold _get_range_statistics, run, try_except, bind, _fetch_json, _fetch_stats.
    rewrite Hr. reflexivity.
  - intros format. reflexivity.
  - intros sdoc. split; [reflexivity |].
    intros format Hf. apply String.eqb_neq in Hf.
    unfold _get_receiver_stats, run, try_except, bind, _fetch_stats.
    cbn [Py.get app]. rewrite Hf. reflexivity.
Qed.

Lemma statistics_handlers_failures_witness :
  run (_get_range_statistics
         (fun _ => inl (FetchError "receiver.json" "timed out"))
         (inr (StatsDocument None None None None)))
  = (inr (RangeError (FetchError "receiver.json" "timed out")), ["receiver.json"%string]).
Proof.
  apply (proj1 (@statistics_handlers_failures
                  (fun _ => inl (FetchError "receiver.json" "timed out"))
                  (FetchError "receiver.json" "timed out"))).
  reflexivity.
Defined.

(** ** The summary of the aircraft list *)

Lemma enumerate_from_length {A : Type} (i : nat) (l : list A) :
  List.length (enumerate_from i l) = List.length l.
Proof.
  revert i. induction l as [| x r IH]; intros i; [reflexivity |].
  cbn [enumerate_from List.length]. rewrite IH. reflexivity.
Qed.

Lemma with_pos_candidates (flat flon : R) (l : list aircraft_t) :
  with_pos l = List.length (closest_candidates flat flon None l).
Proof.
  unfold with_pos, closest_candidates, position.
  induction l as [| a r IH]; [reflexivity |].
  cbn [filter flat_map]. rewrite length_app, <- IH.
  destruct (lat a); destruct (lon a); reflexivity.
Qed.

Lemma filter_length_subsequence {A : Type} (p : A -> bool) (sub l : list A) :
  Subsequence sub l -> (List.length (filter p sub) <= List.length (filter p l))%nat.
Proof.
  intros H. induction H as [| x sub l H IH | x sub l H IH]; cbn [filter].
  - lia.
  - destruct (p x); cbn [List.length]; lia.
  - destruct (p x); cbn [List.length]; lia.
Qed.

(** X25: the summary counts what the other handlers see.  "With Position"
    is the number of aircraft with both coordinates, which is the number of
    aircraft a closest query without limit ranks, and is at most "Total
    Aircraft"; filtering the list never raises it, whatever list the
    filters return, and they return one when they compare numbers only.
    At most 10 aircraft get
    an entry, the first ones, and the closing line is written exactly when
    there are more than 10; an empty list gives the three head lines only. *)
Theorem summary_counts (self : server) (str_num : R -> string)
    (aircraft_list : list aircraft_t) :
  (forall flat flon,
      with_pos aircraft_list
      = List.length (closest_candidates flat flon None aircraft_list)) /\
  (with_pos aircraft_list <= List.length aircraft_list)%nat /\
  (forall args kept,
      apply_filters args aircraft_list = inr kept ->
      (with_pos kept <= with_pos aircraft_list)%nat) /\
  (forall args,
      numeric_filters args aircraft_list ->
      exists kept,
        apply_filters args aircraft_list = inr kept /\
        (with_pos kept <= with_pos aircraft_list)%nat) /\
  List.length (summary_entries self str_num aircraft_list)
  = Nat.min 10 (List.length aircraft_list) /\
  summary_entries self str_num aircraft_list
  = summary_entries self str_num (firstn 10 aircraft_list) /\
  (summary_more aircraft_list = EmptyString <-> (List.length aircraft_list <= 10)%nat) /\
  (forall full_data,
      _format_aircraft_summary self str_num [] full_data
      = ("Aircraft Summary (Updated: " ++ num_or_unknown str_num (doc_now full_data) ++ ")"
         ++ nl ++ "Total Aircraft: 0" ++ nl ++ "With Position: 0" ++ nl ++ nl)%string).
Proof.
  split; [intros; apply with_pos_candidates |].
  split; [unfold with_pos; apply filter_length_le |].
  split.
  { intros args kept E. unfold with_pos. apply filter_length_subsequence.
    exact (apply_filters_subsequence args aircraft_list E). }
  split.
  { intros args Hnum. exists (filter (keeps args) aircraft_list).
    split; [exact (apply_filters_numeric Hnum) |].
    unfold with_pos. apply filter_length_subsequence. apply filter_subsequence. }
  split.
  { unfold summary_entries. rewrite length_map, enumerate_from_length, length_firstn.
    reflexivity. }
  split.
  { unfold summary_entries. rewrite firstn_firstn. reflexivity. }
  split.
  { unfold summary_more. destruct (10 <? List.length aircraft_list)%nat eqn:E.
    - apply Nat.ltb_lt in E. split; [discriminate | lia].
    - apply Nat.ltb_ge in E. split; [intros _; exact E | reflexivity]. }
  intros full_data. unfold _format_aircraft_summary. cbn [List.length with_pos filter].
  rewrite !append_empty_r. reflexivity.
Qed.

Lemma summary_counts_witness :
  (with_pos [plane "A1B2C3" "KLM12" 2 2 (Some (Py.VInt 20000))]
   <= with_pos [plane "A1B2C3" "KLM12" 2 2 (Some (Py.VInt 20000));
                plane_without_position "4840D6" None])%nat.
Proof.
  refine (proj1 (proj2 (proj2 (@summary_counts (__init__ "http://h") (fun _ => EmptyString)
            [plane "A1B2C3" "KLM12" 2 2 (Some (Py.VInt 20000));
             plane_without_position "4840D6" None])))
            (DataArgs None None (Some (AltitudeFilter (Some (Py.VInt 10000)) None)))
            [plane "A1B2C3" "KLM12" 2 2 (Some (Py.VInt 20000))] _).
  unfold apply_filters. cbn [filter_distance filter_altitude filter_raising].
  unfold altitude_ok, value_le, plane, plane_without_position.
  cbn [alt_baro Py.get af_min af_max Py.le Py.as_number].
  repeat decide_leb. reflexivity.
Defined.

(** One entry, as the server configured for [http://h] writes it. *)
Example summary_entry_text (str_num : R -> string) :
  summary_entry (__init__ "http://h") str_num 0 (plane "A1B2C3" "KLM12   " 2 2 None)
  = (" 1. KLM12    (A1B2C3)" ++ nl
     ++ "     Map Link: http://h:8080/?icao=A1B2C3" ++ nl
     ++ "     Alt: Unknown ft, Dist: Unknown nm" ++ nl)%string.
Proof. reflexivity. Qed.
